(** * SuperBot dashboard: a shallow embedding of the client-side logic

    The dashboard is a Next.js/React front end.  What it decides on its own
    (which request to send, what to keep in local storage, which control to
    offer, what text to show for a message) is embedded here as programs
    over explicit state: a handler reads and writes the browser and the
    component's [useState] cells, awaits replies from the API, and returns
    or throws.  Data from the server is kept as the JavaScript values the
    code receives, and read the way the code reads it.

    Source embedded, by file or, where the file goes unnamed, by component:
    - the REST client imported as [@/lib/api]        (module [Api])
    - [LoginPage], [AdminDashboard], and
      [app/dash/layout.tsx]                          (module [Session])
    - [app/dash/conversations/page.tsx]              (module [ConversationList])
    - [MetaConfigWizardPage]                         (module [MetaConfig])
    - [lib/i18n/index.tsx]                           (module [I18n])
    - [hooks/useConversation.ts]                     (module [UseConversation])
    - [app/dash/conversations/[project_id]/[conversation_id]/page.tsx]
                            (modules [Viewer] and [ConversationViewerPage])
    - [app/live/[token]/page.tsx]                    (module [Live])

    and, beside these:
    - the string methods the list filters call       (module [JsText])
    - the filters of the portal's list and of the
      dashboard's list           (modules [PortalList] and [DashList])
    - what [PortalPage] returns                      (module [PortalPage])
    - labels, icons and the share link of the staff
      viewer                                         (module [StaffViewer])
    - [components/Sidebar.tsx]                       (module [Sidebar])
    - [slugify] of the admin page                    (module [Slug])
    - the other two copies of [@/lib/api] and the
      endpoint helpers   (modules [ApiRuntime], [ApiBare], [Endpoints])
    - [AdminDashboard] of [app/page.tsx]             (module [AdminDashboard])
    - [app/dash/config/page.tsx]                     (module [ConfigIndex]) *)

From stdpp Require Import base option list strings gmap pretty.
From Stdlib Require Import Ascii Lia.

Set Warnings "-register-all".

(** ** JavaScript values as the dashboard meets them

    Everything the server sends is JSON; the code reads it through property
    access, optional chaining, truthiness tests and template strings. *)
Module Js.

(** A number is carried by its canonical rendering, the string [String(n)]
    gives (["0"], ["42"], ["1.5"]); both zeros render ["0"] and JSON has no
    NaN, so a number is falsy exactly when its rendering is ["0"]. *)
Inductive value : Type :=
| VUndef
| VNull
| VBool (b : bool)
| VNum (repr : string)
| VStr (s : string)
| VArr (items : list value)
| VObj (props : list (string * value)).

(** What the code throws and catches: the built-in errors (only their
    [message] is ever read) and axios' error, whose [response] is absent
    when no answer arrived. *)
Inductive exn : Type :=
| TypeError (message : string)
| SyntaxError (message : string)
| Error (message : string)
| AxiosError (response : option (nat * value)) (message : string).

Definition message (e : exn) : string :=
  match e with
  | TypeError m | SyntaxError m | Error m | AxiosError _ m => m
  end.

(** Evaluation of an expression or a block: a value or a thrown exception. *)
Inductive result (A : Type) : Type :=
| Return (a : A)
| Throw (e : exn).
Arguments Return {A} a.
Arguments Throw {A} e.

Definition bind {A B} (r : result A) (k : A -> result B) : result B :=
  match r with Return a => k a | Throw e => Throw e end.

Global Instance result_ret : MRet result := @Return.
Global Instance result_bind : MBind result := fun A B k r => bind r k.

(** [try { body } catch { handler }] *)
Definition try_catch {A} (body : result A) (handler : exn -> result A) : result A :=
  match body with Return a => Return a | Throw e => handler e end.

Definition truthy (v : value) : bool :=
  match v with
  | VUndef | VNull => false
  | VBool b => b
  | VNum r => negb (String.eqb r "0")
  | VStr s => negb (String.eqb s "")
  | VArr _ | VObj _ => true
  end.

Definition nullish (v : value) : bool :=
  match v with VUndef | VNull => true | _ => false end.

(** [a || b] *)
Definition or_else (a b : value) : value := if truthy a then a else b.

Fixpoint lookup_prop (k : string) (props : list (string * value)) : value :=
  match props with
  | [] => VUndef
  | (k', v) :: rest => if String.eqb k k' then v else lookup_prop k rest
  end.

Fixpoint has_prop (k : string) (props : list (string * value)) : bool :=
  match props with
  | [] => false
  | (k', _) :: rest => String.eqb k k' || has_prop k rest
  end.

Definition char_at (s : string) (i : nat) : value :=
  match String.get i s with
  | Some c => VStr (String c EmptyString)
  | None => VUndef
  end.

(** Own-property read [v.k] on a value that is neither [null] nor
    [undefined].  The dashboard only reads data keys ([entry], [text],
    [status], ...) and [length]; none of them is inherited from a built-in
    prototype, so own properties are all there is to find. *)
Definition own (v : value) (k : string) : value :=
  match v with
  | VObj props => lookup_prop k props
  | VArr items => if String.eqb k "length" then VNum (pretty (length items)) else VUndef
  | VStr s => if String.eqb k "length" then VNum (pretty (String.length s)) else VUndef
  | _ => VUndef
  end.

(** Indexed read [v[i]] on a value that is neither [null] nor [undefined]. *)
Definition own_at (v : value) (i : nat) : value :=
  match v with
  | VArr items => nth i items VUndef
  | VObj props => lookup_prop (pretty i) props
  | VStr s => char_at s i
  | _ => VUndef
  end.

Definition cannot_read (v : value) (k : string) : exn :=
  TypeError ("Cannot read properties of "
             +:+ (match v with VNull => "null" | _ => "undefined" end)
             +:+ " (reading '" +:+ k +:+ "')").

(** [v.k]: throws on [null] and [undefined]. *)
Definition get (v : value) (k : string) : result value :=
  if nullish v then Throw (cannot_read v k) else Return (own v k).

(** [v[i]] *)
Definition get_at (v : value) (i : nat) : result value :=
  if nullish v then Throw (cannot_read v (pretty i)) else Return (own_at v i).

(** [v?.k] and [v?.[i]]: [undefined] on [null] and [undefined]. *)
Definition opt (v : value) (k : string) : value :=
  if nullish v then VUndef else own v k.

Definition opt_at (v : value) (i : nat) : value :=
  if nullish v then VUndef else own_at v i.

(** A [string | null] as a value. *)
Definition of_option_string (o : option string) : value :=
  match o with Some s => VStr s | None => VNull end.

(** [a === b] against a string literal. *)
Definition is_str (v : value) (lit : string) : bool :=
  match v with VStr s => String.eqb s lit | _ => false end.

(** [a === b].  Primitives compare by value.  Two objects or arrays are
    identical only when they are one and the same object; values parsed
    from different places of a reply never are, and the fields compared in
    the pages ([conversation_id], [status]) are strings. *)
Definition strict_eq (a b : value) : bool :=
  match a, b with
  | VUndef, VUndef | VNull, VNull => true
  | VBool x, VBool y => Bool.eqb x y
  | VNum x, VNum y => String.eqb x y
  | VStr x, VStr y => String.eqb x y
  | _, _ => false
  end.

(** [{ ...o, k: v }] on an object. *)
Fixpoint set_prop (k : string) (v : value) (props : list (string * value))
  : list (string * value) :=
  match props with
  | [] => [(k, v)]
  | (k', v') :: rest =>
      if String.eqb k k' then (k, v) :: rest else (k', v') :: set_prop k v rest
  end.

Fixpoint join (sep : string) (parts : list string) : string :=
  match parts with
  | [] => ""
  | [p] => p
  | p :: rest => p +:+ sep +:+ join sep rest
  end.

(** [String(v)] as a template string applies it.  An object parsed from
    JSON renders ["[object Object]"] through the inherited [toString]; if it
    carries an own [toString] entry, that entry (a JSON value, so not
    callable) shadows the inherited method, [valueOf] hands back the object
    itself, and the conversion throws. *)
Fixpoint to_string (v : value) : result string :=
  match v with
  | VUndef => Return "undefined"
  | VNull => Return "null"
  | VBool true => Return "true"
  | VBool false => Return "false"
  | VNum r => Return r
  | VStr s => Return s
  | VArr items =>
      parts ← (fix each (l : list value) : result (list string) :=
                  match l with
                  | [] => Return []
                  | x :: rest =>
                      p ← (if nullish x then Return "" else to_string x);
                      ps ← each rest;
                      Return (p :: ps)
                  end) items;
      Return (join "," parts)
  | VObj props =>
      if has_prop "toString" props
      then Throw (TypeError "Cannot convert object to primitive value")
      else Return "[object Object]"
  end.

End Js.

(** ** The staff conversation viewer, its messages:
       [app/dash/conversations/[project_id]/[conversation_id]/page.tsx] *)
Module Viewer.
Import Js.

(** [interface Message]: [text] is [string | null]; [media] and
    [raw_payload] are [any]. *)
Record Message : Type := {
  msg_id : string;
  direction : string;
  message_type : string;
  text : option string;
  media : value;
  raw_payload : value;
  created_at : string;
}.

(** [raw.entry?.[0]?.messaging?.[0]] *)
Definition first_messaging (raw : value) : result value :=
  entry ← get raw "entry";
  Return (opt_at (opt (opt_at entry 0) "messaging") 0).

(** The body of the [try] block.  [Some v] is [return v] from inside the
    block, [None] is running off its end. *)
Definition getMessageText_try (raw : value) : result (option value) :=
  messaging ← first_messaging raw;
  let m := opt messaging "message" in
  if truthy (opt m "text") then
    t ← get m "text"; Return (Some t)
  else if truthy (opt (opt m "reply_to") "story") then
    Return (Some (VStr "[Resposta a story]"))
  else if truthy (opt (opt m "attachments") "length") then
    attachments ← get m "attachments";
    first ← get_at attachments 0;
    ty ← get first "type";
    t ← to_string (or_else ty (VStr "attachment"));
    Return (Some (VStr ("[" +:+ t +:+ "]")))
  else if truthy (opt messaging "postback") then
    postback ← get messaging "postback";
    title ← get postback "title";
    Return (Some (or_else title (VStr "[postback]")))
  else Return None.

Definition getMessageText (msg : Message) : result value :=
  if truthy (of_option_string (text msg)) then Return (of_option_string (text msg))
  else
    let raw := raw_payload msg in
    if negb (truthy raw) then Return VNull
    else
      r ← try_catch (getMessageText_try raw) (fun _ => Return None);
      match r with
      | Some v => Return v
      | None => Return VNull
      end.

(** The Meta webhook envelope around one messaging event. *)
Definition webhook (messaging : value) : value :=
  VObj [("object", VStr "instagram");
        ("entry", VArr [VObj [("id", VStr "17841400000000000");
                              ("messaging", VArr [messaging])]])].

Definition message_event (m : value) : value :=
  VObj [("sender", VObj [("id", VStr "1")]); ("message", m)].

Definition bare (t : option string) (raw : value) : Message :=
  {| msg_id := "m1"; direction := "in"; message_type := "text"; text := t;
     media := VNull; raw_payload := raw; created_at := "2026-02-12T10:00:00Z" |}.

End Viewer.


(** ** Requests, the browser, and programs that await the network *)
Module Io.
Import Js.

Inductive verb : Type := GET | POST | PATCH | PUT | DELETE.

(** A request to the API as it leaves the browser.  [url] is the path
    below the API base URL; [params] is axios' query-string object, its
    values not yet serialised; [body] is the JSON document sent, if any. *)
Record request : Type := {
  method : verb;
  url : string;
  params : list (string * value);
  headers : list (string * string);
  body : option value;
}.

(** What comes back: an HTTP status with a body that is JSON or is not, or
    nothing at all (connection refused, DNS, CORS). *)
Inductive payload : Type :=
| Json (v : value)
| Text (raw : string).

Inductive reply : Type :=
| Answered (status : nat) (content : payload)
| Unreachable (reason : string).

(** The part of the browser the dashboard writes to. *)
Record browser : Type := {
  localStorage : gmap string string;
  location : string;
}.

Definition getItem (k : string) (b : browser) : option string :=
  localStorage b !! k.

Definition setItem (k v : string) (b : browser) : browser :=
  {| localStorage := <[k := v]> (localStorage b); location := location b |}.

Definition removeItem (k : string) (b : browser) : browser :=
  {| localStorage := delete k (localStorage b); location := location b |}.

(** [window.location.href = path] and [router.push(path)] *)
Definition navigate (path : string) (b : browser) : browser :=
  {| localStorage := localStorage b; location := path |}.

(** A computation that may await replies from the network. *)
Inductive io (A : Type) : Type :=
| Pure (a : A)
| Await (r : request) (k : reply -> io A).
Arguments Pure {A} a.
Arguments Await {A} r k.

Fixpoint io_bind {A B} (p : io A) (f : A -> io B) : io B :=
  match p with
  | Pure a => f a
  | Await r k => Await r (fun x => io_bind (k x) f)
  end.

Fixpoint io_map {A B} (f : A -> B) (p : io A) : io B :=
  match p with
  | Pure a => Pure (f a)
  | Await r k => Await r (fun x => io_map f (k x))
  end.

(** An async function of a component: it reads and writes the browser and
    the component's state [S], awaits replies, and returns or throws. *)
Record prog (S A : Type) : Type := Prog {
  exec : browser -> S -> io (browser * S * result A)
}.
Arguments Prog {S A} exec.
Arguments exec {S A} p b s.

Definition ret {S A} (a : A) : prog S A :=
  Prog (fun b s => Pure (b, s, Return a)).

Definition throw {S A} (e : exn) : prog S A :=
  Prog (fun b s => Pure (b, s, Throw e)).

Definition prog_bind {S A B} (p : prog S A) (f : A -> prog S B) : prog S B :=
  Prog (fun b s =>
    io_bind (exec p b s) (fun '(b', s', r) =>
      match r with
      | Return a => exec (f a) b' s'
      | Throw e => Pure (b', s', Throw e)
      end)).

Global Instance prog_ret {S} : MRet (prog S) := fun A => ret.
Global Instance prog_mbind {S} : MBind (prog S) := fun A B f p => prog_bind p f.

(** Lifting a pure evaluation that may throw. *)
Definition eval {S A} (r : result A) : prog S A :=
  Prog (fun b s => Pure (b, s, r)).

Definition state {S} : prog S S :=
  Prog (fun b s => Pure (b, s, Return s)).

(** A [setX(...)] call of a [useState] hook. *)
Definition set {S} (f : S -> S) : prog S unit :=
  Prog (fun b s => Pure (b, f s, Return tt)).

Definition browse {S} : prog S browser :=
  Prog (fun b s => Pure (b, s, Return b)).

Definition update_browser {S} (f : browser -> browser) : prog S unit :=
  Prog (fun b s => Pure (f b, s, Return tt)).

(** Sending a request and awaiting whatever comes back. *)
Definition send {S} (r : request) : prog S reply :=
  Prog (fun b s => Await r (fun x => Pure (b, s, Return x))).

(** [try { body } catch (e) { handler e }] *)
Definition try_catch {S A} (body : prog S A) (handler : exn -> prog S A) : prog S A :=
  Prog (fun b s =>
    io_bind (exec body b s) (fun '(b', s', r) =>
      match r with
      | Return a => Pure (b', s', Return a)
      | Throw e => exec (handler e) b' s'
      end)).

(** [try { body } finally { cleanup }]: [cleanup] runs either way and the
    outcome of [body] stands unless [cleanup] itself throws. *)
Definition try_finally {S A} (body : prog S A) (cleanup : prog S unit) : prog S A :=
  Prog (fun b s =>
    io_bind (exec body b s) (fun '(b', s', r) =>
      io_bind (exec cleanup b' s') (fun '(b'', s'', c) =>
        match c with
        | Return _ => Pure (b'', s'', r)
        | Throw e => Pure (b'', s'', Throw e)
        end))).

(** A call that is not awaited: the caller goes on whatever it returns or
    throws (the promise is dropped). *)
Definition detached {S A} (p : prog S A) : prog S unit :=
  Prog (fun b s =>
    io_bind (exec p b s) (fun '(b', s', _) => Pure (b', s', Return tt))).

(** A hook's function used from a page whose state [T] holds the hook's
    state [S]. *)
Definition zoom {S T A} (view : T -> S) (update : S -> T -> T) (p : prog S A)
  : prog T A :=
  Prog (fun b t =>
    io_map (fun '(b', s', r) => (b', update s' t, r)) (exec p b (view t))).

(** Running a program against a network that gives the replies of
    [replies], one per request in the order the requests are sent, and
    stays silent once the list is used up.  The result is the requests
    sent, in order, and the final browser, state and outcome. *)
Definition silence : reply := Unreachable "Network Error".

Fixpoint run_io {A} (replies : list reply) (p : io A) : list request * A :=
  match p with
  | Pure a => ([], a)
  | Await r k =>
      let '(sent, a) := run_io (tail replies) (k (hd silence replies)) in
      (r :: sent, a)
  end.

Definition run {S A} (replies : list reply) (p : prog S A)
  (b : browser) (s : S) : list request * (browser * S * result A) :=
  run_io replies (exec p b s).

(** Every request a computation can send, whatever the network answers. *)
Fixpoint sends_only {A} (P : request -> Prop) (p : io A) : Prop :=
  match p with
  | Pure _ => True
  | Await r k => P r /\ forall x, sends_only P (k x)
  end.

Definition only {S A} (P : request -> Prop) (p : prog S A) : Prop :=
  forall b s, sends_only P (exec p b s).

(** [setInterval(on_tick, every_ms)] registered by an effect. *)
Record timer (S : Type) : Type := {
  every_ms : N;
  on_tick : prog S unit;
}.
Arguments every_ms {S} t.
Arguments on_tick {S} t.

(** A component over time: its mount effect, then [n] rounds in each of
    which every interval registered for the state of the moment fires
    once.  (Which timer fires first within a round, and how many rounds a
    second holds, is the clock's business; what is sent does not depend
    on it.) *)
Fixpoint in_turn {S} (ps : list (prog S unit)) : prog S unit :=
  match ps with
  | [] => ret tt
  | p :: rest => p;; in_turn rest
  end.

Definition round {S} (timers : S -> list (timer S)) : prog S unit :=
  s ← state;
  in_turn (map on_tick (timers s)).

Fixpoint rounds {S} (timers : S -> list (timer S)) (n : nat) : prog S unit :=
  match n with
  | 0 => ret tt
  | Datatypes.S m => round timers;; rounds timers m
  end.

Definition lifetime {S} (mount : prog S unit) (timers : S -> list (timer S))
  (n : nat) : prog S unit :=
  mount;; rounds timers n.

(** [headers[k]] *)
Definition header (k : string) (r : request) : option string :=
  snd <$> List.find (fun h => String.eqb (fst h) k) (headers r).

(** [needle] occurs in [hay]. *)
Fixpoint contains (needle hay : string) : bool :=
  String.prefix needle hay
  || match hay with
     | EmptyString => false
     | String _ rest => contains needle rest
     end.

(** A request names tenant [t]: in its path, or as its [project_id]
    parameter. *)
Definition scoped_to (t : string) (r : request) : bool :=
  contains t (url r)
  || existsb (fun p => String.eqb (fst p) "project_id" && strict_eq (snd p) (VStr t))
             (params r).

End Io.

(** ** The shared REST client, imported as [@/lib/api]

    The repository holds three copies of the file.  Two of them create an
    axios instance with the same two interceptors, which is what is
    embedded here; the later of the two also learns the API base URL at run
    time, by one fetch of [/api/config] from the dashboard's own server
    before the first request, which changes no request to the API.  The
    third copy wraps bare [axios] calls: it builds the same requests and
    has no response interceptor. *)
Module Api.
Import Js Io.

Record response : Type := {
  status : nat;
  data : value;
}.

Definition set_header (k v : string) (hs : list (string * string))
  : list (string * string) :=
  filter (fun h => negb (String.eqb (fst h) k)) hs ++ [(k, v)].

(** [axios.create({ headers: { 'Content-Type': 'application/json' } })] *)
Definition defaults (m : verb) (u : string) (ps : list (string * value))
  (payload : option value) : request :=
  {| method := m; url := u; params := ps;
     headers := [("Content-Type", "application/json")]; body := payload |}.

(** The request interceptor: the stored JWT, when there is one, goes into
    the [Authorization] header. *)
Definition add_token (b : browser) (config : request) : request :=
  match getItem "token" b with
  | Some token =>
      if negb (String.eqb token "")
      then {| method := method config; url := url config; params := params config;
              headers := set_header "Authorization" ("Bearer " +:+ token) (headers config);
              body := body config |}
      else config
  | None => config
  end.

(** axios' default [transformResponse] and [validateStatus]: the body is
    parsed as JSON when it can be, a status in 200..299 fulfils the promise
    and any other status, or no answer, rejects it. *)
Definition content_data (c : payload) : value :=
  match c with Json v => v | Text raw => VStr raw end.

Definition settle (x : reply) : result response :=
  match x with
  | Answered st c =>
      if Nat.leb 200 st && Nat.ltb st 300
      then Return {| status := st; data := content_data c |}
      else Throw (AxiosError (Some (st, content_data c))
                    ("Request failed with status code " +:+ pretty st))
  | Unreachable reason => Throw (AxiosError None reason)
  end.

(** [error.response?.status === 401] *)
Definition is_unauthorized (error : exn) : bool :=
  match error with
  | AxiosError (Some (st, _)) _ => Nat.eqb st 401
  | _ => false
  end.

(** The response interceptor, first argument: [(response) => response]. *)
Definition on_fulfilled {S} (r : response) : prog S response := ret r.

(** The response interceptor, second argument. *)
Definition on_rejected {S} (error : exn) : prog S response :=
  (if is_unauthorized error
   then update_browser (removeItem "token");;
        update_browser (navigate "/login")
   else ret tt);;
  throw error.

Definition dispatch {S} (config : request) : prog S response :=
  b ← browse;
  x ← send (add_token b config);
  match settle x with
  | Return r => on_fulfilled r
  | Throw error => on_rejected error
  end.

(** [api.get(url, { params })], [api.post(url, data)], [api.patch(url, data)] *)
Definition get {S} (u : string) (ps : list (string * value)) : prog S response :=
  dispatch (defaults GET u ps None).

Definition post {S} (u : string) (payload : value) : prog S response :=
  dispatch (defaults POST u [] (Some payload)).

Definition patch {S} (u : string) (payload : value) : prog S response :=
  dispatch (defaults PATCH u [] (Some payload)).

(** [err.response?.data?.detail] *)
Definition detail (err : exn) : value :=
  match err with
  | AxiosError (Some (_, d)) _ => opt d "detail"
  | _ => VUndef
  end.

End Api.

(** ** Built-ins of the platform the pages call

    [JSON.stringify], [JSON.parse] and [String.prototype.trim] are the
    browser's; the pages only rely on what they return. *)
Class Builtins : Type := {
  JSON_stringify : Js.value -> string;
  JSON_parse : string -> Js.result Js.value;
  trim : string -> string;
}.

(** ** Session and tenant selection:
       [LoginPage], [AdminDashboard], [app/dash/layout.tsx] *)
Module Session.
Import Js Io.

Section Pages.
Context `{Builtins}.
Context {S : Type}.

(** [localStorage.setItem(k, v)] stores [String(v)]. *)
Definition setItem_any (k : string) (v : value) : prog S unit :=
  s ← eval (to_string v);
  update_browser (setItem k s).

(** [JSON.stringify(v)] is [undefined] for [undefined]. *)
Definition stringify (v : value) : value :=
  match v with VUndef => VUndef | _ => VStr (JSON_stringify v) end.

(** [localStorage.getItem(k)]: the stored string or [null]. *)
Definition getItem_value (k : string) (b : browser) : value :=
  of_option_string (getItem k b).

(** [user.role === 'admin' ? localStorage.getItem('active_tenant_id')
                           : user.client_id]
    as every page under [/dash] writes it. *)
Definition tenant_of (b : browser) (user : value) : result value :=
  role ← get user "role";
  if is_str role "admin"
  then Return (getItem_value "active_tenant_id" b)
  else get user "client_id".

(** The common opening of the pages' mount effects:
    [localStorage.getItem('user')], [JSON.parse], then [tenant_of].
    [None] is the early [return] on a missing (or empty) entry. *)
Definition stored_user (b : browser) : option (result value) :=
  match getItem "user" b with
  | None => None
  | Some userData =>
      if String.eqb userData "" then None else Some (JSON_parse userData)
  end.

Definition resolve_tenant (b : browser) : option (result value) :=
  match stored_user b with
  | None => None
  | Some parsed => Some (user ← parsed; tenant_of b user)
  end.

(** [handleOpenDashboard(client)] of the admin page. *)
Definition handleOpenDashboard (client : value) : prog S unit :=
  id ← eval (get client "id");
  setItem_any "active_tenant_id" id;;
  name ← eval (get client "name");
  setItem_any "active_tenant_name" name;;
  update_browser (navigate "/dash").

(** [handleLogout] of the admin page and the sidebar. *)
Definition handleLogout : prog S unit :=
  update_browser (removeItem "token");;
  update_browser (removeItem "user");;
  update_browser (removeItem "active_tenant_id");;
  update_browser (removeItem "active_tenant_name");;
  update_browser (navigate "/login").

End Pages.

(** The login page. *)
Record LoginState : Type := {
  username : string;
  password : string;
  loading : bool;
  error : value;
}.

Definition setError (e : value) (s : LoginState) : LoginState :=
  {| username := username s; password := password s; loading := loading s; error := e |}.

Definition setLoading (l : bool) (s : LoginState) : LoginState :=
  {| username := username s; password := password s; loading := l; error := error s |}.

Definition invalid_credentials : string := "Usuário ou senha inválidos".

Section Login.
Context `{Builtins}.

Definition handleLogin : prog LoginState unit :=
  form ← state;
  set (setError (VStr ""));;
  set (setLoading true);;
  try_finally
    (try_catch
       (response ← Api.post "/api/auth/login"
                     (VObj [("username", VStr (username form));
                            ("password", VStr (password form))]);
        access_token ← eval (get (Api.data response) "access_token");
        user ← eval (get (Api.data response) "user");
        setItem_any "token" access_token;;
        setItem_any "user" (stringify user);;
        (if is_str (opt user "role") "client" && truthy (opt user "client_id")
         then client_id ← eval (get user "client_id");
              setItem_any "active_tenant_id" client_id;;
              client_name ← eval (get user "client_name");
              setItem_any "active_tenant_name" (or_else client_name (VStr ""))
         else ret tt);;
        update_browser
          (navigate (if is_str (opt user "role") "admin" then "/admin" else "/dash")))
       (fun err =>
          set (setError (or_else (Api.detail err) (VStr invalid_credentials)))))
    (set (setLoading false)).

End Login.

(** The guard of [app/dash/layout.tsx]; the state is [ready]. *)
Section Layout.
Context `{Builtins}.

Definition DashLayout_mount : prog bool unit :=
  b ← browse;
  match stored_user b with
  | None => update_browser (navigate "/login")
  | Some parsed =>
      user ← eval parsed;
      tenantId ← eval (tenant_of b user);
      if negb (truthy tenantId)
      then role ← eval (get user "role");
           update_browser (navigate (if is_str role "admin" then "/admin" else "/login"))
      else set (fun _ => true)
  end.

End Layout.

End Session.

(** ** The conversation list: [app/dash/conversations/page.tsx] *)
Module ConversationList.
Import Js Io.

Record State : Type := {
  conversations : value;
  loading : bool;
  error : option string;
  search : string;
  statusFilter : string;
}.

(** [useState] initial values. *)
Definition initial : State :=
  {| conversations := VArr []; loading := true; error := None;
     search := ""; statusFilter := "all" |}.

Definition setConversations (f : value -> value) (s : State) : State :=
  {| conversations := f (conversations s); loading := loading s; error := error s;
     search := search s; statusFilter := statusFilter s |}.

Definition setLoading (l : bool) (s : State) : State :=
  {| conversations := conversations s; loading := l; error := error s;
     search := search s; statusFilter := statusFilter s |}.

Definition setError (e : option string) (s : State) : State :=
  {| conversations := conversations s; loading := loading s; error := e;
     search := search s; statusFilter := statusFilter s |}.

Section Page.
Context `{Builtins}.
(** [t.common_error] of the translation table. *)
Variable common_error : string.

Definition loadConversations (tenantId : value) : prog State unit :=
  try_finally
    (try_catch
       (set (setLoading true);;
        response ← Api.get "/api/conversations/" [("project_id", tenantId)];
        set (setConversations (fun _ => Api.data response)))
       (fun _ => set (setError (Some common_error))))
    (set (setLoading false)).

(** The only effect of the page: [useEffect(() => { ... }, [])]. *)
Definition mount : prog State unit :=
  b ← browse;
  match Session.resolve_tenant b with
  | None => ret tt
  | Some resolved =>
      tenantId ← eval resolved;
      if truthy tenantId then detached (loadConversations tenantId) else ret tt
  end.

(** The page calls [setInterval] nowhere. *)
Definition timers (s : State) : list (timer State) := [].

(** The row's button: [conv.status !== 'handoff'] offers ['handoff'],
    otherwise ['open']. *)
Definition quick_action (conv : value) : result string :=
  st ← get conv "status";
  Return (if negb (is_str st "handoff") then "handoff" else "open").

Definition quick_reason (newStatus : string) : string :=
  if String.eqb newStatus "handoff"
  then "Transferido para humano via lista"
  else "Devolvido ao bot via lista".

Definition with_status (newStatus : string) (c : value) : value :=
  match c with
  | VObj props => VObj (set_prop "status" (VStr newStatus) props)
  | _ => VObj [("status", VStr newStatus)]
  end.

(** [prev.map(c => c.conversation_id === conv.conversation_id
                     ? { ...c, status: newStatus } : c)].
    The rows are the objects of the reply; React runs the updater during
    the next render, where a row that is [null] would fail the render,
    which the model does not follow. *)
Definition mark (conv : value) (newStatus : string) (prev : value) : value :=
  match prev with
  | VArr rows =>
      VArr (map (fun c =>
                   if strict_eq (opt c "conversation_id") (opt conv "conversation_id")
                   then with_status newStatus c else c) rows)
  | _ => prev
  end.

Definition handleQuickStatus (conv : value) (newStatus : string) : prog State unit :=
  try_catch
    (project_id ← eval (v ← get conv "project_id"; to_string v);
     conversation_id ← eval (v ← get conv "conversation_id"; to_string v);
     Api.patch ("/api/conversations/" +:+ project_id +:+ "/" +:+ conversation_id +:+ "/status")
       (VObj [("status", VStr newStatus); ("reason", VStr (quick_reason newStatus))]);;
     set (setConversations (mark conv newStatus)))
    (fun _ => ret tt).

End Page.
End ConversationList.

(** ** The Meta channel wizard: [MetaConfigWizardPage]

    Of the page state only what the tenant lookup and the configuration
    load touch is kept; [config] holds the reply's [data], from which the
    page fills its form fields. *)
Module MetaConfig.
Import Js Io.

Record State : Type := {
  user : value;
  tenantId : value;
  tenantName : value;
  configLoading : bool;
  configError : value;
  config : value;
}.

Definition initial : State :=
  {| user := VNull; tenantId := VStr ""; tenantName := VStr ""; configLoading := true;
     configError := VStr ""; config := VUndef |}.

Definition setUser (u : value) (s : State) : State :=
  {| user := u; tenantId := tenantId s; tenantName := tenantName s;
     configLoading := configLoading s; configError := configError s; config := config s |}.

Definition setTenantId (t : value) (s : State) : State :=
  {| user := user s; tenantId := t; tenantName := tenantName s;
     configLoading := configLoading s; configError := configError s; config := config s |}.

Definition setTenantName (n : value) (s : State) : State :=
  {| user := user s; tenantId := tenantId s; tenantName := n;
     configLoading := configLoading s; configError := configError s; config := config s |}.

Definition setConfigLoading (l : bool) (s : State) : State :=
  {| user := user s; tenantId := tenantId s; tenantName := tenantName s;
     configLoading := l; configError := configError s; config := config s |}.

Definition setConfigError (e : value) (s : State) : State :=
  {| user := user s; tenantId := tenantId s; tenantName := tenantName s;
     configLoading := configLoading s; configError := e; config := config s |}.

Definition setConfig (c : value) (s : State) : State :=
  {| user := user s; tenantId := tenantId s; tenantName := tenantName s;
     configLoading := configLoading s; configError := configError s; config := c |}.

Section Page.
Context `{Builtins}.

Definition load_failed : string := "Erro ao carregar configuração".

(** [e?.response?.data?.detail || e?.message || '...'] *)
Definition failure_text (e : exn) : value :=
  or_else (or_else (Api.detail e) (VStr (message e))) (VStr load_failed).

Definition loadCurrentConfig (id : value) : prog State unit :=
  set (setConfigLoading true);;
  set (setConfigError (VStr ""));;
  try_finally
    (try_catch
       (path ← eval (to_string id);
        res ← Api.get ("/api/config/meta/" +:+ path) [];
        set (setConfig (Api.data res)))
       (fun e => set (setConfigError (failure_text e))))
    (set (setConfigLoading false)).

Definition mount : prog State unit :=
  b ← browse;
  match Session.stored_user b with
  | None => update_browser (navigate "/login")
  | Some parsed =>
      parsedUser ← eval parsed;
      set (setUser parsedUser);;
      role ← eval (get parsedUser "role");
      tId ← eval (Session.tenant_of b parsedUser);
      name ← eval (if is_str role "admin"
                   then Return (or_else (Session.getItem_value "active_tenant_name" b) (VStr ""))
                   else client_name ← get parsedUser "client_name";
                        Return (or_else client_name (VStr "")));
      set (setTenantName name);;
      if negb (truthy tId)
      then update_browser (navigate (if is_str role "admin" then "/admin" else "/login"))
      else set (setTenantId tId);;
           detached (loadCurrentConfig tId)
  end.

End Page.
End MetaConfig.

(** ** The locale provider: [lib/i18n/index.tsx] *)
Module I18n.
Import Js Io.

Section Provider.
Context `{Builtins}.
(** [translations[k]] is truthy: the table of [./translations] has an
    entry for [k]. *)
Variable translated : string -> bool.

(** The provider's state is [locale], initially ['pt']. *)
Definition initial : value := VStr "pt".

Definition resolveTenantId (b : browser) : value :=
  let fallback := Session.getItem_value "active_tenant_id" b in
  match Session.stored_user b with
  | None => fallback
  | Some parsed =>
      match (user ← parsed; Session.tenant_of b user) with
      | Return tenantId => tenantId
      | Throw _ => fallback
      end
  end.

(** [tenantId ? `locale:${tenantId}` : 'locale'] *)
Definition savedKey (tenantId : value) : result string :=
  if truthy tenantId
  then t ← to_string tenantId; Return ("locale:" +:+ t)
  else Return "locale".

(** [saved && translations[saved]] *)
Definition valid_saved (saved : option string) : bool :=
  match saved with
  | Some l => negb (String.eqb l "") && translated l
  | None => false
  end.

(** [clientsAPI.get(id)] *)
Definition clients_get (id : value) : prog value Api.response :=
  path ← eval (to_string id);
  Api.get ("/api/clients/" +:+ path) [].

(** The effect's [run()].  [cancelled] is the flag as it stands when the
    server's answer is handled; before the first [await] the cleanup cannot
    have run, so there the flag is still [false]. *)
Definition run_effect (cancelled : bool) : prog value unit :=
  b ← browse;
  let tenantId := resolveTenantId b in
  key ← eval (savedKey tenantId);
  let saved := getItem key b in
  if valid_saved saved
  then set (fun _ => of_option_string saved)
  else if negb (truthy tenantId) then ret tt
  else
    try_catch
      (res ← clients_get tenantId;
       let serverLocale := opt (opt (Api.data res) "settings") "locale" in
       if truthy serverLocale
       then name ← eval (to_string serverLocale);
            if translated name
            then update_browser (setItem key name);;
                 update_browser (setItem "locale" name);;
                 (if negb cancelled then set (fun _ => serverLocale) else ret tt)
            else ret tt
       else ret tt)
      (fun _ => ret tt).

Definition setLocale (newLocale : string) : prog value unit :=
  set (fun _ => VStr newLocale);;
  b ← browse;
  key ← eval (savedKey (resolveTenantId b));
  update_browser (setItem key newLocale);;
  update_browser (setItem "locale" newLocale).

End Provider.
End I18n.

(** ** The conversation hook: [hooks/useConversation.ts] *)
Module UseConversation.
Import Js Io.

(** [UseConversationOptions]; an absent field takes its default. *)
Record Options : Type := {
  enabled : option bool;
  pollInterval : option N;
}.

Definition enabled_or_default (o : Options) : bool := default true (enabled o).
Definition pollInterval_or_default (o : Options) : N := default 5000%N (pollInterval o).

(** The [useState] cells and the [lastMessageCountRef] of the hook. *)
Record State : Type := {
  conversation : value;
  messages : value;
  loading : bool;
  error : value;
  isPolling : bool;
  sending : bool;
  lastMessageCount : nat;
}.

Definition initial : State :=
  {| conversation := VNull; messages := VArr []; loading := true; error := VNull;
     isPolling := false; sending := false; lastMessageCount := 0 |}.

Definition setConversation (c : value) (s : State) : State :=
  {| conversation := c; messages := messages s; loading := loading s; error := error s;
     isPolling := isPolling s; sending := sending s; lastMessageCount := lastMessageCount s |}.

Definition setMessages (m : value) (s : State) : State :=
  {| conversation := conversation s; messages := m; loading := loading s; error := error s;
     isPolling := isPolling s; sending := sending s; lastMessageCount := lastMessageCount s |}.

Definition setLoading (l : bool) (s : State) : State :=
  {| conversation := conversation s; messages := messages s; loading := l; error := error s;
     isPolling := isPolling s; sending := sending s; lastMessageCount := lastMessageCount s |}.

Definition setError (e : value) (s : State) : State :=
  {| conversation := conversation s; messages := messages s; loading := loading s; error := e;
     isPolling := isPolling s; sending := sending s; lastMessageCount := lastMessageCount s |}.

Definition setIsPolling (p : bool) (s : State) : State :=
  {| conversation := conversation s; messages := messages s; loading := loading s; error := error s;
     isPolling := p; sending := sending s; lastMessageCount := lastMessageCount s |}.

Definition setSending (x : bool) (s : State) : State :=
  {| conversation := conversation s; messages := messages s; loading := loading s; error := error s;
     isPolling := isPolling s; sending := x; lastMessageCount := lastMessageCount s |}.

Definition setLastMessageCount (n : nat) (s : State) : State :=
  {| conversation := conversation s; messages := messages s; loading := loading s; error := error s;
     isPolling := isPolling s; sending := sending s; lastMessageCount := n |}.

(** [data.messages.length > lastMessageCountRef.current], where the length
    is that of an array (or of a string); any other [length] is left out
    of the count. *)
Definition count_of (v : value) : option nat :=
  match v with
  | VArr items => Some (length items)
  | VStr s => Some (String.length s)
  | _ => None
  end.

Section Hook.
Context `{Builtins}.
Variables projectId conversationId : string.

Definition endpoint : string :=
  "/api/conversations/" +:+ projectId +:+ "/" +:+ conversationId.

Definition fetchConversation : prog State unit :=
  try_finally
    (try_catch
       (response ← Api.get endpoint [];
        let data := Api.data response in
        set (setConversation data);;
        msgs ← eval (get data "messages");
        set (setMessages (or_else msgs (VArr [])));;
        _ ← eval (get msgs "length");
        s ← state;
        (match count_of msgs with
         | Some n => if Nat.ltb (lastMessageCount s) n
                     then set (setLastMessageCount n) else ret tt
         | None => ret tt
         end);;
        set (setError VNull))
       (fun err =>
          set (setError (or_else (Api.detail err) (VStr "Erro ao carregar conversa")))))
    (set (setLoading false)).

(** [enabled && projectId && conversationId] *)
Definition active (o : Options) : bool :=
  enabled_or_default o
  && negb (String.eqb projectId "") && negb (String.eqb conversationId "").

(** First effect: the initial load. *)
Definition mount (o : Options) : prog State unit :=
  if active o then detached fetchConversation else ret tt.

(** Second effect: [setIsPolling(true)] and the interval. *)
Definition start_polling (o : Options) : prog State unit :=
  if active o then set (setIsPolling true) else ret tt.

Definition timers (o : Options) : list (timer State) :=
  if active o
  then [ {| every_ms := pollInterval_or_default o; on_tick := detached fetchConversation |} ]
  else [].

(** [refresh] *)
Definition refresh : prog State unit := detached fetchConversation.

(** [new Error(err.response?.data?.detail || fallback)] *)
Definition rethrow {A} (fallback : string) (err : exn) : prog State A :=
  text ← eval (to_string (or_else (Api.detail err) (VStr fallback)));
  throw (Error text).

Definition sendMessage (text : string) : prog State value :=
  set (setSending true);;
  try_finally
    (try_catch
       (resp ← Api.post (endpoint +:+ "/send") (VObj [("text", VStr text)]);
        fetchConversation;;
        ret (Api.data resp))
       (rethrow "Erro ao enviar mensagem"))
    (set (setSending false)).

(** The JSON body [{ status, reason }]; an [undefined] reason is not
    serialised. *)
Definition status_body (status : string) (reason : option string) : value :=
  VObj (("status", VStr status)
        :: match reason with Some r => [("reason", VStr r)] | None => [] end).

Definition updateStatus (status : string) (reason : option string) : prog State value :=
  try_catch
    (resp ← Api.patch (endpoint +:+ "/status") (status_body status reason);
     fetchConversation;;
     ret (Api.data resp))
    (rethrow "Erro ao atualizar status").

End Hook.
End UseConversation.

(** ** The component [ConversationViewerPage] of the staff viewer *)
Module ConversationViewerPage.
Import Js Io.

Record State : Type := {
  hook : UseConversation.State;
  replyText : string;
  sendError : option string;
  statusLoading : bool;
  shareModal : bool;
  shareLink : string;
}.

Definition initial : State :=
  {| hook := UseConversation.initial; replyText := ""; sendError := None;
     statusLoading := false; shareModal := false; shareLink := "" |}.

Definition setHook (h : UseConversation.State) (s : State) : State :=
  {| hook := h; replyText := replyText s; sendError := sendError s;
     statusLoading := statusLoading s; shareModal := shareModal s; shareLink := shareLink s |}.

Definition setReplyText (t : string) (s : State) : State :=
  {| hook := hook s; replyText := t; sendError := sendError s;
     statusLoading := statusLoading s; shareModal := shareModal s; shareLink := shareLink s |}.

Definition setSendError (e : option string) (s : State) : State :=
  {| hook := hook s; replyText := replyText s; sendError := e;
     statusLoading := statusLoading s; shareModal := shareModal s; shareLink := shareLink s |}.

Definition setStatusLoading (l : bool) (s : State) : State :=
  {| hook := hook s; replyText := replyText s; sendError := sendError s;
     statusLoading := l; shareModal := shareModal s; shareLink := shareLink s |}.

(** What the page offers, as far as sending and hand-off go. *)
Inductive StatusButton : Type :=
| Assumir          (* onClick = handleTakeover *)
| DevolverAoBot.   (* onClick = handleReturnToBot *)

Record Controls : Type := {
  live_badge : bool;
  status_button : StatusButton;
  status_button_disabled : bool;
  handoff_banner : option value;
  input_disabled : bool;
  send_disabled : bool;
  error_shown : option string;
}.

Inductive View : Type :=
| Carregando
| NaoEncontrada
| Conversa (c : Controls).

Section Page.
Context `{Builtins}.
(** [params.project_id] and [params.conversation_id] of the route. *)
Variables project_id conversation_id : string.

(** [useConversation(params.project_id, params.conversation_id,
                     { pollInterval: 5000 })] *)
Definition options : UseConversation.Options :=
  {| UseConversation.enabled := None; UseConversation.pollInterval := Some 5000%N |}.

Definition in_hook {A} (p : prog UseConversation.State A) : prog State A :=
  zoom hook setHook p.

Definition sendMessage (text : string) : prog State value :=
  in_hook (UseConversation.sendMessage project_id conversation_id text).

Definition updateStatus (status : string) (reason : option string) : prog State value :=
  in_hook (UseConversation.updateStatus project_id conversation_id status reason).

Definition mount : prog State unit :=
  in_hook (UseConversation.mount project_id conversation_id options);;
  in_hook (UseConversation.start_polling project_id conversation_id options).

Definition timers : list (timer State) :=
  map (fun t => {| every_ms := every_ms t; on_tick := in_hook (on_tick t) |})
      (UseConversation.timers project_id conversation_id options).

(** [!replyText.trim() || sending], the guard of [handleSend] and the
    [disabled] attribute of the send button. *)
Definition cannot_send (s : State) : bool :=
  String.eqb (trim (replyText s)) "" || UseConversation.sending (hook s).

Definition handleSend : prog State unit :=
  s ← state;
  if cannot_send s then ret tt
  else
    set (setSendError None);;
    try_catch
      (sendMessage (trim (replyText s));;
       set (setReplyText ""))
      (fun err => set (setSendError (Some (message err)))).

Definition handleTakeover : prog State unit :=
  set (setStatusLoading true);;
  try_finally
    (try_catch
       (updateStatus "handoff" (Some "Takeover manual pelo dashboard");; ret tt)
       (fun err => set (setSendError (Some (message err)))))
    (set (setStatusLoading false)).

Definition handleReturnToBot : prog State unit :=
  set (setStatusLoading true);;
  try_finally
    (try_catch
       (updateStatus "open" (Some "Devolvido ao bot pelo dashboard");; ret tt)
       (fun err => set (setSendError (Some (message err)))))
    (set (setStatusLoading false)).

Definition onClick (b : StatusButton) : prog State unit :=
  match b with
  | Assumir => handleTakeover
  | DevolverAoBot => handleReturnToBot
  end.

(** [conversation?.status === 'handoff'] *)
Definition isHandoff (s : State) : bool :=
  is_str (opt (UseConversation.conversation (hook s)) "status") "handoff".

(** [conversation?.metadata?.human_takeover_until] *)
Definition takeoverUntil (s : State) : value :=
  opt (opt (UseConversation.conversation (hook s)) "metadata") "human_takeover_until".

Definition render (s : State) : View :=
  if UseConversation.loading (hook s) then Carregando
  else if negb (truthy (UseConversation.conversation (hook s))) then NaoEncontrada
  else Conversa
    {| live_badge := UseConversation.isPolling (hook s);
       status_button := if negb (isHandoff s) then Assumir else DevolverAoBot;
       status_button_disabled := statusLoading s;
       handoff_banner :=
         if isHandoff s && truthy (takeoverUntil s) then Some (takeoverUntil s) else None;
       input_disabled := UseConversation.sending (hook s);
       send_disabled := cannot_send s;
       error_shown := sendError s |}.

End Page.
End ConversationViewerPage.

(** ** The public live portal: [app/live/[token]/page.tsx] *)
Module Live.
Import Js Io.

(** The part of [RequestInit] the page passes. *)
Record RequestInit : Type := {
  init_method : option verb;
  init_headers : list (string * string);
  init_body : option value;
}.

(** [{ 'Content-Type': 'application/json', ...options?.headers }] *)
Definition merged_headers (options : option RequestInit) : list (string * string) :=
  fold_left (fun hs h => Api.set_header (fst h) (snd h) hs)
            (from_option init_headers [] options)
            [("Content-Type", "application/json")].

Definition fetch_request (u : string) (options : option RequestInit) : request :=
  {| method := default GET (options ≫= init_method);
     url := u;
     params := [];
     headers := merged_headers options;
     body := options ≫= init_body |}.

(** [resp.json()] *)
Definition json (c : payload) : result value :=
  match c with
  | Json v => Return v
  | Text _ => Throw (SyntaxError "Unexpected token in JSON")
  end.

(** What [portalFetch] does with the reply. *)
Definition portal_result (x : reply) : result value :=
  match x with
  | Unreachable reason => Throw (TypeError reason)
  | Answered st c =>
      if Nat.leb 200 st && Nat.ltb st 300 then json c
      else
        let body := match json c with Return v => v | Throw _ => VObj [] end in
        detail ← get body "detail";
        text ← to_string (or_else detail (VStr ("Erro " +:+ pretty st)));
        Throw (Error text)
  end.

Definition portalFetch {S} (u : string) (options : option RequestInit) : prog S value :=
  x ← send (fetch_request u options);
  eval (portal_result x).

Inductive PortalType : Type := portal | live_view.

(** *** [PortalPage] *)
Record PageState : Type := {
  portalType : option PortalType;
  conversations : value;
  selectedConv : value;
  loading : bool;
  error : option string;
  search : string;
  statusFilter : string;
}.

Definition initial : PageState :=
  {| portalType := None; conversations := VArr []; selectedConv := VNull;
     loading := true; error := None; search := ""; statusFilter := "all" |}.

Definition setPortalType (p : PortalType) (s : PageState) : PageState :=
  {| portalType := Some p; conversations := conversations s; selectedConv := selectedConv s;
     loading := loading s; error := error s; search := search s; statusFilter := statusFilter s |}.

Definition setConversations (c : value) (s : PageState) : PageState :=
  {| portalType := portalType s; conversations := c; selectedConv := selectedConv s;
     loading := loading s; error := error s; search := search s; statusFilter := statusFilter s |}.

Definition setSelectedConv (c : value) (s : PageState) : PageState :=
  {| portalType := portalType s; conversations := conversations s; selectedConv := c;
     loading := loading s; error := error s; search := search s; statusFilter := statusFilter s |}.

Definition setLoading (l : bool) (s : PageState) : PageState :=
  {| portalType := portalType s; conversations := conversations s; selectedConv := selectedConv s;
     loading := l; error := error s; search := search s; statusFilter := statusFilter s |}.

Definition setError (e : option string) (s : PageState) : PageState :=
  {| portalType := portalType s; conversations := conversations s; selectedConv := selectedConv s;
     loading := loading s; error := e; search := search s; statusFilter := statusFilter s |}.

(** The props [PortalPage] hands to [ConversationView]. *)
Record Props : Type := {
  conversation : value;
  view_type : option PortalType;
  onBack : bool;
}.

(** What [PortalPage] returns: the spinner, the "Link Indisponivel"
    screen, [ConversationView] with its props, or the list, of which the
    count in the header and the rows, each under its key, are kept. *)
Inductive View : Type :=
| Carregando
| LinkIndisponivel (reason : string)
| Detalhe (p : Props)
| PortalDeConversas (count : value) (rows : list (string * value)).

Section Page.
(** [params.token] of the route. *)
Variable token : string.

Definition list_endpoint : string :=
  "/api/live/" +:+ token +:+ "/conversations?limit=100".

Definition detail_endpoint (conversation_id : string) : string :=
  "/api/live/" +:+ token +:+ "/conversations/" +:+ conversation_id.

(** A request that carries nothing but the token in its path: the one
    content-type header, no [Authorization], no query object. *)
Definition anonymous (r : request) : Prop :=
  headers r = [("Content-Type", "application/json")]
  /\ header "Authorization" r = None
  /\ params r = []
  /\ String.prefix ("/api/live/" +:+ token) (url r) = true.

Definition loadConversations : prog PageState unit :=
  try_finally
    (try_catch
       (data ← portalFetch list_endpoint None;
        set (setConversations data);;
        set (setError None))
       (fun err => set (setError (Some (message err)))))
    (set (setLoading false)).

(** First effect: "Detect token type". *)
Definition detect : prog PageState unit :=
  try_catch
    (data ← portalFetch ("/api/live/" +:+ token) None;
     type ← eval (get data "type");
     if is_str type "portal"
     then set (setPortalType portal);;
          detached loadConversations
     else
       messages ← eval (get data "messages");
       if truthy messages
       then set (setPortalType live_view);;
            set (setSelectedConv data);;
            set (setLoading false)
       else ret tt)
    (fun err =>
       set (setError (Some (message err)));;
       set (setLoading false)).

(** Second effect: "Poll conversations list". *)
Definition page_timers (s : PageState) : list (timer PageState) :=
  match portalType s with
  | Some portal => [ {| every_ms := 10000%N; on_tick := detached loadConversations |} ]
  | _ => []
  end.

Definition openConversation (conv : value) : prog PageState unit :=
  try_catch
    (id ← eval (v ← get conv "conversation_id"; to_string v);
     data ← portalFetch (detail_endpoint id) None;
     set (setSelectedConv data))
    (fun err => set (setError (Some (message err)))).

(** [onBack] as passed under a portal token. *)
Definition back : prog PageState unit :=
  set (setSelectedConv VNull);;
  detached loadConversations.

Definition is_portal (p : option PortalType) : bool :=
  match p with Some portal => true | _ => false end.

(** [error && !conversations.length && !selectedConv] *)
Definition unavailable (s : PageState) : result bool :=
  if negb (String.eqb (default "" (error s)) "")
  then count ← get (conversations s) "length";
       Return (negb (truthy count) && negb (truthy (selectedConv s)))
  else Return false.

End Page.

(** *** [ConversationView] *)
Record ViewState : Type := {
  conv : value;
  replyText : string;
  sending : bool;
  sendError : option string;
  statusLoading : bool;
  showFollowup : bool;
  followupDate : string;
}.

(** [useState(initial)] and the other initial values. *)
Definition opened (p : Props) : ViewState :=
  {| conv := conversation p; replyText := ""; sending := false; sendError := None;
     statusLoading := false; showFollowup := false; followupDate := "" |}.

Definition setConv (c : value) (s : ViewState) : ViewState :=
  {| conv := c; replyText := replyText s; sending := sending s; sendError := sendError s;
     statusLoading := statusLoading s; showFollowup := showFollowup s;
     followupDate := followupDate s |}.

Definition setReplyText (t : string) (s : ViewState) : ViewState :=
  {| conv := conv s; replyText := t; sending := sending s; sendError := sendError s;
     statusLoading := statusLoading s; showFollowup := showFollowup s;
     followupDate := followupDate s |}.

Definition setSending (x : bool) (s : ViewState) : ViewState :=
  {| conv := conv s; replyText := replyText s; sending := x; sendError := sendError s;
     statusLoading := statusLoading s; showFollowup := showFollowup s;
     followupDate := followupDate s |}.

Definition setSendError (e : option string) (s : ViewState) : ViewState :=
  {| conv := conv s; replyText := replyText s; sending := sending s; sendError := e;
     statusLoading := statusLoading s; showFollowup := showFollowup s;
     followupDate := followupDate s |}.

Definition setStatusLoading (l : bool) (s : ViewState) : ViewState :=
  {| conv := conv s; replyText := replyText s; sending := sending s; sendError := sendError s;
     statusLoading := l; showFollowup := showFollowup s;
     followupDate := followupDate s |}.

Definition setShowFollowup (x : bool) (s : ViewState) : ViewState :=
  {| conv := conv s; replyText := replyText s; sending := sending s; sendError := sendError s;
     statusLoading := statusLoading s; showFollowup := x;
     followupDate := followupDate s |}.

Definition setFollowupDate (d : string) (s : ViewState) : ViewState :=
  {| conv := conv s; replyText := replyText s; sending := sending s; sendError := sendError s;
     statusLoading := statusLoading s; showFollowup := showFollowup s;
     followupDate := d |}.

(** The hand-off button: its label and the status its [onClick] passes to
    [handleStatusChange]. *)
Inductive StatusButton : Type :=
| Assumir          (* handleStatusChange('handoff') *)
| DevolverAoBot.   (* handleStatusChange('open') *)

Definition target (b : StatusButton) : string :=
  match b with Assumir => "handoff" | DevolverAoBot => "open" end.

Record ReplyBox : Type := {
  input_disabled : bool;
  send_disabled : bool;
  error_shown : option string;
}.

(** What [ConversationView] puts on the page besides the messages. *)
Record Controls : Type := {
  back_button : bool;
  followup_button : bool;
  status_button : option StatusButton;
  status_button_disabled : bool;
  handoff_banner : option value;
  followup_scheduler : bool;
  reply_box : option ReplyBox;
  read_only_footer : bool;
}.

Section View.
Context `{Builtins}.
Variable token : string.
Variable props : Props.

(** [portalType === 'portal'] *)
Definition canAct : bool := is_portal (view_type props).

(** [`/api/live/${token}/conversations/${conv.conversation_id}`] *)
Definition conversation_endpoint (s : ViewState) : result string :=
  id ← get (conv s) "conversation_id";
  text ← to_string id;
  Return (detail_endpoint token text).

(** [refresh] of the polling effect: failures are swallowed. *)
Definition refresh : prog ViewState unit :=
  try_catch
    (s ← state;
     u ← eval (conversation_endpoint s);
     data ← portalFetch u None;
     set (setConv data))
    (fun _ => ret tt).

(** Effect "Poll for updates": registered whatever the token type. *)
Definition view_timers : list (timer ViewState) :=
  [ {| every_ms := 3000%N; on_tick := detached refresh |} ].

(** [!replyText.trim() || sending] *)
Definition cannot_send (s : ViewState) : bool :=
  String.eqb (trim (replyText s)) "" || sending s.

Definition handleSend : prog ViewState unit :=
  s ← state;
  if cannot_send s then ret tt
  else
    set (setSendError None);;
    set (setSending true);;
    try_finally
      (try_catch
         (u ← eval (conversation_endpoint s);
          portalFetch (u +:+ "/send")
            (Some {| init_method := Some POST; init_headers := [];
                     init_body := Some (VObj [("text", VStr (trim (replyText s)))]) |});;
          set (setReplyText "");;
          u' ← eval (conversation_endpoint s);
          data ← portalFetch u' None;
          set (setConv data))
         (fun err => set (setSendError (Some (message err)))))
      (set (setSending false)).

Definition handleStatusChange (newStatus : string) : prog ViewState unit :=
  s ← state;
  set (setStatusLoading true);;
  try_finally
    (try_catch
       (u ← eval (conversation_endpoint s);
        portalFetch (u +:+ "/status")
          (Some {| init_method := Some PATCH; init_headers := [];
                   init_body := Some (VObj [("status", VStr newStatus);
                                            ("reason", VStr "Alterado via portal")]) |});;
        u' ← eval (conversation_endpoint s);
        data ← portalFetch u' None;
        set (setConv data))
       (fun err => set (setSendError (Some (message err)))))
    (set (setStatusLoading false)).

(** [{ next_followup_at: followupDate || null,
       followup_stage: followupDate ? 1 : 0 }] *)
Definition followup_body (date : string) : value :=
  if String.eqb date ""
  then VObj [("next_followup_at", VNull); ("followup_stage", VNum "0")]
  else VObj [("next_followup_at", VStr date); ("followup_stage", VNum "1")].

Definition handleFollowup : prog ViewState unit :=
  s ← state;
  try_catch
    (u ← eval (conversation_endpoint s);
     portalFetch (u +:+ "/followup")
       (Some {| init_method := Some PATCH; init_headers := [];
                init_body := Some (followup_body (followupDate s)) |});;
     set (setShowFollowup false);;
     set (setFollowupDate ""))
    (fun err => set (setSendError (Some (message err)))).

(** [conv.status === 'handoff'] *)
Definition isHandoff (s : ViewState) : result bool :=
  st ← get (conv s) "status";
  Return (is_str st "handoff").

(** [conv.metadata?.human_takeover_until] *)
Definition takeoverUntil (s : ViewState) : result value :=
  metadata ← get (conv s) "metadata";
  Return (opt metadata "human_takeover_until").

Definition render (s : ViewState) : result Controls :=
  _ ← get (conv s) "messages";
  handoff ← isHandoff s;
  until ← takeoverUntil s;
  Return
    {| back_button := onBack props;
       followup_button := canAct;
       status_button :=
         if canAct then Some (if negb handoff then Assumir else DevolverAoBot) else None;
       status_button_disabled := statusLoading s;
       handoff_banner := if handoff && truthy until then Some until else None;
       followup_scheduler := showFollowup s && canAct;
       reply_box :=
         if canAct
         then Some {| input_disabled := sending s; send_disabled := cannot_send s;
                      error_shown := sendError s |}
         else None;
       read_only_footer := negb canAct |}.

End View.
End Live.

(** ** Sample data: one tenant, one staff user, one conversation *)
Module Sample.
Import Js Io.

Definition client_user : value :=
  VObj [("id", VStr "u-7"); ("role", VStr "client");
        ("client_id", VStr "pacific-surf"); ("client_name", VStr "Pacific Surf")].

Definition admin_user : value :=
  VObj [("id", VStr "u-1"); ("role", VStr "admin")].

(** A client-role account that has no client yet. *)
Definition orphan_user : value :=
  VObj [("id", VStr "u-9"); ("role", VStr "client"); ("client_id", VNull)].

Definition is_space (c : ascii) : bool :=
  match c with
  | " "%char | "009"%char | "010"%char | "011"%char | "012"%char | "013"%char => true
  | _ => false
  end.

Fixpoint trim_start (s : string) : string :=
  match s with
  | String c rest => if is_space c then trim_start rest else s
  | EmptyString => s
  end.

Definition trim_ascii (s : string) : string :=
  String.rev (trim_start (String.rev (trim_start s))).

(** A stand-in for the browser's JSON codec that knows the three users
    above, and [trim] on ASCII white space. *)
Definition user_text (v : value) : string :=
  if is_str (own v "id") "u-7" then "{client}"
  else if is_str (own v "id") "u-1" then "{admin}"
  else "{orphan}".

Definition user_of_text (s : string) : result value :=
  if String.eqb s "{client}" then Return client_user
  else if String.eqb s "{admin}" then Return admin_user
  else if String.eqb s "{orphan}" then Return orphan_user
  else Throw (SyntaxError "Unexpected token in JSON").

Definition builtins : Builtins :=
  {| JSON_stringify := user_text; JSON_parse := user_of_text; trim := trim_ascii |}.

Definition fresh_browser : browser :=
  {| localStorage := ∅; location := "/login" |}.

Definition conversation_open : value :=
  VObj [("project_id", VStr "pacific-surf"); ("conversation_id", VStr "5511999990000");
        ("contact_name", VStr "Ana"); ("channel_type", VStr "whatsapp");
        ("status", VStr "open"); ("metadata", VNull);
        ("messages", VArr [])].

Definition conversation_handoff : value :=
  VObj [("project_id", VStr "pacific-surf"); ("conversation_id", VStr "5511999990000");
        ("contact_name", VStr "Ana"); ("channel_type", VStr "whatsapp");
        ("status", VStr "handoff");
        ("metadata", VObj [("human_takeover_until", VStr "2026-02-12T13:00:00Z");
                           ("human_agent_name", VStr "Rui")]);
        ("messages", VArr [])].

Definition ok (v : value) : reply := Answered 200 (Json v).

(** The three locales the pages format dates for. *)
Definition translated (l : string) : bool :=
  String.eqb l "pt" || String.eqb l "es" || String.eqb l "en".

Definition refused (st : nat) (why : string) : reply :=
  Answered st (Json (VObj [("detail", VStr why)])).

End Sample.

(** ** More of JavaScript: the string and array methods the pages call *)
Module JsText.
Import Js Io.

(** Calling a method the value does not have. *)
Definition not_a_function (method : string) : exn :=
  TypeError (method +:+ " is not a function").

(** The string [s] without its first [k] bytes, and its last [n] bytes. *)
Fixpoint skip (k : nat) (s : string) : string :=
  match k, s with
  | S k', String _ rest => skip k' rest
  | _, _ => s
  end.

Definition last_chars (n : nat) (s : string) : string :=
  skip (String.length s - n) s.

(** Text in ASCII: every byte is one character, and one UTF-16 code unit
    of the JavaScript string. *)
Definition ascii_only (s : string) : bool :=
  forallb (fun c => Nat.ltb (nat_of_ascii c) 128) (String.list_ascii_of_string s).

(** [String.prototype.toLowerCase] and [String.prototype.slice] are the
    platform's.  The pages rely on [toLowerCase] only through what it
    returns; the one fact used about it is that it gives the empty string
    for the empty string and for nothing else.  [s.slice(-n)] counts UTF-16
    code units, which the bytes kept here do not show in general; on text
    in ASCII it is the last [n] bytes, all of [s] when it is shorter. *)
Class Strings : Type := {
  toLowerCase : string -> string;
  toLowerCase_empty : forall s, toLowerCase s = "" <-> s = "";
  slice_end : nat -> string -> string;
  slice_end_ascii : forall n s, ascii_only s = true -> slice_end n s = last_chars n s;
}.

Section Methods.
Context `{Strings}.

(** [v.toLowerCase()] *)
Definition lower (v : value) : result string :=
  match v with
  | VStr s => Return (toLowerCase s)
  | VUndef | VNull => Throw (cannot_read v "toLowerCase")
  | _ => Throw (not_a_function "toLowerCase")
  end.

(** [v.toLowerCase().includes(search.toLowerCase())] *)
Definition matches (v : value) (search : string) : result bool :=
  s ← lower v;
  Return (contains (toLowerCase search) s).

(** [v.slice(-n)]: strings and arrays have the method. *)
Definition slice_last (n : nat) (v : value) : result value :=
  match v with
  | VStr s => Return (VStr (slice_end n s))
  | VArr items => Return (VArr (drop (length items - n) items))
  | VUndef | VNull => Throw (cannot_read v "slice")
  | _ => Throw (not_a_function "slice")
  end.

(** [conv.contact_name || `Contato #${(conv.conversation_id || '').slice(-6)}`],
    written the same way in the staff viewer and in the portal's
    [ConversationView]. *)
Definition displayName (conv : value) : result value :=
  name ← get conv "contact_name";
  if truthy name then Return name
  else
    id ← get conv "conversation_id";
    tail ← slice_last 6 (or_else id (VStr ""));
    text ← to_string tail;
    Return (VStr ("Contato #" +:+ text)).

End Methods.

(** [rows.filter(keep)] where the callback may throw. *)
Fixpoint filter_rows (keep : value -> result bool) (rows : list value)
  : result (list value) :=
  match rows with
  | [] => Return []
  | c :: rest =>
      b ← keep c;
      kept ← filter_rows keep rest;
      Return (if b : bool then c :: kept else kept)
  end.

(** [v.filter(keep)] *)
Definition filter_of (v : value) (keep : value -> result bool) : result (list value) :=
  match v with
  | VArr rows => filter_rows keep rows
  | VUndef | VNull => Throw (cannot_read v "filter")
  | _ => Throw (not_a_function "filter")
  end.

End JsText.

(** ** The list of the live portal, as [PortalPage] filters it *)
Module PortalList.
Import Js Io JsText.

Section List.
Context `{Strings}.

(** [!search || (c.contact_name || '')....includes(...)
             || c.conversation_id....includes(...)
             || (c.last_text || '')....includes(...)] *)
Definition matchSearch (search : string) (c : value) : result bool :=
  if String.eqb search "" then Return true
  else
    name ← get c "contact_name";
    by_name ← matches (or_else name (VStr "")) search;
    if by_name : bool then Return true
    else
      id ← get c "conversation_id";
      by_id ← matches id search;
      if by_id : bool then Return true
      else
        last ← get c "last_text";
        matches (or_else last (VStr "")) search.

(** [statusFilter === 'all' || c.status === statusFilter] *)
Definition matchStatus (statusFilter : string) (c : value) : result bool :=
  if String.eqb statusFilter "all" then Return true
  else
    st ← get c "status";
    Return (strict_eq st (VStr statusFilter)).

(** The callback: both constants are computed, then [matchSearch &&
    matchStatus] is returned. *)
Definition keep (search statusFilter : string) (c : value) : result bool :=
  by_search ← matchSearch search c;
  by_status ← matchStatus statusFilter c;
  Return (by_search && by_status).

Definition filtered (s : Live.PageState) : result (list value) :=
  filter_of (Live.conversations s) (keep (Live.search s) (Live.statusFilter s)).

End List.
End PortalList.

(** ** What [PortalPage] returns

    The component's function as far as it computes: the early returns, the
    filter, and per row of the list the key and the date.  What React does
    afterwards with the elements returned is not part of it. *)
Module PortalPage.
Import Js Io JsText.

(** [new Date(v)]: an object or array is turned into a primitive first,
    which can fail; the date, valid or not, is then formatted without
    failing. *)
Definition new_Date (v : value) : result unit :=
  match v with
  | VObj _ | VArr _ => _ ← to_string v; Return tt
  | _ => Return tt
  end.

(** One row as the callback of [filtered.map] builds it.  The key is
    [`${conv.project_id}-${conv.channel_type}-${conv.conversation_id}`];
    of the fields read for the cells only [last_event_at] is computed on,
    by [new Date(...).toLocaleString(...)].  The row is kept under its key
    with the conversation its [onClick] opens. *)
Definition row (conv : value) : result (string * value) :=
  project_id ← get conv "project_id";
  p ← to_string project_id;
  channel_type ← get conv "channel_type";
  c ← to_string channel_type;
  conversation_id ← get conv "conversation_id";
  i ← to_string conversation_id;
  last_event_at ← get conv "last_event_at";
  _ ← new_Date last_event_at;
  Return (p +:+ "-" +:+ c +:+ "-" +:+ i, conv).

(** [filtered.map(...)] *)
Fixpoint rows_of (convs : list value) : result (list (string * value)) :=
  match convs with
  | [] => Return []
  | conv :: rest =>
      r ← row conv;
      rs ← rows_of rest;
      Return (r :: rs)
  end.

Section Page.
Context `{Strings}.

(** The last [return]: the list.  [filtered] is computed first, then the
    header with [conversations.length], then the rows. *)
Definition list_view (s : Live.PageState) : result Live.View :=
  filtered ← PortalList.filtered s;
  count ← get (Live.conversations s) "length";
  rows ← rows_of filtered;
  Return (Live.PortalDeConversas count rows).

Definition render (s : Live.PageState) : result Live.View :=
  if Live.loading s then Return Live.Carregando
  else
    gone ← Live.unavailable s;
    if gone : bool then Return (Live.LinkIndisponivel (default "" (Live.error s)))
    else if truthy (Live.selectedConv s)
    then Return (Live.Detalhe {| Live.conversation := Live.selectedConv s;
                                 Live.view_type := Live.portalType s;
                                 Live.onBack := Live.is_portal (Live.portalType s) |})
    else list_view s.

End Page.
End PortalPage.

(** ** The conversation list of the dashboard, as [ConversationsPage]
       filters it *)
Module DashList.
Import Js Io JsText.

Section List.
Context `{Strings}.

(** As in the portal, but for the last disjunct:
    [conv.last_text?.toLowerCase().includes(search.toLowerCase())], which is
    [undefined] (falsy) when there is no last text. *)
Definition matchSearch (search : string) (conv : value) : result bool :=
  if String.eqb search "" then Return true
  else
    name ← get conv "contact_name";
    by_name ← matches (or_else name (VStr "")) search;
    if by_name : bool then Return true
    else
      id ← get conv "conversation_id";
      by_id ← matches id search;
      if by_id : bool then Return true
      else
        last ← get conv "last_text";
        if nullish last then Return false else matches last search.

Definition keep (search statusFilter : string) (conv : value) : result bool :=
  by_search ← matchSearch search conv;
  by_status ← PortalList.matchStatus statusFilter conv;
  Return (by_search && by_status).

Definition filtered (s : ConversationList.State) : result (list value) :=
  filter_of (ConversationList.conversations s)
            (keep (ConversationList.search s) (ConversationList.statusFilter s)).

End List.
End DashList.

(** ** The staff viewer: message labels and the share link *)
Module StaffViewer.
Import Js Io.

Inductive Icon : Type := Wrench | HandMetal | AlertTriangle | User | Bot.

Definition getMessageIcon (direction message_type : string) : Icon :=
  if String.eqb message_type "tool_call" || String.eqb message_type "tool_result"
  then Wrench
  else if String.eqb message_type "human_reply" then HandMetal
  else if String.eqb message_type "status_change" then AlertTriangle
  else if String.eqb direction "in" then User else Bot.

(** [conversation?.metadata?.human_agent_name] *)
Definition takeoverAgent (s : ConversationViewerPage.State) : value :=
  opt (opt (UseConversation.conversation (ConversationViewerPage.hook s)) "metadata")
      "human_agent_name".

(** [getMessageLabel]; [displayName] is the constant of that name. *)
Definition getMessageLabel (takeoverAgent displayName : value) (msg : Viewer.Message)
  : value :=
  if String.eqb (Viewer.message_type msg) "tool_call"
     || String.eqb (Viewer.message_type msg) "tool_result"
  then VStr "Tool Call"
  else if String.eqb (Viewer.message_type msg) "status_change" then VStr "Sistema"
  else if String.eqb (Viewer.message_type msg) "human_reply"
  then or_else takeoverAgent (VStr "Atendente")
  else if String.eqb (Viewer.direction msg) "in" then displayName
  else VStr "Assistente".

Definition setShareModal (x : bool) (s : ConversationViewerPage.State)
  : ConversationViewerPage.State :=
  {| ConversationViewerPage.hook := ConversationViewerPage.hook s;
     ConversationViewerPage.replyText := ConversationViewerPage.replyText s;
     ConversationViewerPage.sendError := ConversationViewerPage.sendError s;
     ConversationViewerPage.statusLoading := ConversationViewerPage.statusLoading s;
     ConversationViewerPage.shareModal := x;
     ConversationViewerPage.shareLink := ConversationViewerPage.shareLink s |}.

Definition setShareLink (l : string) (s : ConversationViewerPage.State)
  : ConversationViewerPage.State :=
  {| ConversationViewerPage.hook := ConversationViewerPage.hook s;
     ConversationViewerPage.replyText := ConversationViewerPage.replyText s;
     ConversationViewerPage.sendError := ConversationViewerPage.sendError s;
     ConversationViewerPage.statusLoading := ConversationViewerPage.statusLoading s;
     ConversationViewerPage.shareModal := ConversationViewerPage.shareModal s;
     ConversationViewerPage.shareLink := l |}.

Definition share_failed : string := "Erro ao gerar link público".

Section Share.
(** [params.project_id], [params.conversation_id] and
    [window.location.origin]. *)
Variables project_id conversation_id origin : string.

Definition handleShare : prog ConversationViewerPage.State unit :=
  try_catch
    (resp ← Api.post "/api/live/create-link"
              (VObj [("project_id", VStr project_id);
                     ("conversation_id", VStr conversation_id)]);
     token ← eval (get (Api.data resp) "token");
     text ← eval (to_string token);
     set (setShareLink (origin +:+ "/live/" +:+ text));;
     set (setShareModal true))
    (fun _ => set (ConversationViewerPage.setSendError (Some share_failed))).

End Share.
End StaffViewer.

(** ** The sidebar: [components/Sidebar.tsx] *)
Module Sidebar.
Import Js Io.

(** [navItems]; the labels are display text (translated in the later copy
    of the file), the rest is the same in both copies. *)
Record NavItem : Type := {
  href : string;
  adminOnly : bool;
}.

Definition navItems : list NavItem :=
  [ {| href := "/dash"; adminOnly := false |};
    {| href := "/dash/conversations"; adminOnly := false |};
    {| href := "/dash/calls"; adminOnly := false |};
    {| href := "/dash/agents"; adminOnly := true |};
    {| href := "/dash/rag"; adminOnly := true |};
    {| href := "/dash/config"; adminOnly := true |} ].

(** [navItems.filter(item => !item.adminOnly || user?.role === 'admin')] *)
Definition shown (user : value) : list NavItem :=
  filter (fun item => negb (adminOnly item) || is_str (opt user "role") "admin") navItems.

(** [isActive(href)] for the current [pathname]. *)
Definition isActive (pathname h : string) : bool :=
  if String.eqb h "/dash" then String.eqb pathname "/dash"
  else String.prefix h pathname.

End Sidebar.

(** ** [slugify] of the admin page

    A JavaScript string is a sequence of UTF-16 code units, and the regular
    expressions of [slugify] (none has the [u] flag) work on code units; the
    text is kept here as the list of its code units.  [toLowerCase] and
    [normalize('NFD')] are the platform's and enter as they are. *)
Module Slug.

Definition text : Type := list N.

Class Unicode : Type := {
  toLowerCase : text -> text;
  normalize_NFD : text -> text;
}.

Definition hyphen : N := 45.

(** [\u0300-\u036f], the combining diacritical marks. *)
Definition is_mark (u : N) : bool := (768 <=? u)%N && (u <=? 879)%N.

(** [a-z0-9] *)
Definition is_slug_char (u : N) : bool :=
  ((97 <=? u)%N && (u <=? 122)%N) || ((48 <=? u)%N && (u <=? 57)%N).

(** [.replace(/[\u0300-\u036f]/g, '')] *)
Definition strip_marks (t : text) : text :=
  filter (fun u => negb (is_mark u)) t.

(** [.replace(/[^a-z0-9]+/g, '-')]: every maximal run of other code units
    becomes one hyphen.  [in_run] says that the unit before was part of such
    a run, whose hyphen is already written. *)
Fixpoint hyphenate (in_run : bool) (t : text) : text :=
  match t with
  | [] => []
  | u :: rest =>
      if is_slug_char u then u :: hyphenate false rest
      else if in_run then hyphenate true rest
      else hyphen :: hyphenate true rest
  end.

(** [.replace(/(^-|-$)/g, '')]: a hyphen at the very start goes, and so
    does one at the very end of what is left. *)
Definition trim_start (t : text) : text :=
  match t with
  | u :: rest => if (u =? hyphen)%N then rest else t
  | [] => []
  end.

Definition trim_end (t : text) : text :=
  match reverse t with
  | u :: rest => if (u =? hyphen)%N then reverse rest else t
  | [] => []
  end.

Section Slugify.
Context `{Unicode}.

Definition slugify (t : text) : text :=
  trim_end (trim_start (hyphenate false (strip_marks (normalize_NFD (toLowerCase t))))).

End Slugify.
End Slug.

(** ** The REST client, its base URL at run time

    The later copy of [@/lib/api] with interceptors asks the dashboard's
    own server for the API base URL before the first request goes out. *)
Module ApiRuntime.
Import Js Io.

(** The module's variables [_apiUrl] ([string | null]) and [_initPromise]
    (created or not), and the instance's [defaults.baseURL]. *)
Record Globals : Type := {
  _apiUrl : value;
  _initPromise : bool;
  baseURL : value;
}.

Definition initial : Globals :=
  {| _apiUrl := VNull; _initPromise := false; baseURL := VStr "" |}.

Definition set_apiUrl (u : value) (g : Globals) : Globals :=
  {| _apiUrl := u; _initPromise := _initPromise g; baseURL := baseURL g |}.

Definition set_initPromise (p : bool) (g : Globals) : Globals :=
  {| _apiUrl := _apiUrl g; _initPromise := p; baseURL := baseURL g |}.

Definition set_baseURL (u : value) (g : Globals) : Globals :=
  {| _apiUrl := _apiUrl g; _initPromise := _initPromise g; baseURL := u |}.

(** [fetch('/api/config')]: a plain GET, no headers of the page's own.
    The path is on the dashboard's server, not below the API base URL. *)
Definition config_request : request :=
  {| method := GET; url := "/api/config"; params := []; headers := []; body := None |}.

(** [await fetch(...)] then [await res.json()]: [fetch] rejects only when
    nothing comes back, whatever the status. *)
Definition fetch_json (x : reply) : result value :=
  match x with
  | Unreachable reason => Throw (TypeError reason)
  | Answered _ c => Live.json c
  end.

Definition is_null (v : value) : bool :=
  match v with VNull => true | _ => false end.

Definition resolveApiUrl : prog Globals value :=
  g ← state;
  if negb (is_null (_apiUrl g)) then ret (_apiUrl g)
  else
    found ← try_catch
      (x ← send config_request;
       data ← eval (fetch_json x);
       apiUrl ← eval (get data "apiUrl");
       if truthy apiUrl
       then set (set_apiUrl apiUrl);; ret (Some apiUrl)
       else ret None)
      (fun _ => ret None);
    match found with
    | Some url => ret url
    | None => set (set_apiUrl (VStr ""));; ret (VStr "")
    end.

Definition ensureInit : prog Globals unit :=
  g ← state;
  if _initPromise g then ret tt
  else
    set (set_initPromise true);;
    url ← resolveApiUrl;
    set (set_baseURL url).

(** The request interceptor of this copy. *)
Definition request_interceptor (config : request) : prog Globals request :=
  ensureInit;;
  b ← browse;
  ret (Api.add_token b config).

(** A request through the instance: the request interceptor, the request
    itself, the response interceptor. *)
Definition dispatch (config : request) : prog Globals Api.response :=
  ready ← request_interceptor config;
  x ← send ready;
  match Api.settle x with
  | Return r => Api.on_fulfilled r
  | Throw error => Api.on_rejected error
  end.

(** What [resolveApiUrl] makes of the answer [x] to its request, in closed
    form: the [apiUrl] of the JSON answer when it is truthy, [''] in every
    other case. *)
Definition learned (x : reply) : value :=
  match fetch_json x with
  | Return data =>
      match get data "apiUrl" with
      | Return apiUrl => if truthy apiUrl then apiUrl else VStr ""
      | Throw _ => VStr ""
      end
  | Throw _ => VStr ""
  end.

End ApiRuntime.

(** ** The copy of [@/lib/api] without interceptors

    [makeRequest] resolves the base URL, reads the token, and calls bare
    [axios]. *)
Module ApiBare.
Import Js Io.

Record Globals : Type := {
  _apiUrl : value;
  _resolved : bool;
  _fetchPromise : bool;
}.

Definition initial : Globals :=
  {| _apiUrl := VStr ""; _resolved := false; _fetchPromise := false |}.

Definition resolve (u : value) (g : Globals) : Globals :=
  {| _apiUrl := u; _resolved := true; _fetchPromise := _fetchPromise g |}.

Definition set_fetchPromise (p : bool) (g : Globals) : Globals :=
  {| _apiUrl := _apiUrl g; _resolved := _resolved g; _fetchPromise := p |}.

Definition getApiUrl : prog Globals value :=
  g ← state;
  if _resolved g then ret (_apiUrl g)
  else if negb (_fetchPromise g)
  then
    set (set_fetchPromise true);;
    try_catch
      (x ← send ApiRuntime.config_request;
       d ← eval (ApiRuntime.fetch_json x);
       apiUrl ← eval (get d "apiUrl");
       set (resolve (or_else apiUrl (VStr "")));;
       ret (or_else apiUrl (VStr "")))
      (fun _ => set (resolve (VStr ""));; ret (VStr ""))
  else ret (_apiUrl g).

(** The part of [AxiosRequestConfig] a caller may pass. *)
Record AxiosRequestConfig : Type := {
  cfg_params : list (string * value);
  cfg_headers : option (list (string * string));
}.

Definition no_config : AxiosRequestConfig :=
  {| cfg_params := []; cfg_headers := None |}.

(** [{ 'Content-Type': 'application/json',
       ...(token ? { Authorization: `Bearer ${token}` } : {}) }] *)
Definition own_headers (b : browser) : list (string * string) :=
  ("Content-Type", "application/json")
  :: match getItem "token" b with
     | Some token =>
         if negb (String.eqb token "") then [("Authorization", "Bearer " +:+ token)] else []
     | None => []
     end.

(** [{ headers, ...config }]: a [headers] entry of the caller's replaces
    the one built here. *)
Definition request_of (m : verb) (fullUrl : string) (b : browser)
  (payload : option value) (config : AxiosRequestConfig) : request :=
  {| method := m; url := fullUrl; params := cfg_params config;
     headers := default (own_headers b) (cfg_headers config);
     body := payload |}.

(** [makeRequest(method)(url, dataOrConfig, config)]; for [get] and
    [delete] the second argument is the configuration and there is no
    payload.  The URL sent is the absolute one, base included. *)
Definition makeRequest (m : verb) (u : string) (payload : option value)
  (config : AxiosRequestConfig) : prog Globals Api.response :=
  baseUrl ← getApiUrl;
  base ← eval (to_string baseUrl);
  b ← browse;
  x ← send (request_of m (base +:+ u) b
              (match m with GET | DELETE => None | _ => payload end) config);
  eval (Api.settle x).

End ApiBare.

(** ** The endpoint helpers exported beside [api] *)
Module Endpoints.
Import Js Io.

Section Calls.
Context {S : Type}.

(** [api.delete(url)] *)
Definition api_delete (u : string) : prog S Api.response :=
  Api.dispatch (Api.defaults DELETE u [] None).

(** [clientsAPI.get(id)] and [clientsAPI.update(id, data)] *)
Definition clientsAPI_get (id : value) : prog S Api.response :=
  path ← eval (to_string id);
  Api.get ("/api/clients/" +:+ path) [].

Definition clientsAPI_update (id : value) (data : value) : prog S Api.response :=
  path ← eval (to_string id);
  Api.patch ("/api/clients/" +:+ path) data.

End Calls.

(** What [JSON.stringify] keeps of an object literal: the entries whose
    value is not [undefined]. *)
Definition is_undefined (v : value) : bool :=
  match v with VUndef => true | _ => false end.

Definition literal (fields : list (string * value)) : value :=
  VObj (filter (fun p => negb (is_undefined (snd p))) fields).

(** [{ ...v }]: the own enumerable properties. *)
Definition spread (v : value) : list (string * value) :=
  match v with
  | VObj props => props
  | VArr items => imap (fun i x => (pretty i, x)) items
  | VStr s => imap (fun i c => (pretty i, VStr (String c EmptyString))) (String.list_ascii_of_string s)
  | _ => []
  end.

End Endpoints.

(** ** The admin page: [AdminDashboard] of [app/page.tsx] *)
Module AdminDashboard.
Import Js Io Endpoints.

(** [ModalData]; the fields are typed [string], and hold what the inputs
    give or, after [openEditModal], what the server sent. *)
Record ModalData : Type := {
  name : value;
  slug : value;
  timezone : value;
  status : value;
  meta_page_id : value;
  meta_phone_id : value;
  meta_ig_id : value;
  meta_waba_id : value;
  meta_access_token : value;
  elevenlabs_agent_id : value;
  elevenlabs_voice_id : value;
  elevenlabs_api_key : value;
  project_id : value;
}.

Definition emptyModal : ModalData :=
  {| name := VStr ""; slug := VStr ""; timezone := VStr "America/Sao_Paulo";
     status := VStr "active";
     meta_page_id := VStr ""; meta_phone_id := VStr ""; meta_ig_id := VStr "";
     meta_waba_id := VStr ""; meta_access_token := VStr "";
     elevenlabs_agent_id := VStr ""; elevenlabs_voice_id := VStr "";
     elevenlabs_api_key := VStr ""; project_id := VStr "" |}.

(** [{ type: 'success' | 'error', text }] *)
Inductive Notice : Type :=
| Success (text : value)
| Failure (text : value).

(** The callbacks handed to [setTimeout]. *)
Inductive Later : Type :=
| CloseModal     (* () => setShowModal(false) *)
| ClearCopied.   (* () => setCopiedId(null) *)

(** The [useState] cells of the page and, of the window, what the page
    acts on: the alerts shown, the clipboard, the time-outs set. *)
Record State : Type := {
  clients : value;
  loading : bool;
  user : value;
  showModal : bool;
  editingId : value;
  modalData : ModalData;
  activeTab : string;
  saving : bool;
  message : option Notice;
  deleteId : value;
  copiedId : value;
  alerts : list value;
  clipboard : option string;
  timeouts : list (N * Later);
}.

Definition initial : State :=
  {| clients := VArr []; loading := true; user := VNull; showModal := false;
     editingId := VNull; modalData := emptyModal; activeTab := "geral";
     saving := false; message := None; deleteId := VNull; copiedId := VNull;
     alerts := []; clipboard := None; timeouts := [] |}.

Definition setClients (v : value) (s : State) : State :=
  {| clients := v; loading := loading s; user := user s; showModal := showModal s;
     editingId := editingId s; modalData := modalData s; activeTab := activeTab s;
     saving := saving s; message := message s; deleteId := deleteId s;
     copiedId := copiedId s; alerts := alerts s; clipboard := clipboard s;
     timeouts := timeouts s |}.

Definition setLoading (v : bool) (s : State) : State :=
  {| clients := clients s; loading := v; user := user s; showModal := showModal s;
     editingId := editingId s; modalData := modalData s; activeTab := activeTab s;
     saving := saving s; message := message s; deleteId := deleteId s;
     copiedId := copiedId s; alerts := alerts s; clipboard := clipboard s;
     timeouts := timeouts s |}.

Definition setUser (v : value) (s : State) : State :=
  {| clients := clients s; loading := loading s; user := v; showModal := showModal s;
     editingId := editingId s; modalData := modalData s; activeTab := activeTab s;
     saving := saving s; message := message s; deleteId := deleteId s;
     copiedId := copiedId s; alerts := alerts s; clipboard := clipboard s;
     timeouts := timeouts s |}.

Definition setShowModal (v : bool) (s : State) : State :=
  {| clients := clients s; loading := loading s; user := user s; showModal := v;
     editingId := editingId s; modalData := modalData s; activeTab := activeTab s;
     saving := saving s; message := message s; deleteId := deleteId s;
     copiedId := copiedId s; alerts := alerts s; clipboard := clipboard s;
     timeouts := timeouts s |}.

Definition setEditingId (v : value) (s : State) : State :=
  {| clients := clients s; loading := loading s; user := user s; showModal := showModal s;
     editingId := v; modalData := modalData s; activeTab := activeTab s;
     saving := saving s; message := message s; deleteId := deleteId s;
     copiedId := copiedId s; alerts := alerts s; clipboard := clipboard s;
     timeouts := timeouts s |}.

Definition setModalData (v : ModalData) (s : State) : State :=
  {| clients := clients s; loading := loading s; user := user s; showModal := showModal s;
     editingId := editingId s; modalData := v; activeTab := activeTab s;
     saving := saving s; message := message s; deleteId := deleteId s;
     copiedId := copiedId s; alerts := alerts s; clipboard := clipboard s;
     timeouts := timeouts s |}.

Definition setActiveTab (v : string) (s : State) : State :=
  {| clients := clients s; loading := loading s; user := user s; showModal := showModal s;
     editingId := editingId s; modalData := modalData s; activeTab := v;
     saving := saving s; message := message s; deleteId := deleteId s;
     copiedId := copiedId s; alerts := alerts s; clipboard := clipboard s;
     timeouts := timeouts s |}.

Definition setSaving (v : bool) (s : State) : State :=
  {| clients := clients s; loading := loading s; user := user s; showModal := showModal s;
     editingId := editingId s; modalData := modalData s; activeTab := activeTab s;
     saving := v; message := message s; deleteId := deleteId s;
     copiedId := copiedId s; alerts := alerts s; clipboard := clipboard s;
     timeouts := timeouts s |}.

Definition setMessage (v : option Notice) (s : State) : State :=
  {| clients := clients s; loading := loading s; user := user s; showModal := showModal s;
     editingId := editingId s; modalData := modalData s; activeTab := activeTab s;
     saving := saving s; message := v; deleteId := deleteId s;
     copiedId := copiedId s; alerts := alerts s; clipboard := clipboard s;
     timeouts := timeouts s |}.

Definition setDeleteId (v : value) (s : State) : State :=
  {| clients := clients s; loading := loading s; user := user s; showModal := showModal s;
     editingId := editingId s; modalData := modalData s; activeTab := activeTab s;
     saving := saving s; message := message s; deleteId := v;
     copiedId := copiedId s; alerts := alerts s; clipboard := clipboard s;
     timeouts := timeouts s |}.

Definition setCopiedId (v : value) (s : State) : State :=
  {| clients := clients s; loading := loading s; user := user s; showModal := showModal s;
     editingId := editingId s; modalData := modalData s; activeTab := activeTab s;
     saving := saving s; message := message s; deleteId := deleteId s;
     copiedId := v; alerts := alerts s; clipboard := clipboard s;
     timeouts := timeouts s |}.

(** [alert(text)] *)
Definition alert (text : value) (s : State) : State :=
  {| clients := clients s; loading := loading s; user := user s; showModal := showModal s;
     editingId := editingId s; modalData := modalData s; activeTab := activeTab s;
     saving := saving s; message := message s; deleteId := deleteId s;
     copiedId := copiedId s; alerts := alerts s ++ [text]; clipboard := clipboard s;
     timeouts := timeouts s |}.

Definition setClipboard (text : string) (s : State) : State :=
  {| clients := clients s; loading := loading s; user := user s; showModal := showModal s;
     editingId := editingId s; modalData := modalData s; activeTab := activeTab s;
     saving := saving s; message := message s; deleteId := deleteId s;
     copiedId := copiedId s; alerts := alerts s; clipboard := Some text;
     timeouts := timeouts s |}.

(** [setTimeout(callback, ms)] *)
Definition setTimeout (callback : Later) (ms : N) (s : State) : State :=
  {| clients := clients s; loading := loading s; user := user s; showModal := showModal s;
     editingId := editingId s; modalData := modalData s; activeTab := activeTab s;
     saving := saving s; message := message s; deleteId := deleteId s;
     copiedId := copiedId s; alerts := alerts s; clipboard := clipboard s;
     timeouts := timeouts s ++ [(ms, callback)] |}.

Definition required_missing : string := "Nome e slug sao obrigatorios".
Definition no_project : string :=
  "Este cliente nÃ£o tem project_id configurado. Edite o cliente e preencha em Settings.".

(** [if (v) payload.k = v] *)
Definition when_set (k : string) (v : value) : list (string * value) :=
  if truthy v then [(k, v)] else [].

(** The body of the update: [name], [status], [timezone], then each of the
    other fields that is filled in. *)
Definition update_payload (m : ModalData) : value :=
  literal
    ([("name", name m); ("status", status m); ("timezone", timezone m)]
     ++ when_set "meta_page_id" (meta_page_id m)
     ++ when_set "meta_phone_id" (meta_phone_id m)
     ++ when_set "meta_ig_id" (meta_ig_id m)
     ++ when_set "meta_waba_id" (meta_waba_id m)
     ++ when_set "meta_access_token" (meta_access_token m)
     ++ when_set "elevenlabs_agent_id" (elevenlabs_agent_id m)
     ++ when_set "elevenlabs_voice_id" (elevenlabs_voice_id m)
     ++ when_set "elevenlabs_api_key" (elevenlabs_api_key m)
     ++ (if truthy (project_id m)
         then [("settings", VObj [("project_id", project_id m)])] else [])).

(** The body of the creation: an object literal in which an empty field is
    [field || undefined]. *)
Definition create_payload (m : ModalData) : value :=
  literal
    [("name", name m); ("slug", slug m); ("timezone", timezone m);
     ("meta_page_id", or_else (meta_page_id m) VUndef);
     ("meta_phone_id", or_else (meta_phone_id m) VUndef);
     ("meta_ig_id", or_else (meta_ig_id m) VUndef);
     ("meta_waba_id", or_else (meta_waba_id m) VUndef);
     ("meta_access_token", or_else (meta_access_token m) VUndef);
     ("elevenlabs_agent_id", or_else (elevenlabs_agent_id m) VUndef);
     ("elevenlabs_voice_id", or_else (elevenlabs_voice_id m) VUndef);
     ("elevenlabs_api_key", or_else (elevenlabs_api_key m) VUndef)].

Section Page.
Context `{Builtins}.
(** [window.location.origin], and whether the browser lets the page write
    to the clipboard. *)
Variable origin : string.
Variable clipboard_allowed : bool.

Definition loadClients : prog State unit :=
  try_finally
    (try_catch
       (response ← Api.get "/api/clients" [];
        set (setClients (Api.data response)))
       (fun _ => ret tt))
    (set (setLoading false)).

(** The mount effect. *)
Definition mount : prog State unit :=
  b ← browse;
  match Session.stored_user b with
  | None => update_browser (navigate "/login")
  | Some parsed =>
      parsedUser ← eval parsed;
      role ← eval (get parsedUser "role");
      if negb (is_str role "admin") then update_browser (navigate "/dash")
      else
        set (setUser parsedUser);;
        detached loadClients
  end.

Definition openCreateModal : prog State unit :=
  set (setEditingId VNull);;
  set (setModalData emptyModal);;
  set (setActiveTab "geral");;
  set (setMessage None);;
  set (setShowModal true).

(** [c.k || fallback] for the fields of the form. *)
Definition field (c : value) (k : string) (fallback : string) : result value :=
  v ← get c k;
  Return (or_else v (VStr fallback)).

Definition openEditModal (client : value) : prog State unit :=
  id ← eval (get client "id");
  set (setEditingId id);;
  set (setActiveTab "geral");;
  set (setMessage None);;
  try_catch
    (path ← eval (to_string id);
     res ← Api.get ("/api/clients/" +:+ path) [];
     let c := Api.data res in
     form ← eval (
       c_name ← field c "name" "";
       c_slug ← field c "slug" "";
       c_timezone ← field c "timezone" "America/Sao_Paulo";
       c_status ← field c "status" "active";
       c_page ← field c "meta_page_id" "";
       c_phone ← field c "meta_phone_id" "";
       c_ig ← field c "meta_ig_id" "";
       c_waba ← field c "meta_waba_id" "";
       c_agent ← field c "elevenlabs_agent_id" "";
       c_voice ← field c "elevenlabs_voice_id" "";
       settings ← get c "settings";
       Return {| name := c_name; slug := c_slug; timezone := c_timezone;
                 status := c_status;
                 meta_page_id := c_page; meta_phone_id := c_phone;
                 meta_ig_id := c_ig; meta_waba_id := c_waba;
                 meta_access_token := VStr "";
                 elevenlabs_agent_id := c_agent; elevenlabs_voice_id := c_voice;
                 elevenlabs_api_key := VStr "";
                 project_id := or_else (opt settings "project_id") (VStr "") |});
     set (setModalData form))
    (fun _ =>
       row ← eval (
         c_name ← get client "name";
         c_slug ← get client "slug";
         c_timezone ← get client "timezone";
         c_status ← get client "status";
         Return {| name := c_name; slug := c_slug; timezone := c_timezone;
                   status := c_status;
                   meta_page_id := VStr ""; meta_phone_id := VStr "";
                   meta_ig_id := VStr ""; meta_waba_id := VStr "";
                   meta_access_token := VStr "";
                   elevenlabs_agent_id := VStr ""; elevenlabs_voice_id := VStr "";
                   elevenlabs_api_key := VStr ""; project_id := VStr "" |});
       set (setModalData row));;
  set (setShowModal true).

Definition handleSave : prog State unit :=
  s ← state;
  let m := modalData s in
  if negb (truthy (name m)) || negb (truthy (slug m))
  then set (setMessage (Some (Failure (VStr required_missing))))
  else
    set (setSaving true);;
    set (setMessage None);;
    try_finally
      (try_catch
         ((if truthy (editingId s)
           then
             path ← eval (to_string (editingId s));
             Api.patch ("/api/clients/" +:+ path) (update_payload m);;
             set (setMessage (Some (Success (VStr "Cliente atualizado!"))))
           else
             Api.post "/api/clients" (create_payload m);;
             set (setMessage (Some (Success (VStr "Cliente criado!")))));;
          loadClients;;
          set (setTimeout CloseModal 800))
         (fun error =>
            set (setMessage
                   (Some (Failure (or_else (Api.detail error) (VStr "Erro ao salvar")))))))
      (set (setSaving false)).

Definition handleDelete (clientId : value) : prog State unit :=
  try_catch
    (path ← eval (to_string clientId);
     api_delete ("/api/clients/" +:+ path);;
     set (setDeleteId VNull);;
     loadClients)
    (fun error => set (alert (or_else (Api.detail error) (VStr "Erro ao excluir")))).

(** [await navigator.clipboard.writeText(text)]; a refusal rejects with a
    [DOMException], of which the handler reads no more than that it has no
    [response]. *)
Definition writeText (text : string) : prog State unit :=
  if clipboard_allowed then set (setClipboard text)
  else throw (Error "Write permission denied.").

Definition handleGeneratePortal (client : value) : prog State unit :=
  settings ← eval (get client "settings");
  let projectId := opt settings "project_id" in
  if negb (truthy projectId) then set (alert (VStr no_project))
  else
    try_catch
      (res ← Api.post "/api/live/create-portal" (VObj [("project_id", projectId)]);
       token ← eval (get (Api.data res) "token");
       text ← eval (to_string token);
       writeText (origin +:+ "/live/" +:+ text);;
       id ← eval (get client "id");
       set (setCopiedId id);;
       set (setTimeout ClearCopied 2000))
      (fun error =>
         let detail := Api.detail error in
         set (alert (match detail with
                     | VStr _ => detail
                     | _ => VStr "Erro ao gerar portal"
                     end))).

End Page.
End AdminDashboard.

(** ** The settings index: [ConfigIndexPage] of [app/dash/config/page.tsx] *)
Module ConfigIndex.
Import Js Io Endpoints.

(** The page's cells, and the [locale] of the provider it takes
    [setLocale] from. *)
Record State : Type := {
  tenantId : value;
  isAdmin : bool;
  savingLang : bool;
  message : option AdminDashboard.Notice;
  locale : value;
}.

Definition initial : State :=
  {| tenantId := VStr ""; isAdmin := false; savingLang := false; message := None;
     locale := I18n.initial |}.

Definition setTenantId (v : value) (s : State) : State :=
  {| tenantId := v; isAdmin := isAdmin s; savingLang := savingLang s;
     message := message s; locale := locale s |}.

Definition setIsAdmin (v : bool) (s : State) : State :=
  {| tenantId := tenantId s; isAdmin := v; savingLang := savingLang s;
     message := message s; locale := locale s |}.

Definition setSavingLang (v : bool) (s : State) : State :=
  {| tenantId := tenantId s; isAdmin := isAdmin s; savingLang := v;
     message := message s; locale := locale s |}.

Definition setMessage (v : option AdminDashboard.Notice) (s : State) : State :=
  {| tenantId := tenantId s; isAdmin := isAdmin s; savingLang := savingLang s;
     message := v; locale := locale s |}.

Definition setLocaleState (v : value) (s : State) : State :=
  {| tenantId := tenantId s; isAdmin := isAdmin s; savingLang := savingLang s;
     message := message s; locale := v |}.

Section Page.
Context `{Builtins}.
(** [t.common_error] *)
Variable common_error : string.

(** The mount effect; whatever goes wrong in it is ignored. *)
Definition mount : prog State unit :=
  try_catch
    (b ← browse;
     match Session.stored_user b with
     | None => ret tt
     | Some parsed =>
         user ← eval parsed;
         role ← eval (get user "role");
         set (setIsAdmin (is_str role "admin"));;
         tId ← eval (Session.tenant_of b user);
         if truthy tId then set (setTenantId tId) else ret tt
     end)
    (fun _ => ret tt).

(** [{ settings: { ...currentSettings, locale: newLocale } }] *)
Definition language_payload (currentSettings : value) (newLocale : string) : value :=
  VObj [("settings", VObj (set_prop "locale" (VStr newLocale) (spread currentSettings)))].

Definition saveDashboardLanguage (newLocale : string) : prog State unit :=
  s ← state;
  if negb (truthy (tenantId s)) then ret tt
  else
    set (setSavingLang true);;
    set (setMessage None);;
    try_finally
      (try_catch
         (clientRes ← clientsAPI_get (tenantId s);
          let currentSettings :=
            or_else (opt (Api.data clientRes) "settings") (VObj []) in
          clientsAPI_update (tenantId s) (language_payload currentSettings newLocale);;
          zoom locale setLocaleState (I18n.setLocale newLocale);;
          set (setMessage (Some (AdminDashboard.Success (VStr "Language updated")))))
         (fun err =>
            set (setMessage
                   (Some (AdminDashboard.Failure
                            (or_else (Api.detail err) (VStr common_error)))))))
      (set (setSavingLang false)).

End Page.
End ConfigIndex.

(** ** More sample data *)
Module Examples.
Import Js Io.

(** Stand-ins for the platform's case mapping, right on ASCII letters. *)
Definition lower_ascii (c : ascii) : ascii :=
  let n := nat_of_ascii c in
  if Nat.leb 65 n && Nat.leb n 90 then ascii_of_nat (n + 32) else c.

Fixpoint lower_string (s : string) : string :=
  match s with
  | EmptyString => EmptyString
  | String c rest => String (lower_ascii c) (lower_string rest)
  end.

(** A stand-in for [slice(-n)] that counts UTF-16 code units in the UTF-8
    bytes kept here: a byte below 128 or a lead byte of a two- or
    three-byte sequence starts a character of one unit, a lead byte of a
    four-byte sequence one of two units, and a continuation byte starts
    nothing.  It cuts only in front of a character, so where JavaScript
    would cut a pair of surrogates in two it leaves the character out. *)
Definition units_of_byte (c : ascii) : nat :=
  let n := nat_of_ascii c in
  if Nat.ltb n 128 then 1 else if Nat.ltb n 192 then 0 else if Nat.ltb n 240 then 1 else 2.

Fixpoint unit_length (s : string) : nat :=
  match s with
  | EmptyString => 0
  | String c rest => units_of_byte c + unit_length rest
  end.

Definition continues (c : ascii) : bool :=
  Nat.leb 128 (nat_of_ascii c) && Nat.ltb (nat_of_ascii c) 192.

Fixpoint slice_units (n : nat) (s : string) : string :=
  match s with
  | EmptyString => EmptyString
  | String c rest =>
      if Nat.leb (units_of_byte c + unit_length rest) n && negb (continues c)
      then s else slice_units n rest
  end.

Definition strings : JsText.Strings.
Proof.
  refine {| JsText.toLowerCase := lower_string; JsText.slice_end := slice_units |}.
  - intros s. by destruct s.
  - intros n s.
    assert (forall t, JsText.ascii_only t = true -> unit_length t = String.length t)
      as Hlen.
    { induction t as [|c t IH]; [done|]. intros [Hc Ht]%andb_prop.
      cbn [unit_length String.length]. unfold units_of_byte. by rewrite Hc, IH. }
    unfold JsText.last_chars. induction s as [|c s IH]; [done|].
    intros Hs. pose proof Hs as [Hc Hrest]%andb_prop.
    cbn [slice_units String.length]. unfold units_of_byte at 1, continues.
    rewrite Hc, (Hlen _ Hrest).
    apply Nat.ltb_lt in Hc as Hlt.
    replace (Nat.leb 128 (nat_of_ascii c)) with false by (symmetry; apply Nat.leb_gt; lia).
    cbn [andb negb]. rewrite andb_true_r.
    destruct (Nat.leb_spec (1 + String.length s) n) as [Hle|Hgt].
    + by replace (S (String.length s) - n) with 0 by lia.
    + rewrite IH by done.
      by replace (S (String.length s) - n) with (S (String.length s - n)) by lia.
Defined.

Definition lower_unit (u : N) : N :=
  if (65 <=? u)%N && (u <=? 90)%N then (u + 32)%N else u.

(** On text without accents [normalize('NFD')] changes nothing. *)
Definition unicode : Slug.Unicode :=
  {| Slug.toLowerCase := map lower_unit; Slug.normalize_NFD := fun t => t |}.

(** The code units of an ASCII string. *)
Definition units (s : string) : Slug.text :=
  map (fun c => N.of_nat (nat_of_ascii c)) (String.list_ascii_of_string s).

Definition conversation_other : value :=
  VObj [("project_id", VStr "pacific-surf"); ("conversation_id", VStr "17841400123");
        ("contact_name", VNull); ("channel_type", VStr "instagram");
        ("status", VStr "handoff"); ("last_text", VStr "Quero remarcar a aula")].

Definition a_client : value :=
  VObj [("id", VStr "c-42"); ("name", VStr "Pacific Surf"); ("slug", VStr "pacific-surf");
        ("status", VStr "active"); ("timezone", VStr "America/Sao_Paulo");
        ("settings", VObj [("project_id", VStr "0624f30a")])].

End Examples.

(** * Properties *)

Import Js Io.

(** ** Values *)

Lemma get_not_nullish v k : nullish v = false -> get v k = Return (own v k).
Proof. unfold get. by intros ->. Qed.

Lemma opt_own v k : nullish v = false -> opt v k = own v k.
Proof. unfold opt. by intros ->. Qed.

Lemma opt_not_nullish v k : nullish (opt v k) = false -> nullish v = false.
Proof. unfold opt. by destruct (nullish v). Qed.

Lemma truthy_not_nullish v : truthy v = true -> nullish v = false.
Proof. by destruct v. Qed.

Lemma opt_truthy_not_nullish v k : truthy (opt v k) = true -> nullish v = false.
Proof. intros Ht. eapply opt_not_nullish, truthy_not_nullish, Ht. Qed.

Lemma or_else_truthy a b : truthy b = true -> truthy (or_else a b) = true.
Proof. unfold or_else. by destruct (truthy a) eqn:Ha. Qed.

Lemma truthy_text s : truthy (VStr s) = true <-> s <> "".
Proof.
  cbn. destruct (String.eqb_spec s ""); cbn; split; intros; done.
Qed.

(** ** Running programs: one equation per construct *)

Lemma drop_succ_tail {A} n (l : list A) : drop (S n) l = drop n (tail l).
Proof. destruct l; cbn; [by rewrite drop_nil|done]. Qed.

Lemma run_io_bind {A B} (p : io A) (f : A -> io B) replies :
  run_io replies (io_bind p f) =
    let '(sent, a) := run_io replies p in
    let '(sent', out) := run_io (drop (length sent) replies) (f a) in
    ((sent ++ sent')%list, out).
Proof.
  revert replies. induction p as [a|r k IH]; intros replies; cbn.
  - rewrite drop_0. by destruct (run_io replies (f a)).
  - rewrite IH. destruct (run_io (tail replies) (k _)) as [sent a]. cbn.
    rewrite <- drop_succ_tail. by destruct (run_io _ (f a)).
Qed.

Lemma run_io_map {A B} (p : io A) (f : A -> B) replies :
  run_io replies (io_map f p) =
    let '(sent, a) := run_io replies p in (sent, f a).
Proof.
  revert replies. induction p as [a|r k IH]; intros replies; cbn; [done|].
  rewrite IH. by destruct (run_io _ (k _)).
Qed.

Section Runs.
Context {S : Type}.
Implicit Types (b : browser) (s : S) (replies : list reply).

Lemma run_mret {A} (a : A) replies b s :
  run replies (mret a) b s = ([], (b, s, Return a)).
Proof. done. Qed.

Lemma run_ret {A} (a : A) replies b s :
  run replies (ret a) b s = ([], (b, s, Return a)).
Proof. done. Qed.

Lemma run_throw {A} e replies b s :
  run replies (throw (A:=A) e) b s = ([], (b, s, Throw e)).
Proof. done. Qed.

Lemma run_eval {A} (r : result A) replies b s :
  run replies (eval r) b s = ([], (b, s, r)).
Proof. done. Qed.

Lemma run_state replies b s : run replies state b s = ([], (b, s, Return s)).
Proof. done. Qed.

Lemma run_set f replies b s : run replies (set f) b s = ([], (b, f s, Return tt)).
Proof. done. Qed.

Lemma run_browse replies b s : run replies browse b s = ([], (b, s, Return b)).
Proof. done. Qed.

Lemma run_update_browser f replies b s :
  run replies (update_browser f) b s = ([], (f b, s, Return tt)).
Proof. done. Qed.

Lemma run_send r replies b s :
  run replies (send r) b s = ([r], (b, s, Return (hd silence replies))).
Proof. done. Qed.

Lemma run_bind {A B} (p : prog S A) (f : A -> prog S B) replies b s :
  run replies (p ≫= f) b s =
    let '(sent, (b1, s1, r)) := run replies p b s in
    match r with
    | Return a =>
        let '(sent', out) := run (drop (length sent) replies) (f a) b1 s1 in
        ((sent ++ sent')%list, out)
    | Throw e => (sent, (b1, s1, Throw e))
    end.
Proof.
  unfold run, mbind, prog_mbind, prog_bind. cbn [exec]. rewrite run_io_bind.
  destruct (run_io replies (exec p b s)) as [sent [[b1 s1] [a|e]]]; cbn; [done|].
  by rewrite app_nil_r.
Qed.

Lemma run_try_catch {A} (p : prog S A) (h : exn -> prog S A) replies b s :
  run replies (try_catch p h) b s =
    let '(sent, (b1, s1, r)) := run replies p b s in
    match r with
    | Return a => (sent, (b1, s1, Return a))
    | Throw e =>
        let '(sent', out) := run (drop (length sent) replies) (h e) b1 s1 in
        ((sent ++ sent')%list, out)
    end.
Proof.
  unfold run, try_catch. cbn [exec]. rewrite run_io_bind.
  destruct (run_io replies (exec p b s)) as [sent [[b1 s1] [a|e]]]; cbn; [|done].
  by rewrite app_nil_r.
Qed.

Lemma run_try_finally {A} (p : prog S A) (c : prog S unit) replies b s :
  run replies (try_finally p c) b s =
    let '(sent, (b1, s1, r)) := run replies p b s in
    let '(sent', (b2, s2, r')) := run (drop (length sent) replies) c b1 s1 in
    ((sent ++ sent')%list,
     (b2, s2, match r' with Return _ => r | Throw e => Throw e end)).
Proof.
  unfold run, try_finally. cbn [exec]. rewrite run_io_bind.
  destruct (run_io replies (exec p b s)) as [sent [[b1 s1] r]]; cbn.
  rewrite run_io_bind.
  destruct (run_io _ (exec c b1 s1)) as [sent' [[b2 s2] [[]|e]]]; cbn;
    by rewrite app_nil_r.
Qed.

Lemma run_detached {A} (p : prog S A) replies b s :
  run replies (detached p) b s =
    let '(sent, (b1, s1, _)) := run replies p b s in (sent, (b1, s1, Return tt)).
Proof.
  unfold run, detached. cbn [exec]. rewrite run_io_bind.
  destruct (run_io replies (exec p b s)) as [sent [[b1 s1] r]]; cbn.
  by rewrite app_nil_r.
Qed.

Lemma run_dispatch (config : request) replies b s :
  run replies (Api.dispatch config) b s =
    ([Api.add_token b config],
     match Api.settle (hd silence replies) with
     | Return r => (b, s, Return r)
     | Throw e =>
         (if Api.is_unauthorized e
          then navigate "/login" (removeItem "token" b) else b,
          s, Throw e)
     end).
Proof.
  unfold run, Api.dispatch, Api.on_rejected, Api.on_fulfilled. cbn.
  destruct (Api.settle _) as [r|e]; cbn; [done|].
  by destruct (Api.is_unauthorized e).
Qed.

Lemma run_portalFetch u options replies b s :
  run replies (Live.portalFetch u options) b s =
    ([Live.fetch_request u options],
     (b, s, Live.portal_result (hd silence replies))).
Proof. unfold Live.portalFetch. rewrite run_bind, run_send. done. Qed.

End Runs.

Lemma run_zoom {S T A} (view : T -> S) (update : S -> T -> T) (p : prog S A)
  replies b t :
  run replies (zoom view update p) b t =
    let '(sent, (b1, s1, r)) := run replies p b (view t) in
    (sent, (b1, update s1 t, r)).
Proof.
  unfold run, zoom. cbn [exec]. rewrite run_io_map.
  by destruct (run_io replies (exec p b (view t))) as [sent [[b1 s1] r]].
Qed.

Create Rewrite HintDb run.
#[local] Hint Rewrite @run_mret @run_ret @run_throw @run_eval @run_state @run_set
  @run_browse @run_update_browser @run_send @run_bind @run_try_catch
  @run_try_finally @run_detached @run_zoom @run_dispatch @run_portalFetch
  @drop_0 @app_nil_r : run.

(** Rewrites a run as far as the equations go and tidies the reply list. *)
Ltac run_steps :=
  repeat (progress (autorewrite with run;
                    cbn [drop length app hd tail];
                    cbv beta iota zeta)).

(** Every request a program can send satisfies [P]: by construct. *)

Lemma sends_only_bind {A B} P (p : io A) (f : A -> io B) :
  sends_only P p -> (forall a, sends_only P (f a)) -> sends_only P (io_bind p f).
Proof.
  induction p as [a|r k IH]; cbn; [auto|].
  intros [Hr Hk] Hf. split; [done|]. intros x. by apply IH.
Qed.

Lemma sends_only_run {A} P (p : io A) replies :
  sends_only P p -> Forall P (fst (run_io replies p)).
Proof.
  revert replies. induction p as [a|r k IH]; intros replies; cbn; [constructor|].
  intros [Hr Hk]. specialize (IH _ (tail replies) (Hk (hd silence replies))).
  destruct (run_io _ _). cbn in *. by constructor.
Qed.

Section Only.
Context {S : Type} (P : request -> Prop).

Lemma only_ret {A} (a : A) : only (S:=S) P (ret a).
Proof. by intros b s. Qed.

Lemma only_mret {A} (a : A) : only (S:=S) P (mret a).
Proof. by intros b s. Qed.

Lemma only_eval {A} (r : result A) : only (S:=S) P (eval r).
Proof. by intros b s. Qed.

Lemma only_state : only (S:=S) P state.
Proof. by intros b s. Qed.

Lemma only_set f : only (S:=S) P (set f).
Proof. by intros b s. Qed.

Lemma only_send r : P r -> only (S:=S) P (send r).
Proof. intros Hr b s. cbn. auto. Qed.

Lemma only_bind {A B} (p : prog S A) (f : A -> prog S B) :
  only P p -> (forall a, only P (f a)) -> only P (p ≫= f).
Proof.
  intros Hp Hf b s. unfold mbind, prog_mbind, prog_bind. cbn [exec].
  apply sends_only_bind; [apply Hp|]. intros [[b' s'] [a|e]]; [apply Hf|done].
Qed.

Lemma only_try_catch {A} (p : prog S A) (h : exn -> prog S A) :
  only P p -> (forall e, only P (h e)) -> only P (try_catch p h).
Proof.
  intros Hp Hh b s. unfold try_catch. cbn [exec].
  apply sends_only_bind; [apply Hp|]. intros [[b' s'] [a|e]]; [done|apply Hh].
Qed.

Lemma only_try_finally {A} (p : prog S A) (c : prog S unit) :
  only P p -> only P c -> only P (try_finally p c).
Proof.
  intros Hp Hc b s. unfold try_finally. cbn [exec].
  apply sends_only_bind; [apply Hp|]. intros [[b' s'] r].
  apply sends_only_bind; [apply Hc|]. by intros [[b'' s''] [[]|e]].
Qed.

Lemma only_detached {A} (p : prog S A) : only P p -> only P (detached p).
Proof.
  intros Hp b s. unfold detached. cbn [exec].
  apply sends_only_bind; [apply Hp|]. by intros [[b' s'] r].
Qed.

Lemma only_run {A} (p : prog S A) replies b s :
  only P p -> Forall P (fst (run replies p b s)).
Proof. intros Hp. apply sends_only_run, Hp. Qed.

End Only.

(** ** [getMessageText] *)

Section MessageShapes.
Import Viewer.
Variable msg : Message.
Hypothesis no_text : truthy (of_option_string (text msg)) = false.
Hypothesis has_payload : truthy (raw_payload msg) = true.
Variable messaging : value.
Hypothesis found : first_messaging (raw_payload msg) = Return messaging.
Let m := opt messaging "message".

Local Ltac enter :=
  unfold getMessageText, getMessageText_try;
  rewrite no_text, has_payload, found; cbn; fold m.

Lemma shape_text :
  truthy (opt m "text") = true -> getMessageText msg = Return (own m "text").
Proof.
  intros Ht. enter. rewrite Ht.
  rewrite (get_not_nullish m) by eauto using opt_truthy_not_nullish. done.
Qed.

Lemma shape_story :
  truthy (opt m "text") = false ->
  truthy (opt (opt m "reply_to") "story") = true ->
  getMessageText msg = Return (VStr "[Resposta a story]").
Proof. intros Ht Hs. enter. by rewrite Ht, Hs. Qed.

Lemma shape_attachment first label :
  truthy (opt m "text") = false ->
  truthy (opt (opt m "reply_to") "story") = false ->
  truthy (opt (opt m "attachments") "length") = true ->
  own_at (own m "attachments") 0 = first ->
  nullish first = false ->
  to_string (or_else (own first "type") (VStr "attachment")) = Return label ->
  getMessageText msg = Return (VStr ("[" +:+ label +:+ "]")).
Proof.
  intros Ht Hs Ha Hf Hn Hl. enter. rewrite Ht, Hs, Ha.
  assert (nullish (opt m "attachments") = false) as Hatt
    by eauto using opt_truthy_not_nullish.
  assert (nullish m = false) as Hm by eauto using opt_not_nullish.
  rewrite opt_own in Hatt by done.
  rewrite (get_not_nullish m) by done. cbn.
  unfold get_at. rewrite Hatt. cbn. rewrite Hf.
  rewrite (get_not_nullish first) by done. cbn. by rewrite Hl.
Qed.

Lemma shape_postback :
  truthy (opt m "text") = false ->
  truthy (opt (opt m "reply_to") "story") = false ->
  truthy (opt (opt m "attachments") "length") = false ->
  truthy (opt messaging "postback") = true ->
  getMessageText msg =
    Return (or_else (own (own messaging "postback") "title") (VStr "[postback]")).
Proof.
  intros Ht Hs Ha Hp. enter. rewrite Ht, Hs, Ha, Hp.
  assert (nullish messaging = false) as Hm by eauto using opt_truthy_not_nullish.
  rewrite (get_not_nullish messaging) by done. cbn.
  assert (nullish (own messaging "postback") = false) as Hpb.
  { rewrite opt_own in Hp by done. by apply truthy_not_nullish. }
  rewrite (get_not_nullish _ "title") by done. done.
Qed.

Lemma shape_none :
  truthy (opt m "text") = false ->
  truthy (opt (opt m "reply_to") "story") = false ->
  truthy (opt (opt m "attachments") "length") = false ->
  truthy (opt messaging "postback") = false ->
  getMessageText msg = Return VNull.
Proof. intros Ht Hs Ha Hp. enter. by rewrite Ht, Hs, Ha, Hp. Qed.

End MessageShapes.

Lemma getMessageText_returns (msg : Viewer.Message) :
  exists v, Viewer.getMessageText msg = Return v.
Proof.
  unfold Viewer.getMessageText.
  destruct (truthy (of_option_string (Viewer.text msg))); [eauto|].
  destruct (negb _); [eauto|].
  destruct (Viewer.getMessageText_try _) as [[v|]|e]; cbn; eauto.
Qed.

Lemma getMessageText_text (msg : Viewer.Message) s :
  Viewer.text msg = Some s -> s <> "" -> Viewer.getMessageText msg = Return (VStr s).
Proof.
  intros Ht Hne. unfold Viewer.getMessageText. rewrite Ht.
  apply truthy_text in Hne. cbn in *. by rewrite Hne.
Qed.

Lemma getMessageText_malformed (msg : Viewer.Message) e :
  truthy (of_option_string (Viewer.text msg)) = false ->
  Viewer.getMessageText_try (Viewer.raw_payload msg) = Throw e ->
  Viewer.getMessageText msg = Return VNull.
Proof.
  intros Ht He. unfold Viewer.getMessageText. rewrite Ht, He.
  by destruct (negb _).
Qed.

(** The [try] is not decoration: an attachment list whose first entry is
    [null] makes the body throw. *)
Example getMessageText_try_can_throw :
  Viewer.getMessageText_try
    (Viewer.webhook (Viewer.message_event (VObj [("attachments", VArr [VNull])])))
  = Throw (TypeError "Cannot read properties of null (reading 'type')").
Proof. reflexivity. Qed.

(** C10, as amended.  [getMessageText] returns on every message and never
    throws.  A text that is a non-empty string is returned as it is.
    Otherwise the Meta webhook payload decides: no payload gives [null];
    with [messaging = raw.entry?.[0]?.messaging?.[0]] and
    [m = messaging?.message], in this order, a truthy [m.text] is returned,
    a story reply gives ["[Resposta a story]"], a non-empty attachment list
    gives ["[" + type + "]"] for the first attachment's type (["attachment"]
    when it has none), a postback gives its title (["[postback]"] when it
    has none), and anything else gives [null]; a payload on which the
    reading itself fails gives [null] too. *)
Theorem getMessageText_total_and_shapes (msg : Viewer.Message) :
  (exists v, Viewer.getMessageText msg = Return v)
  /\ (forall s, Viewer.text msg = Some s -> s <> "" ->
        Viewer.getMessageText msg = Return (VStr s))
  /\ (truthy (of_option_string (Viewer.text msg)) = false ->
      (truthy (Viewer.raw_payload msg) = false ->
         Viewer.getMessageText msg = Return VNull)
      /\ (forall e, Viewer.getMessageText_try (Viewer.raw_payload msg) = Throw e ->
            Viewer.getMessageText msg = Return VNull)
      /\ (forall messaging,
            truthy (Viewer.raw_payload msg) = true ->
            Viewer.first_messaging (Viewer.raw_payload msg) = Return messaging ->
            let m := opt messaging "message" in
            if truthy (opt m "text")
            then Viewer.getMessageText msg = Return (own m "text")
            else if truthy (opt (opt m "reply_to") "story")
            then Viewer.getMessageText msg = Return (VStr "[Resposta a story]")
            else if truthy (opt (opt m "attachments") "length")
            then forall label,
                   nullish (own_at (own m "attachments") 0) = false ->
                   to_string (or_else (own (own_at (own m "attachments") 0) "type")
                                      (VStr "attachment")) = Return label ->
                   Viewer.getMessageText msg = Return (VStr ("[" +:+ label +:+ "]"))
            else if truthy (opt messaging "postback")
            then Viewer.getMessageText msg =
                   Return (or_else (own (own messaging "postback") "title")
                                   (VStr "[postback]"))
            else Viewer.getMessageText msg = Return VNull)).
Proof.
  split; [apply getMessageText_returns|].
  split; [apply getMessageText_text|].
  intros Hnt. split.
  { intros Hraw. unfold Viewer.getMessageText. by rewrite Hnt, Hraw. }
  split; [intros e; by apply getMessageText_malformed|].
  intros messaging Hraw Hfound m.
  destruct (truthy (opt m "text")) eqn:Ht; [by eapply shape_text|].
  destruct (truthy (opt (opt m "reply_to") "story")) eqn:Hs; [by eapply shape_story|].
  destruct (truthy (opt (opt m "attachments") "length")) eqn:Ha.
  { intros label Hn Hl. by eapply shape_attachment. }
  destruct (truthy (opt messaging "postback")) eqn:Hp; [by eapply shape_postback|].
  by eapply shape_none.
Qed.

(** An image sent on Instagram, stored without text, shows as ["[image]"]. *)
Lemma getMessageText_image_witness :
  Viewer.getMessageText
    (Viewer.bare None
       (Viewer.webhook
          (Viewer.message_event
             (VObj [("mid", VStr "m_1");
                    ("attachments", VArr [VObj [("type", VStr "image")]])]))))
  = Return (VStr "[image]").
Proof.
  pose proof (getMessageText_total_and_shapes
    (Viewer.bare None
       (Viewer.webhook
          (Viewer.message_event
             (VObj [("mid", VStr "m_1");
                    ("attachments", VArr [VObj [("type", VStr "image")]])])))))
    as (_ & _ & Hshapes).
  destruct (Hshapes eq_refl) as (_ & _ & Hcase).
  exact (Hcase _ eq_refl eq_refl "image" eq_refl eq_refl).
Defined.

(** C10 as first stated has [msg.text] returned whenever it is not [null].
    An empty text is not [null], and is not returned: the payload's text
    is. *)
Lemma getMessageText_empty_text_counterexample :
  let msg := Viewer.bare (Some "")
               (Viewer.webhook (Viewer.message_event (VObj [("text", VStr "oi")]))) in
  Viewer.text msg = Some ""
  /\ Viewer.getMessageText msg = Return (VStr "oi")
  /\ Viewer.getMessageText msg <> Return (of_option_string (Viewer.text msg)).
Proof. cbn. repeat split; discriminate. Qed.

(** ** The response interceptor of the REST client *)

Lemma on_rejected_run {S} (error : exn) (b : browser) (s : S) replies :
  run replies (Api.on_rejected error) b s =
    ([], (if Api.is_unauthorized error
          then navigate "/login" (removeItem "token" b) else b,
          s, Throw error)).
Proof.
  unfold run, Api.on_rejected. cbn.
  by destruct (Api.is_unauthorized error).
Qed.

Lemma on_fulfilled_run {S} (r : Api.response) (b : browser) (s : S) replies :
  run replies (Api.on_fulfilled r) b s = ([], (b, s, Return r)).
Proof. reflexivity. Qed.

Lemma settle_not_401 st c :
  st <> 401 ->
  match Api.settle (Answered st c) with
  | Return _ => True
  | Throw e => Api.is_unauthorized e = false
  end.
Proof.
  intros Hne. unfold Api.settle.
  destruct (_ && _); [done|]. cbn. by apply Nat.eqb_neq.
Qed.

(** C8.  Whatever request goes through the client ([Api.dispatch] is what
    [api.get], [api.post] and [api.patch] run), exactly that request is
    sent, and then: an answer with status 401 removes ['token'] from local
    storage, points the browser at [/login], and rejects with the axios
    error; an answer with any other status, or no answer, leaves local
    storage and the location as they were and hands on what axios made of
    the reply (the response when fulfilled, the error when rejected). *)
Theorem unauthorized_reply_ends_session {S} (config : request) (b : browser) (s : S)
  (x : reply) (rest : list reply) :
  (forall c, x = Answered 401 c ->
     run (x :: rest) (Api.dispatch config) b s =
       ([Api.add_token b config],
        (navigate "/login" (removeItem "token" b), s,
         Throw (AxiosError (Some (401, Api.content_data c))
                           "Request failed with status code 401")))
     /\ getItem "token" (navigate "/login" (removeItem "token" b)) = None
     /\ location (navigate "/login" (removeItem "token" b)) = "/login")
  /\ (forall st c, x = Answered st c -> st <> 401 ->
        run (x :: rest) (Api.dispatch config) b s =
          ([Api.add_token b config], (b, s, Api.settle x)))
  /\ (forall why, x = Unreachable why ->
        run (x :: rest) (Api.dispatch config) b s =
          ([Api.add_token b config], (b, s, Api.settle x))).
Proof.
  split; [|split].
  - intros c ->. split; [by rewrite run_dispatch|].
    split; [|done]. unfold getItem. cbn. apply lookup_delete_eq.
  - intros st c -> Hne. rewrite run_dispatch. cbn [hd].
    pose proof (settle_not_401 st c Hne) as Hs.
    destruct (Api.settle _); [done|]. by rewrite Hs.
  - intros why ->. by rewrite run_dispatch.
Qed.

(** A stale JWT: the conversations request comes back 401 and the session
    is gone. *)
Lemma unauthorized_reply_witness :
  let b := setItem "token" "stale.jwt" Sample.fresh_browser in
  let x := Sample.refused 401 "Token expirado" in
  run [x] (Api.get (S := unit) "/api/conversations/" [("project_id", VStr "pacific-surf")]) b tt
  = ([ {| method := GET; url := "/api/conversations/";
          params := [("project_id", VStr "pacific-surf")];
          headers := [("Content-Type", "application/json");
                      ("Authorization", "Bearer stale.jwt")];
          body := None |} ],
     (navigate "/login" (removeItem "token" b), tt,
      Throw (AxiosError (Some (401, VObj [("detail", VStr "Token expirado")]))
                        "Request failed with status code 401"))).
Proof.
  intros b x.
  destruct (unauthorized_reply_ends_session
              (Api.defaults GET "/api/conversations/" [("project_id", VStr "pacific-surf")] None)
              b tt x []) as (H401 & _).
  destruct (H401 _ eq_refl) as (Hrun & _).
  exact Hrun.
Defined.

(** ** Sending a reply *)

Section StaffSend.
Context `{Builtins}.
Variables project_id conversation_id : string.
Import UseConversation.

Let refetch (b : browser) : request :=
  Api.add_token b (Api.defaults GET (endpoint project_id conversation_id) [] None).

Lemma fetchConversation_run replies b h :
  exists b' h',
    run replies (fetchConversation project_id conversation_id) b h
      = ([refetch b], (b', h', Return tt))
    /\ sending h' = sending h
    /\ (forall r, Api.settle (hd silence replies) = Return r ->
          b' = b /\ conversation h' = Api.data r).
Proof.
  unfold fetchConversation, Api.get. run_steps.
  destruct (Api.settle _) as [r|e] eqn:Hx; run_steps.
  - destruct (get (Api.data r) "messages") as [msgs|e'] eqn:Hm; run_steps.
    + destruct (get msgs "length") as [n|e''] eqn:Hl; run_steps.
      * destruct (count_of msgs) as [k|]; [destruct (_ <? _)%nat|]; run_steps;
          (do 2 eexists; split; [reflexivity|]; split; [done|]; intros ? [= <-]; done).
      * do 2 eexists; split; [reflexivity|]; split; [done|]; intros ? [= <-]; done.
    + do 2 eexists; split; [reflexivity|]; split; [done|]; intros ? [= <-]; done.
  - do 2 eexists; split; [reflexivity|]; split; [done|]; intros ? [=].
Qed.

Import ConversationViewerPage.

Let post_reply (b : browser) (s : State) : request :=
  Api.add_token b
    (Api.defaults POST (endpoint project_id conversation_id +:+ "/send") []
       (Some (VObj [("text", VStr (trim (replyText s)))]))).

Lemma staff_send_blocked b s replies :
  cannot_send s = true ->
  run replies (handleSend project_id conversation_id) b s = ([], (b, s, Return tt)).
Proof. intros Hg. unfold handleSend. run_steps. rewrite Hg. by run_steps. Qed.

Lemma staff_send_failed b s x rest e :
  cannot_send s = false ->
  Api.settle x = Throw e ->
  exists s',
    run (x :: rest) (handleSend project_id conversation_id) b s
      = ([post_reply b s],
         (if Api.is_unauthorized e then navigate "/login" (removeItem "token" b) else b,
          s', Return tt))
    /\ sendError s'
       = Some (match to_string (or_else (Api.detail e) (VStr "Erro ao enviar mensagem")) with
               | Return text => text
               | Throw e' => message e'
               end)
    /\ replyText s' = replyText s
    /\ hook s' = hook s
    /\ statusLoading s' = statusLoading s
    /\ shareModal s' = shareModal s
    /\ shareLink s' = shareLink s.
Proof.
  intros Hg He.
  assert (UseConversation.sending (hook s) = false) as Hs.
  { unfold cannot_send in Hg. by apply orb_false_elim in Hg as [_ ?]. }
  unfold handleSend, sendMessage, in_hook, UseConversation.sendMessage, Api.post, rethrow.
  run_steps. rewrite Hg. run_steps. rewrite He. run_steps.
  destruct (to_string _) as [t|e']; run_steps;
    (eexists; split; [reflexivity|]; cbn; repeat split;
     destruct s as [[] ?]; cbn in *; by subst).
Qed.

Lemma staff_send_done b s x rest r :
  cannot_send s = false ->
  Api.settle x = Return r ->
  exists b' s',
    run (x :: rest) (handleSend project_id conversation_id) b s
      = ([post_reply b s; refetch b], (b', s', Return tt))
    /\ replyText s' = "" /\ sendError s' = None
    /\ UseConversation.sending (hook s') = false.
Proof.
  intros Hg Hr.
  assert (UseConversation.sending (hook s) = false) as Hs.
  { unfold cannot_send in Hg. by apply orb_false_elim in Hg as [_ ?]. }
  unfold handleSend, sendMessage, in_hook, UseConversation.sendMessage, Api.post, rethrow.
  run_steps. rewrite Hg. run_steps. rewrite Hr. run_steps.
  destruct (fetchConversation_run rest b (setSending true (hook (setSendError None s))))
    as (b' & h' & -> & Hsend & _).
  run_steps. by do 2 eexists.
Qed.
End StaffSend.

Section PortalSend.
Context `{Builtins}.
Variable token : string.
Variable props : Live.Props.
Import Live.

Let post_text (u : string) (s : ViewState) : request :=
  fetch_request (u +:+ "/send")
    (Some {| init_method := Some POST; init_headers := [];
             init_body := Some (VObj [("text", VStr (trim (replyText s)))]) |}).

Lemma portal_send_blocked b s replies :
  cannot_send s = true ->
  run replies (handleSend token) b s = ([], (b, s, Return tt)).
Proof. intros Hg. unfold handleSend. run_steps. rewrite Hg. by run_steps. Qed.

Lemma portal_send_no_endpoint b s replies e :
  cannot_send s = false ->
  conversation_endpoint token s = Throw e ->
  run replies (handleSend token) b s
    = ([], (b, setSendError (Some (message e)) s, Return tt)).
Proof.
  intros Hg He.
  assert (sending s = false) as Hs.
  { unfold cannot_send in Hg. by apply orb_false_elim in Hg as [_ ?]. }
  unfold handleSend. run_steps. rewrite Hg. run_steps. rewrite He. run_steps.
  do 3 f_equal. destruct s; cbn in *; by subst.
Qed.

Lemma portal_send_failed b s x rest u e :
  cannot_send s = false ->
  conversation_endpoint token s = Return u ->
  portal_result x = Throw e ->
  exists s',
    run (x :: rest) (handleSend token) b s = ([post_text u s], (b, s', Return tt))
    /\ sendError s' = Some (message e)
    /\ replyText s' = replyText s
    /\ conv s' = conv s
    /\ sending s' = false
    /\ statusLoading s' = statusLoading s
    /\ showFollowup s' = showFollowup s
    /\ followupDate s' = followupDate s.
Proof.
  intros Hg Hu He.
  unfold handleSend. run_steps. rewrite Hg. run_steps. rewrite Hu. run_steps.
  rewrite He. run_steps. by eexists.
Qed.

Lemma portal_send_done b s x rest u v :
  cannot_send s = false ->
  conversation_endpoint token s = Return u ->
  portal_result x = Return v ->
  exists s',
    run (x :: rest) (handleSend token) b s
      = ([post_text u s; fetch_request u None], (b, s', Return tt))
    /\ replyText s' = "" /\ sending s' = false
    /\ match portal_result (hd silence rest) with
       | Return data => conv s' = data /\ sendError s' = None
       | Throw e => conv s' = conv s /\ sendError s' = Some (message e)
       end.
Proof.
  intros Hg Hu Hv.
  unfold handleSend. run_steps. rewrite Hg. run_steps. rewrite Hu. run_steps.
  rewrite Hv. run_steps.
  destruct (portal_result (hd silence rest)) as [data|e]; run_steps;
    by eexists.
Qed.

Lemma portal_send_button s c box :
  render props s = Return c -> reply_box c = Some box ->
  send_disabled box = cannot_send s /\ input_disabled box = sending s.
Proof.
  unfold render. intros Hr Hb.
  destruct (get (conv s) "messages"); [|done]. cbn in Hr.
  destruct (isHandoff s); [|done]. cbn in Hr.
  destruct (takeoverUntil s); [|done]. cbn in Hr.
  injection Hr as <-. cbn in Hb. destruct (canAct props); [|done].
  by injection Hb as <-.
Qed.
End PortalSend.

Lemma staff_send_button `{Builtins} (s : ConversationViewerPage.State) c :
  ConversationViewerPage.render s = ConversationViewerPage.Conversa c ->
  ConversationViewerPage.send_disabled c = ConversationViewerPage.cannot_send s.
Proof.
  unfold ConversationViewerPage.render.
  destruct (UseConversation.loading _); [done|].
  destruct (negb _); [done|]. by intros [= <-].
Qed.



(** ** Status changes and the hand-off toggle *)

Section StatusChange.
Context `{Builtins}.

Section Staff.
Variables project_id conversation_id : string.
Import UseConversation.

Lemma updateStatus_run status reason replies b h :
  exists more out,
    run replies (updateStatus project_id conversation_id status reason) b h
      = (Api.add_token b
           (Api.defaults PATCH (endpoint project_id conversation_id +:+ "/status") []
              (Some (status_body status reason))) :: more, out)
    /\ Forall (fun r => method r = GET) more.
Proof.
  unfold updateStatus, Api.patch, rethrow. run_steps.
  destruct (Api.settle _) as [r|e]; run_steps.
  - destruct (fetchConversation_run project_id conversation_id (drop 1 replies) b h)
      as (b' & h' & -> & _).
    run_steps. do 2 eexists. split; [done|]. repeat constructor.
    unfold Api.add_token. by repeat case_match.
  - destruct (to_string _); run_steps; do 2 eexists; by split.
Qed.

Import ConversationViewerPage.

Lemma staff_click btn replies b s :
  exists more out,
    run replies (onClick project_id conversation_id btn) b s
      = (Api.add_token b
           (Api.defaults PATCH (endpoint project_id conversation_id +:+ "/status") []
              (Some (status_body
                       (match btn with Assumir => "handoff" | DevolverAoBot => "open" end)
                       (Some (match btn with
                              | Assumir => "Takeover manual pelo dashboard"
                              | DevolverAoBot => "Devolvido ao bot pelo dashboard"
                              end))))) :: more, out)
    /\ Forall (fun r => method r = GET) more.
Proof.
  destruct btn; unfold onClick, handleTakeover, handleReturnToBot,
    ConversationViewerPage.updateStatus, in_hook; run_steps.
  - destruct (updateStatus_run "handoff" (Some "Takeover manual pelo dashboard")
                replies b (hook (setStatusLoading true s)))
      as (more & [[b' h'] [v|e]] & -> & Hmore); run_steps; by do 2 eexists.
  - destruct (updateStatus_run "open" (Some "Devolvido ao bot pelo dashboard")
                replies b (hook (setStatusLoading true s)))
      as (more & [[b' h'] [v|e]] & -> & Hmore); run_steps; by do 2 eexists.
Qed.

Lemma staff_toggle s c :
  render s = Conversa c ->
  status_button c = (if isHandoff s then DevolverAoBot else Assumir)
  /\ handoff_banner c
     = (if isHandoff s && truthy (takeoverUntil s) then Some (takeoverUntil s) else None).
Proof.
  unfold render.
  destruct (UseConversation.loading _); [done|].
  destruct (negb (truthy _)); [done|]. intros [= <-]. cbn.
  by destruct (isHandoff s).
Qed.
End Staff.

Section Portal.
Variable token : string.
Variable props : Live.Props.
Import Live.

Lemma portal_status_run newStatus replies b s u :
  conversation_endpoint token s = Return u ->
  exists more out,
    run replies (handleStatusChange token newStatus) b s
      = (fetch_request (u +:+ "/status")
           (Some {| init_method := Some PATCH; init_headers := [];
                    init_body := Some (UseConversation.status_body newStatus
                                         (Some "Alterado via portal")) |}) :: more, out)
    /\ Forall (fun r => method r = GET) more.
Proof.
  intros Hu. unfold handleStatusChange. run_steps. rewrite Hu. run_steps.
  destruct (portal_result _); run_steps.
  - destruct (portal_result _); run_steps; do 2 eexists; split; try done;
      by repeat constructor.
  - do 2 eexists; by split.
Qed.

Lemma portal_toggle s c :
  render props s = Return c ->
  exists handoff until,
    isHandoff s = Return handoff /\ takeoverUntil s = Return until
    /\ status_button c
       = (if canAct props then Some (if handoff then DevolverAoBot else Assumir) else None)
    /\ handoff_banner c = (if handoff && truthy until then Some until else None).
Proof.
  unfold render. destruct (get (conv s) "messages"); [|done]. cbn.
  destruct (isHandoff s) as [handoff|]; [|done]. cbn.
  destruct (takeoverUntil s) as [until|]; [|done]. cbn.
  intros [= <-]. exists handoff, until. cbn. by destruct handoff.
Qed.
End Portal.

Section ListPage.
Variable common_error : string.
Import ConversationList.

Lemma quick_status_run conv newStatus replies b s pid cid :
  get conv "project_id" = Return (VStr pid) ->
  get conv "conversation_id" = Return (VStr cid) ->
  exists more out,
    run replies (handleQuickStatus conv newStatus) b s
      = (Api.add_token b
           (Api.defaults PATCH ("/api/conversations/" +:+ pid +:+ "/" +:+ cid +:+ "/status") []
              (Some (UseConversation.status_body newStatus (Some (quick_reason newStatus)))))
           :: more, out)
    /\ more = [].
Proof.
  intros Hp Hc. unfold handleQuickStatus, Api.patch. run_steps.
  rewrite Hp, Hc. cbn [mbind result_bind bind to_string]. run_steps.
  destruct (Api.settle _); run_steps; by do 2 eexists.
Qed.
End ListPage.
End StatusChange.

(** C3.  A status change is one PATCH to the conversation's [/status]
    endpoint whose body is [{ status, reason }] with a string status and
    the reason left out when there is none; whatever follows it is a GET
    that reloads the conversation.  The hook, the staff viewer, the portal
    view and the list all do it this way.  Each screen offers one button:
    for a conversation whose status is not ['handoff'] it asks for
    ['handoff'], for one whose status is ['handoff'] it asks for ['open'].
    The banner of the paused bot shows [metadata.human_takeover_until], and
    is there exactly when the conversation is in hand-off and that field is
    set. *)
Theorem status_change_is_patch_and_toggle `{Builtins} :
  (forall project_id conversation_id status reason replies b h,
     exists more out,
       run replies (UseConversation.updateStatus project_id conversation_id status reason) b h
         = (Api.add_token b
              (Api.defaults PATCH
                 (UseConversation.endpoint project_id conversation_id +:+ "/status") []
                 (Some (UseConversation.status_body status reason))) :: more, out)
       /\ Forall (fun r => method r = GET) more)
  /\ (forall project_id conversation_id (s : ConversationViewerPage.State) c,
        ConversationViewerPage.render s = ConversationViewerPage.Conversa c ->
        let conversation := UseConversation.conversation (ConversationViewerPage.hook s) in
        let handoff := is_str (opt conversation "status") "handoff" in
        let until := opt (opt conversation "metadata") "human_takeover_until" in
        ConversationViewerPage.status_button c
          = (if handoff then ConversationViewerPage.DevolverAoBot
             else ConversationViewerPage.Assumir)
        /\ ConversationViewerPage.handoff_banner c
           = (if handoff && truthy until then Some until else None)
        /\ forall replies b,
             exists reason more out,
               run replies
                 (ConversationViewerPage.onClick project_id conversation_id
                    (ConversationViewerPage.status_button c)) b s
               = (Api.add_token b
                    (Api.defaults PATCH
                       (UseConversation.endpoint project_id conversation_id +:+ "/status") []
                       (Some (UseConversation.status_body
                                (if handoff then "open" else "handoff") (Some reason))))
                    :: more, out)
               /\ Forall (fun r => method r = GET) more)
  /\ (forall token props (s : Live.ViewState) c button u,
        Live.render props s = Return c ->
        Live.status_button c = Some button ->
        Live.conversation_endpoint token s = Return u ->
        let handoff := is_str (own (Live.conv s) "status") "handoff" in
        let until := opt (own (Live.conv s) "metadata") "human_takeover_until" in
        button = (if handoff then Live.DevolverAoBot else Live.Assumir)
        /\ Live.handoff_banner c = (if handoff && truthy until then Some until else None)
        /\ forall replies b,
             exists more out,
               run replies (Live.handleStatusChange token (Live.target button)) b s
               = (Live.fetch_request (u +:+ "/status")
                    (Some {| Live.init_method := Some PATCH; Live.init_headers := [];
                             Live.init_body :=
                               Some (UseConversation.status_body
                                       (if handoff then "open" else "handoff")
                                       (Some "Alterado via portal")) |})
                    :: more, out)
               /\ Forall (fun r => method r = GET) more)
  /\ (forall conv project_id conversation_id (s : ConversationList.State) replies b,
        get conv "project_id" = Return (VStr project_id) ->
        get conv "conversation_id" = Return (VStr conversation_id) ->
        let handoff := is_str (own conv "status") "handoff" in
        let next := if handoff then "open" else "handoff" in
        ConversationList.quick_action conv = Return next
        /\ exists out,
             run replies (ConversationList.handleQuickStatus conv next) b s
             = ([Api.add_token b
                   (Api.defaults PATCH
                      ("/api/conversations/" +:+ project_id +:+ "/" +:+ conversation_id
                       +:+ "/status") []
                      (Some (UseConversation.status_body next
                               (Some (ConversationList.quick_reason next)))))], out)).
Proof.
  split; [intros; apply updateStatus_run|].
  split; [|split].
  - intros project_id conversation_id s c Hr conversation handoff until.
    destruct (staff_toggle s c Hr) as [Hb Hbanner].
    split; [done|]. split; [done|].
    intros replies b. rewrite Hb.
    destruct (staff_click project_id conversation_id
                (if ConversationViewerPage.isHandoff s
                 then ConversationViewerPage.DevolverAoBot
                 else ConversationViewerPage.Assumir) replies b s)
      as (more & out & Hrun & Hmore).
    fold handoff. change (ConversationViewerPage.isHandoff s) with handoff in *.
    destruct handoff; eexists _, more, out; by split.
  - intros token props s c button u Hr Hbtn Hu handoff until.
    destruct (portal_toggle props s c Hr) as (h' & until' & Hh & Ht & Hb & Hbanner).
    assert (nullish (Live.conv s) = false) as Hconv.
    { unfold Live.isHandoff, get in Hh. by destruct (nullish (Live.conv s)). }
    unfold Live.isHandoff in Hh. rewrite get_not_nullish in Hh by done.
    injection Hh as <-.
    unfold Live.takeoverUntil in Ht. rewrite get_not_nullish in Ht by done.
    injection Ht as <-.
    fold handoff until in Hb, Hbanner.
    rewrite Hbtn in Hb. destruct (Live.canAct props); [|done].
    injection Hb as ->. split; [done|]. split; [done|].
    intros replies b.
    destruct (portal_status_run token
                (Live.target (if handoff then Live.DevolverAoBot else Live.Assumir))
                replies b s u Hu) as (more & out & Hrun & Hmore).
    exists more, out. split; [|done]. rewrite Hrun. by destruct handoff.
  - intros conv project_id conversation_id s replies b Hp Hc handoff next.
    assert (nullish conv = false) as Hconv.
    { unfold get in Hp. by destruct (nullish conv). }
    split.
    + unfold ConversationList.quick_action. rewrite get_not_nullish by done.
      cbn. fold handoff. by destruct handoff.
    + destruct (quick_status_run conv next replies b s project_id conversation_id Hp Hc)
        as (more & out & Hrun & ->). by exists out.
Qed.

(** A conversation a human took over until 13:00: the viewer offers
    "Devolver ao Bot", shows the pause, and the click asks for ['open']. *)
Lemma status_toggle_witness :
  let s := ConversationViewerPage.setHook
             (UseConversation.setLoading false
                (UseConversation.setConversation Sample.conversation_handoff
                   UseConversation.initial))
             ConversationViewerPage.initial in
  exists c,
    ConversationViewerPage.render (H := Sample.builtins) s
      = ConversationViewerPage.Conversa c
    /\ ConversationViewerPage.status_button c = ConversationViewerPage.DevolverAoBot
    /\ ConversationViewerPage.handoff_banner c = Some (VStr "2026-02-12T13:00:00Z").
Proof.
  intros s. eexists. split; [reflexivity|].
  destruct (status_change_is_patch_and_toggle (H := Sample.builtins)) as (_ & Hstaff & _).
  destruct (Hstaff "pacific-surf" "5511999990000" s _ eq_refl) as (Hb & Hbanner & _).
  split; [exact Hb|exact Hbanner].
Defined.

(** ** The live portal: detection and polling *)

Lemma filter_rows_all keep rows :
  (forall c, keep c = Return true) -> JsText.filter_rows keep rows = Return rows.
Proof.
  intros Hall. induction rows as [|c rows IH]; [done|].
  cbn. rewrite Hall. cbn. by rewrite IH.
Qed.

Lemma rows_of_conversations convs keyed :
  PortalPage.rows_of convs = Return keyed -> keyed.*2 = convs.
Proof.
  revert keyed. induction convs as [|c convs IH]; intros keyed; cbn.
  { by intros [= <-]. }
  destruct (PortalPage.row c) as [r|e] eqn:Hr; [|done]. cbn.
  destruct (PortalPage.rows_of convs) as [rs|e]; [|done]. cbn.
  intros [= <-]. cbn. rewrite (IH rs eq_refl). f_equal.
  revert Hr. unfold PortalPage.row.
  repeat (match goal with
          | |- context [mbind _ ?r] => destruct r; [|done]
          end; cbn).
  by intros [= <-].
Qed.

Lemma rows_of_returns convs :
  Forall (fun c => exists r, PortalPage.row c = Return r) convs ->
  exists keyed, PortalPage.rows_of convs = Return keyed.
Proof.
  induction 1 as [|c convs [r Hr] _ [rs IH]]; [by exists []|].
  exists (r :: rs). cbn. by rewrite Hr, IH.
Qed.

Section PortalView.
Context `{JsText.Strings}.

Lemma list_view_unfiltered s rows :
  Live.conversations s = VArr rows ->
  Live.search s = "" -> Live.statusFilter s = "all" ->
  PortalPage.list_view s
  = (keyed ← PortalPage.rows_of rows;
     Return (Live.PortalDeConversas (VNum (pretty (length rows))) keyed)).
Proof.
  intros Hc Hs Hf. unfold PortalPage.list_view, PortalList.filtered.
  rewrite Hc, Hs, Hf. cbn [JsText.filter_of].
  rewrite filter_rows_all; [done|].
  intros c. unfold PortalList.keep, PortalList.matchSearch, PortalList.matchStatus. done.
Qed.

Lemma list_view_not_array s :
  (forall rows, Live.conversations s <> VArr rows) ->
  PortalPage.list_view s
  = Throw (if nullish (Live.conversations s)
           then cannot_read (Live.conversations s) "filter"
           else JsText.not_a_function "filter").
Proof.
  intros Hc. unfold PortalPage.list_view, PortalList.filtered.
  destruct (Live.conversations s) as [| | | | |rows|]; try done.
  by destruct (Hc rows).
Qed.

Lemma render_list s :
  Live.loading s = false -> Live.unavailable s = Return false ->
  truthy (Live.selectedConv s) = false ->
  PortalPage.render s = PortalPage.list_view s.
Proof. intros Hl Hu Hsel. unfold PortalPage.render. by rewrite Hl, Hu, Hsel. Qed.

End PortalView.

Section PortalDetect.
Context `{JsText.Strings}.
Variable token : string.
Import Live.

Lemma loadConversations_run replies b s :
  exists s',
    run replies (loadConversations token) b s
      = ([fetch_request (list_endpoint token) None], (b, s', Return tt))
    /\ loading s' = false
    /\ portalType s' = portalType s
    /\ selectedConv s' = selectedConv s
    /\ match portal_result (hd silence replies) with
       | Return rows => conversations s' = rows /\ error s' = None
       | Throw e => conversations s' = conversations s /\ error s' = Some (message e)
       end
    /\ search s' = search s
    /\ statusFilter s' = statusFilter s.
Proof.
  unfold loadConversations. run_steps.
  destruct (portal_result _); run_steps; by eexists.
Qed.

Lemma detect_first replies b s :
  exists more out,
    run replies (detect token) b s
      = (fetch_request ("/api/live/" +:+ token) None :: more, out).
Proof.
  unfold detect. run_steps.
  destruct (portal_result _) as [data|e]; run_steps; [|by do 2 eexists].
  destruct (get data "type") as [ty|e]; run_steps; [|by do 2 eexists].
  destruct (is_str ty "portal"); run_steps.
  - destruct (loadConversations_run (drop 1 replies) b (setPortalType portal s))
      as (s' & -> & _). run_steps. by do 2 eexists.
  - destruct (get data "messages") as [ms|e]; run_steps; [|by do 2 eexists].
    destruct (truthy ms); run_steps; by do 2 eexists.
Qed.

Lemma detect_portal x rest b data ty :
  portal_result x = Return data ->
  get data "type" = Return ty ->
  is_str ty "portal" = true ->
  exists s',
    run (x :: rest) (detect token) b initial
      = ([fetch_request ("/api/live/" +:+ token) None;
          fetch_request (list_endpoint token) None], (b, s', Return tt))
    /\ page_timers token s'
       = [ {| every_ms := 10000%N; on_tick := detached (loadConversations token) |} ]
    /\ match portal_result (hd silence rest) with
       | Return body =>
           conversations s' = body
           /\ search s' = "" /\ statusFilter s' = "all"
           /\ PortalPage.render s' = PortalPage.list_view s'
       | Throw e => error s' = Some (message e)
       end.
Proof.
  intros Hx Hty Hp. unfold detect. run_steps. rewrite Hx. run_steps.
  rewrite Hty. run_steps. rewrite Hp. run_steps.
  destruct (loadConversations_run rest b (setPortalType portal initial))
    as (s' & -> & Hl & Hpt & Hsel & Hrows & Hsearch & Hfilter). run_steps.
  exists s'. split; [done|]. split.
  { unfold page_timers. by rewrite Hpt. }
  revert Hrows. destruct (portal_result (hd silence rest)) as [body|e].
  - intros [Hc He]. split; [done|]. split; [done|]. split; [done|].
    apply render_list; [done| |by rewrite Hsel].
    unfold unavailable. by rewrite He.
  - by intros [_ He].
Qed.

Lemma detect_live_view x rest b data ty messages :
  portal_result x = Return data ->
  get data "type" = Return ty ->
  is_str ty "portal" = false ->
  get data "messages" = Return messages ->
  truthy messages = true ->
  exists s',
    run (x :: rest) (detect token) b initial
      = ([fetch_request ("/api/live/" +:+ token) None], (b, s', Return tt))
    /\ page_timers token s' = []
    /\ PortalPage.render s'
       = Return (Detalhe {| conversation := data; view_type := Some live_view;
                            onBack := false |}).
Proof.
  intros Hx Hty Hp Hm Ht. unfold detect. run_steps. rewrite Hx. run_steps.
  rewrite Hty. run_steps. rewrite Hp. run_steps. rewrite Hm. run_steps.
  rewrite Ht. run_steps. eexists. split; [done|]. split; [done|].
  unfold PortalPage.render, unavailable. cbn.
  assert (truthy data = true) as ->; [|done].
  destruct data; cbn in *; try done; injection Hm as <-; by cbn in Ht.
Qed.

Section View.
Context `{Builtins}.

Lemma refresh_run replies b s u :
  conversation_endpoint token s = Return u ->
  fst (run replies (refresh token) b s) = [fetch_request u None].
Proof.
  intros Hu. unfold refresh. run_steps. rewrite Hu. run_steps.
  by destruct (portal_result _); run_steps.
Qed.

Lemma poll_intervals_in_range :
  (forall s t, In t (page_timers token s) -> (3000 <= every_ms t <= 10000)%N)
  /\ (forall t, In t (view_timers token) -> (3000 <= every_ms t <= 10000)%N).
Proof.
  split.
  - intros s t. unfold page_timers. destruct (portalType s) as [[]|]; cbn; [|tauto..].
    intros [<-|[]]. cbn. lia.
  - intros t [<-|[]]. cbn. lia.
Qed.
End View.
End PortalDetect.

(** ** The live portal: what its requests carry *)

Lemma only_bind_eval {S A B} (P : request -> Prop) (r : result A) (f : A -> prog S B) :
  (forall a, r = Return a -> only P (f a)) -> only P (eval r ≫= f).
Proof.
  intros Hf b s. unfold mbind, prog_mbind, prog_bind. cbn.
  destruct r as [a|e]; [by apply Hf|done].
Qed.

Lemma prefix_append p rest : String.prefix p (p +:+ rest) = true.
Proof.
  induction p as [|c p IH]; simpl; [by destruct rest|].
  destruct (Ascii.ascii_dec c c); [done|congruence].
Qed.

Lemma append_assoc (a b c : string) : (a +:+ b) +:+ c = a +:+ (b +:+ c).
Proof.
  induction a as [|x a IH]; [done|].
  change (String x ((a +:+ b) +:+ c) = String x (a +:+ (b +:+ c))). by rewrite IH.
Qed.

Lemma append_nil_r (a : string) : a +:+ "" = a.
Proof.
  induction a as [|x a IH]; [done|].
  change (String x (a +:+ "") = String x a). by rewrite IH.
Qed.

Section PortalRequests.
Context `{Builtins}.
Variable token : string.
Import Live.

Local Abbreviation anonymous := (Live.anonymous token).

Lemma anonymous_fetch rest m payload :
  anonymous (fetch_request (("/api/live/" +:+ token) +:+ rest)
               (Some {| init_method := m; init_headers := []; init_body := payload |})).
Proof. repeat split. apply prefix_append. Qed.

Lemma anonymous_get rest :
  anonymous (fetch_request (("/api/live/" +:+ token) +:+ rest) None).
Proof. repeat split. apply prefix_append. Qed.

Lemma only_portalFetch {S} u options :
  anonymous (fetch_request u options) -> only (S:=S) anonymous (portalFetch u options).
Proof.
  intros Hu. unfold portalFetch. apply only_bind; [by apply only_send|].
  intros x. apply only_eval.
Qed.

Lemma endpoint_under s u :
  conversation_endpoint token s = Return u ->
  exists rest, u = ("/api/live/" +:+ token) +:+ rest.
Proof.
  unfold conversation_endpoint. destruct (get _ _) as [id|]; [|done]. cbn.
  destruct (to_string id) as [text|]; [|done]. cbn. intros [= <-].
  eexists. unfold detail_endpoint. by rewrite <- append_assoc.
Qed.

Local Ltac only_step :=
  first
  [ apply only_portalFetch
  | apply only_ret | apply only_mret | apply only_set | apply only_state
  | apply only_eval
  | apply only_try_finally | apply only_try_catch; [|intros ?]
  | apply only_detached
  | apply only_bind_eval; intros ? ?
  | apply only_bind; [|intros ?] ].

Lemma loadConversations_anonymous : only anonymous (loadConversations token).
Proof.
  unfold loadConversations. repeat only_step.
  unfold list_endpoint. rewrite <- append_assoc. apply anonymous_get.
Qed.

Lemma detect_anonymous : only anonymous (detect token).
Proof.
  pose proof loadConversations_anonymous as Hload.
  unfold detect. repeat only_step.
  - rewrite <- (append_nil_r ("/api/live/" +:+ token)). apply anonymous_get.
  - destruct (is_str _ _); repeat (first [apply Hload | only_step]).
    destruct (truthy _); repeat only_step.
Qed.

Lemma openConversation_anonymous conv : only anonymous (openConversation token conv).
Proof.
  unfold openConversation. repeat only_step.
  unfold detail_endpoint. rewrite <- append_assoc.
  apply anonymous_get.
Qed.

Lemma back_anonymous : only anonymous (back token).
Proof.
  pose proof loadConversations_anonymous as Hload.
  unfold back. repeat (first [apply Hload | only_step]).
Qed.

Local Ltac at_endpoint :=
  match goal with
  | Hu : conversation_endpoint _ _ = Return ?u |- _ =>
      apply endpoint_under in Hu as [? ->]
  end;
  rewrite ?(append_assoc ("/api/live/" +:+ token));
  first [apply anonymous_get | apply anonymous_fetch].

Lemma refresh_anonymous : only anonymous (refresh token).
Proof. unfold refresh. repeat only_step. at_endpoint. Qed.

Lemma handleSend_anonymous : only anonymous (handleSend token).
Proof.
  unfold handleSend. repeat only_step.
  destruct (cannot_send _); repeat only_step; at_endpoint.
Qed.

Lemma handleStatusChange_anonymous newStatus :
  only anonymous (handleStatusChange token newStatus).
Proof. unfold handleStatusChange. repeat only_step; at_endpoint. Qed.

Lemma handleFollowup_anonymous : only anonymous (handleFollowup token).
Proof. unfold handleFollowup. repeat only_step; at_endpoint. Qed.

Lemma canAct_controls props s c :
  render props s = Return c ->
  followup_button c = canAct props
  /\ bool_decide (is_Some (status_button c)) = canAct props
  /\ bool_decide (is_Some (reply_box c)) = canAct props
  /\ read_only_footer c = negb (canAct props)
  /\ (followup_scheduler c = true -> canAct props = true).
Proof.
  unfold render. destruct (get (conv s) "messages"); [|done]. cbn.
  destruct (isHandoff s); [|done]. cbn.
  destruct (takeoverUntil s); [|done]. cbn. intros [= <-]. cbn.
  destruct (canAct props); cbn; rewrite ?andb_false_r; done.
Qed.
End PortalRequests.

(** C1.  For every token the page's first request is
    [GET /api/live/{token}].  If the reply's [type] is ['portal'], the list
    of conversations is requested next and shown once it arrives, and an
    interval of 10000 ms is registered whose tick requests the list again.
    What arrives is shown as it is: when the body is an array the page
    returns the list, with the array's length in the header and one row
    per element, in order, each under its key; it returns the list whenever
    every row can be built, and throws what building a row throws
    otherwise; when the body is not an array the page throws a
    [TypeError], at [conversations.filter].
    If the reply is not of type ['portal'] and carries [messages], that
    conversation is shown, nothing else is requested, and the view that
    shows it registers an interval of 3000 ms whose tick requests that
    conversation's detail endpoint.  Every interval the portal registers
    is between 3000 and 10000 ms. *)
Theorem live_portal_detects_then_polls `{Builtins} `{JsText.Strings} (token : string) :
  (forall replies b s,
     exists more out,
       run replies (Live.detect token) b s
         = ({| method := GET; url := "/api/live/" +:+ token; params := [];
               headers := [("Content-Type", "application/json")];
               body := None |} :: more, out))
  /\ (forall x rest b data ty,
        Live.portal_result x = Return data ->
        get data "type" = Return ty ->
        is_str ty "portal" = true ->
        exists s',
          run (x :: rest) (Live.detect token) b Live.initial
            = ([Live.fetch_request ("/api/live/" +:+ token) None;
                Live.fetch_request (Live.list_endpoint token) None],
               (b, s', Return tt))
          /\ (forall rows,
                Live.portal_result (hd silence rest) = Return (VArr rows) ->
                PortalPage.render s'
                = (keyed ← PortalPage.rows_of rows;
                   Return (Live.PortalDeConversas (VNum (pretty (length rows))) keyed))
                /\ (Forall (fun conv => exists r, PortalPage.row conv = Return r) rows ->
                    exists keyed,
                      PortalPage.render s'
                      = Return (Live.PortalDeConversas (VNum (pretty (length rows))) keyed)
                      /\ keyed.*2 = rows))
          /\ (forall body,
                Live.portal_result (hd silence rest) = Return body ->
                (forall rows, body <> VArr rows) ->
                exists message, PortalPage.render s' = Throw (TypeError message))
          /\ Live.page_timers token s'
             = [ {| every_ms := 10000%N;
                    on_tick := detached (Live.loadConversations token) |} ]
          /\ forall replies' b' s'',
               fst (run replies' (detached (Live.loadConversations token)) b' s'')
               = [Live.fetch_request (Live.list_endpoint token) None])
  /\ (forall x rest b data ty messages,
        Live.portal_result x = Return data ->
        get data "type" = Return ty ->
        is_str ty "portal" = false ->
        get data "messages" = Return messages ->
        truthy messages = true ->
        let shown := {| Live.conversation := data;
                        Live.view_type := Some Live.live_view;
                        Live.onBack := false |} in
        exists s',
          run (x :: rest) (Live.detect token) b Live.initial
            = ([Live.fetch_request ("/api/live/" +:+ token) None], (b, s', Return tt))
          /\ PortalPage.render s' = Return (Live.Detalhe shown)
          /\ Live.page_timers token s' = []
          /\ Live.view_timers token
             = [ {| every_ms := 3000%N; on_tick := detached (Live.refresh token) |} ]
          /\ forall u replies' b',
               Live.conversation_endpoint token (Live.opened shown) = Return u ->
               fst (run replies' (detached (Live.refresh token)) b' (Live.opened shown))
               = [Live.fetch_request u None])
  /\ (forall s t, In t (Live.page_timers token s) -> (3000 <= every_ms t <= 10000)%N)
  /\ (forall t, In t (Live.view_timers token) -> (3000 <= every_ms t <= 10000)%N).
Proof.
  split; [intros; apply detect_first|].
  split; [|split].
  - intros x rest b data ty Hx Hty Hp.
    destruct (detect_portal token x rest b data ty Hx Hty Hp)
      as (s' & Hrun & Htimers & Hshown).
    exists s'. split; [done|]. split; [|split].
    { intros rows Hrows. rewrite Hrows in Hshown.
      destruct Hshown as (Hc & Hsearch & Hfilter & ->).
      rewrite (list_view_unfiltered s' rows) by done. split; [done|].
      intros [keyed Hkeyed]%rows_of_returns. exists keyed. rewrite Hkeyed.
      split; [done|]. by apply rows_of_conversations. }
    { intros body Hbody Hother. rewrite Hbody in Hshown.
      destruct Hshown as (Hc & _ & _ & ->).
      rewrite list_view_not_array by (by rewrite Hc).
      destruct (nullish (Live.conversations s')); by eexists. }
    split; [done|]. intros replies' b' s''. rewrite run_detached.
    by destruct (loadConversations_run token replies' b' s'') as (? & -> & _).
  - intros x rest b data ty messages Hx Hty Hp Hm Ht shown.
    destruct (detect_live_view token x rest b data ty messages Hx Hty Hp Hm Ht)
      as (s' & Hrun & Htimers & Hshown).
    exists s'. split; [done|]. split; [done|]. split; [done|]. split; [done|].
    intros u replies' b' Hu. rewrite run_detached.
    pose proof (refresh_run token replies' b' (Live.opened shown) u Hu) as Hr.
    by destruct (run replies' (Live.refresh token) b' (Live.opened shown))
      as [sent [[? ?] ?]].
  - apply poll_intervals_in_range.
Qed.

(** A link shared from the staff viewer: the reply is the conversation
    itself, which is shown at once.  A portal link: the list arrives with
    one conversation, which is the one row. *)
Lemma live_view_link_witness :
  (exists s',
     run [Sample.ok Sample.conversation_open]
         (Live.detect "tok-123") Sample.fresh_browser Live.initial
       = ([ {| method := GET; url := "/api/live/tok-123"; params := [];
               headers := [("Content-Type", "application/json")]; body := None |} ],
          (Sample.fresh_browser, s', Return tt))
     /\ PortalPage.render (H := Examples.strings) s'
        = Return (Live.Detalhe {| Live.conversation := Sample.conversation_open;
                                  Live.view_type := Some Live.live_view;
                                  Live.onBack := false |}))
  /\ (exists s',
        run [Sample.ok (VObj [("type", VStr "portal")]);
             Sample.ok (VArr [Sample.conversation_open])]
            (Live.detect "tok-456") Sample.fresh_browser Live.initial
          = ([ Live.fetch_request "/api/live/tok-456" None;
               Live.fetch_request "/api/live/tok-456/conversations?limit=100" None ],
             (Sample.fresh_browser, s', Return tt))
        /\ PortalPage.render (H := Examples.strings) s'
           = Return (Live.PortalDeConversas (VNum "1")
                       [("pacific-surf-whatsapp-5511999990000", Sample.conversation_open)])).
Proof.
  split.
  - destruct (live_portal_detects_then_polls
                (H := Sample.builtins) (H0 := Examples.strings) "tok-123")
      as (_ & _ & Hlive & _).
    destruct (Hlive (Sample.ok Sample.conversation_open) [] Sample.fresh_browser
                Sample.conversation_open VUndef (VArr [])
                eq_refl eq_refl eq_refl eq_refl eq_refl)
      as (s' & Hrun & Hshown & _).
    exists s'. split; [exact Hrun|exact Hshown].
  - destruct (live_portal_detects_then_polls
                (H := Sample.builtins) (H0 := Examples.strings) "tok-456")
      as (_ & Hportal & _).
    destruct (Hportal (Sample.ok (VObj [("type", VStr "portal")]))
                [Sample.ok (VArr [Sample.conversation_open])] Sample.fresh_browser
                (VObj [("type", VStr "portal")]) (VStr "portal")
                eq_refl eq_refl eq_refl)
      as (s' & Hrun & Hlist & _).
    exists s'. split; [exact Hrun|].
    destruct (Hlist [Sample.conversation_open] eq_refl) as [Hshown _].
    exact Hshown.
Defined.



(** ** Polling *)

Section Polling.
Context `{Builtins}.

Lemma rounds_without_timers {S} (n : nat) replies b (s : S) :
  run replies (rounds (fun _ => []) n) b s = ([], (b, s, Return tt)).
Proof.
  revert replies b s. induction n as [|n IH]; intros replies b s; [done|].
  cbn [rounds]. unfold round. run_steps. cbn [map in_turn]. run_steps.
  rewrite IH. by run_steps.
Qed.

Section List.
Variable common_error : string.
Import ConversationList.

Lemma list_loads_once n replies b s :
  run replies (lifetime (mount common_error) timers n) b s
    = run replies (mount common_error) b s.
Proof.
  unfold lifetime. run_steps.
  destruct (run replies (mount common_error) b s) as [sent [[b' s'] [[]|e]]]; [|done].
  unfold timers. rewrite rounds_without_timers. by run_steps.
Qed.

Lemma list_loadConversations_run tenantId replies b s :
  exists out,
    run replies (loadConversations common_error tenantId) b s
      = ([Api.add_token b (Api.defaults GET "/api/conversations/" [("project_id", tenantId)] None)],
         out).
Proof.
  unfold loadConversations, Api.get. run_steps.
  destruct (Api.settle _); run_steps; by eexists.
Qed.

Lemma list_mount_run replies b s :
  match Session.resolve_tenant b with
  | Some (Return tenantId) =>
      if truthy tenantId
      then exists out,
             run replies (mount common_error) b s
               = ([Api.add_token b
                     (Api.defaults GET "/api/conversations/" [("project_id", tenantId)] None)],
                  out)
      else run replies (mount common_error) b s = ([], (b, s, Return tt))
  | Some (Throw e) => run replies (mount common_error) b s = ([], (b, s, Throw e))
  | None => run replies (mount common_error) b s = ([], (b, s, Return tt))
  end.
Proof.
  unfold mount. run_steps.
  destruct (Session.resolve_tenant b) as [[tenantId|e]|]; run_steps; [|done..].
  destruct (truthy tenantId); run_steps; [|done].
  destruct (list_loadConversations_run tenantId replies b s) as [[[b' s'] r] ->].
  by eexists.
Qed.
End List.

Section Staff.
Variables project_id conversation_id : string.
Hypothesis has_project : project_id <> "".
Hypothesis has_conversation : conversation_id <> "".
Import ConversationViewerPage.

Lemma staff_active : UseConversation.active project_id conversation_id options = true.
Proof.
  unfold UseConversation.active, options, UseConversation.enabled_or_default. cbn.
  destruct (String.eqb_spec project_id ""); [done|].
  by destruct (String.eqb_spec conversation_id "").
Qed.

Lemma staff_timers :
  timers project_id conversation_id
  = [ {| every_ms := 5000%N;
         on_tick := in_hook (detached (UseConversation.fetchConversation
                                         project_id conversation_id)) |} ].
Proof.
  unfold timers, UseConversation.timers. by rewrite staff_active.
Qed.

Lemma staff_tick replies b s :
  exists b' s',
    run replies (in_hook (detached (UseConversation.fetchConversation
                                      project_id conversation_id))) b s
    = ([Api.add_token b
          (Api.defaults GET (UseConversation.endpoint project_id conversation_id) [] None)],
       (b', s', Return tt)).
Proof.
  unfold in_hook. run_steps.
  destruct (fetchConversation_run project_id conversation_id replies b (hook s))
    as (b' & h' & -> & _). by do 2 eexists.
Qed.

Lemma staff_rounds n replies b s :
  exists sent b' s',
    run replies (rounds (fun _ => timers project_id conversation_id) n) b s
      = (sent, (b', s', Return tt))
    /\ length sent = n
    /\ Forall (fun r => method r = GET
                        /\ url r = UseConversation.endpoint project_id conversation_id) sent.
Proof.
  rewrite staff_timers.
  revert replies b s. induction n as [|n IH]; intros replies b s.
  { exists [], b, s. by repeat split. }
  cbn [rounds]. unfold round. run_steps. cbn [map in_turn on_tick].
  run_steps.
  destruct (staff_tick replies b s) as (b1 & s1 & ->). run_steps.
  destruct (IH (drop 1 replies) b1 s1) as (sent & b' & s' & -> & Hlen & Hall).
  run_steps. exists (Api.add_token b
          (Api.defaults GET (UseConversation.endpoint project_id conversation_id) [] None) :: sent), b', s'.
  split; [done|]. split; [cbn; by rewrite Hlen|].
  constructor; [|done]. unfold Api.add_token. by repeat case_match.
Qed.

Lemma staff_lifetime n replies b s :
  exists sent out,
    run replies (lifetime (mount project_id conversation_id)
                   (fun _ => timers project_id conversation_id) n) b s = (sent, out)
    /\ length sent = S n.
Proof.
  unfold lifetime, mount, UseConversation.mount, UseConversation.start_polling, in_hook.
  rewrite staff_active. run_steps.
  destruct (fetchConversation_run project_id conversation_id replies b (hook s))
    as (b1 & h1 & -> & _). run_steps.
  destruct (staff_rounds n (drop 1 replies) b1
              (setHook (UseConversation.setIsPolling true (hook (setHook h1 s))) (setHook h1 s)))
    as (sent & b' & s' & -> & Hlen & _). run_steps.
  do 2 eexists. split; [done|]. cbn. by rewrite Hlen.
Qed.
End Staff.
End Polling.

(** C4, as amended.  The dashboard learns of changes by asking again over
    REST on a timer, in two of the three places the claim names.  The
    staff viewer uses the hook with its default of 5000 ms: over its
    lifetime it sends its first GET and one more per round of the timer.
    The live portal asks for the list every 10000 ms and for the open
    conversation every 3000 ms.  The conversation list of the dashboard
    registers no timer: it asks once, when it mounts, and however long it
    stays open nothing more is sent. *)
Theorem polling_where_registered `{Builtins} :
  UseConversation.pollInterval_or_default
    {| UseConversation.enabled := None; UseConversation.pollInterval := None |} = 5000%N
  /\ (forall project_id conversation_id,
        project_id <> "" -> conversation_id <> "" ->
        ConversationViewerPage.timers project_id conversation_id
        = [ {| every_ms := 5000%N;
               on_tick := ConversationViewerPage.in_hook
                            (detached (UseConversation.fetchConversation
                                         project_id conversation_id)) |} ]
        /\ forall n replies b s,
             exists sent out,
               run replies
                 (lifetime (ConversationViewerPage.mount project_id conversation_id)
                    (fun _ => ConversationViewerPage.timers project_id conversation_id) n)
                 b s = (sent, out)
               /\ length sent = S n)
  /\ (forall token,
        (forall s, Live.portalType s = Some Live.portal ->
           Live.page_timers token s
           = [ {| every_ms := 10000%N;
                  on_tick := detached (Live.loadConversations token) |} ])
        /\ (forall replies b s,
              fst (run replies (detached (Live.loadConversations token)) b s)
              = [Live.fetch_request (Live.list_endpoint token) None])
        /\ Live.view_timers token
           = [ {| every_ms := 3000%N; on_tick := detached (Live.refresh token) |} ]
        /\ (forall u replies b s,
              Live.conversation_endpoint token s = Return u ->
              fst (run replies (detached (Live.refresh token)) b s)
              = [Live.fetch_request u None]))
  /\ (forall common_error s,
        ConversationList.timers s = []
        /\ forall n replies b,
             run replies
               (lifetime (ConversationList.mount common_error) ConversationList.timers n) b s
             = run replies (ConversationList.mount common_error) b s
             /\ length (fst (run replies (ConversationList.mount common_error) b s)) <= 1).
Proof.
  split; [done|]. split; [|split].
  - intros project_id conversation_id Hp Hc.
    split; [by apply staff_timers|]. intros n replies b s. by apply staff_lifetime.
  - intros token. split.
    { intros s Hs. unfold Live.page_timers. by rewrite Hs. }
    split.
    { intros replies b s. rewrite run_detached.
      by destruct (loadConversations_run token replies b s) as (? & -> & _). }
    split; [done|].
    intros u replies b s Hu. rewrite run_detached.
    pose proof (refresh_run token replies b s u Hu) as Hr.
    by destruct (run replies (Live.refresh token) b s) as [sent [[? ?] ?]].
  - intros common_error s. split; [done|]. intros n replies b.
    split; [apply list_loads_once|].
    pose proof (list_mount_run common_error replies b s) as Hm.
    destruct (Session.resolve_tenant b) as [[tenantId|e]|]; [|rewrite Hm; cbn; lia..].
    destruct (truthy tenantId); [|rewrite Hm; cbn; lia].
    destruct Hm as [out ->]. cbn. lia.
Qed.

(** The staff viewer of one conversation, left open for three rounds of its
    timer with the API down: four requests. *)
Lemma polling_witness :
  exists sent out,
    run [] (lifetime
              (ConversationViewerPage.mount "pacific-surf" "5511999990000")
              (fun _ => ConversationViewerPage.timers "pacific-surf" "5511999990000") 3)
        Sample.fresh_browser ConversationViewerPage.initial = (sent, out)
    /\ length sent = 4.
Proof.
  destruct (polling_where_registered (H := Sample.builtins)) as (_ & Hstaff & _).
  destruct (Hstaff "pacific-surf" "5511999990000") as [_ Hlife]; [done..|].
  exact (Hlife 3 [] Sample.fresh_browser ConversationViewerPage.initial).
Defined.

(** C4 as first stated has the conversation list refetch its data
    repeatedly like the other two.  A client user opens the list and leaves
    it open for three rounds: the page has no timer, and the one request
    of the mount effect is all that is ever sent. *)
Lemma conversation_list_polls_counterexample :
  let b := setItem "user" "{client}" Sample.fresh_browser in
  let replies := [Sample.ok (VArr [Sample.conversation_open]);
                  Sample.ok (VArr [Sample.conversation_handoff]);
                  Sample.ok (VArr []); Sample.ok (VArr [])] in
  ConversationList.timers ConversationList.initial = []
  /\ fst (run replies
            (lifetime (ConversationList.mount (H := Sample.builtins) "Erro")
                      ConversationList.timers 3)
            b ConversationList.initial)
     = [ {| method := GET; url := "/api/conversations/";
            params := [("project_id", VStr "pacific-surf")];
            headers := [("Content-Type", "application/json")];
            body := None |} ].
Proof. split; [reflexivity|]. vm_compute. reflexivity. Qed.

(** ** Which tenant a request names *)

Lemma contains_unfold needle hay :
  contains needle hay
  = String.prefix needle hay
    || match hay with
       | EmptyString => false
       | String _ rest => contains needle rest
       end.
Proof. by destruct hay. Qed.

Lemma contains_here needle rest : contains needle (needle +:+ rest) = true.
Proof. by rewrite contains_unfold, prefix_append. Qed.

Lemma contains_after pre needle rest :
  contains needle (pre +:+ needle +:+ rest) = true.
Proof.
  induction pre as [|c pre IH].
  { change ("" +:+ needle +:+ rest) with (needle +:+ rest). apply contains_here. }
  change (String c pre +:+ needle +:+ rest) with (String c (pre +:+ needle +:+ rest)).
  rewrite contains_unfold, IH. apply orb_true_r.
Qed.

Lemma scoped_by_path t r pre rest :
  url r = pre +:+ t +:+ rest -> scoped_to t r = true.
Proof. intros Hu. unfold scoped_to. by rewrite Hu, contains_after. Qed.

Lemma scoped_by_param t r rest :
  params r = ("project_id", VStr t) :: rest -> scoped_to t r = true.
Proof.
  intros Hp. unfold scoped_to. rewrite Hp. cbn.
  rewrite String.eqb_refl. cbn. apply orb_true_r.
Qed.

Lemma add_token_url b config : url (Api.add_token b config) = url config.
Proof. unfold Api.add_token. by repeat case_match. Qed.

Lemma add_token_params b config : params (Api.add_token b config) = params config.
Proof. unfold Api.add_token. by repeat case_match. Qed.

Lemma add_token_method b config : method (Api.add_token b config) = method config.
Proof. unfold Api.add_token. by repeat case_match. Qed.

Section Scoping.
Context `{Builtins}.

Lemma resolve_tenant_inv b t :
  Session.resolve_tenant b = Some (Return t) ->
  exists user role,
    Session.stored_user b = Some (Return user)
    /\ get user "role" = Return role
    /\ nullish user = false
    /\ Session.tenant_of b user = Return t.
Proof.
  unfold Session.resolve_tenant.
  destruct (Session.stored_user b) as [[user|e]|]; [|done..].
  cbn. intros [= Ht]. unfold Session.tenant_of in Ht |- *.
  destruct (get user "role") as [role|e] eqn:Hrole; [|done].
  exists user, role. split; [done|]. split; [done|]. split; [|by rewrite Hrole].
  unfold get in Hrole. by destruct (nullish user).
Qed.

Lemma tenant_of_role b user role :
  get user "role" = Return role ->
  Session.tenant_of b user
  = if is_str role "admin"
    then Return (Session.getItem_value "active_tenant_id" b)
    else get user "client_id".
Proof. intros Hr. unfold Session.tenant_of. by rewrite Hr. Qed.

Import MetaConfig.

Lemma loadCurrentConfig_run tid replies b s :
  exists out,
    run replies (loadCurrentConfig (VStr tid)) b s
      = ([Api.add_token b (Api.defaults GET ("/api/config/meta/" +:+ tid) [] None)], out).
Proof.
  unfold loadCurrentConfig, Api.get. run_steps. cbn [to_string]. run_steps.
  destruct (Api.settle _); run_steps; by eexists.
Qed.

Lemma meta_mount_run tid replies b s :
  Session.resolve_tenant b = Some (Return (VStr tid)) ->
  tid <> "" ->
  exists out,
    run replies mount b s
      = ([Api.add_token b (Api.defaults GET ("/api/config/meta/" +:+ tid) [] None)], out).
Proof.
  intros Hres Hne.
  destruct (resolve_tenant_inv b _ Hres) as (user & role & Hu & Hrole & Hnn & Ht).
  unfold mount. run_steps. rewrite Hu. run_steps. rewrite Hrole. run_steps.
  rewrite Ht. run_steps.
  apply truthy_text in Hne. rewrite Hne. cbn [negb].
  destruct (is_str role "admin"); run_steps.
  - destruct (loadCurrentConfig_run tid replies b
                (setTenantId (VStr tid)
                   (setTenantName (or_else (Session.getItem_value "active_tenant_name" b) (VStr ""))
                      (setUser user s)))) as [[[b' s'] r] ->].
    by eexists.
  - rewrite (get_not_nullish user) by done. cbn [mbind result_bind bind]. run_steps.
    destruct (loadCurrentConfig_run tid replies b
                (setTenantId (VStr tid)
                   (setTenantName (or_else (own user "client_name") (VStr ""))
                      (setUser user s)))) as [[[b' s'] r] ->].
    by eexists.
Qed.
End Scoping.




(** ** Session and tenant selection in local storage *)

Lemma role_has_object user role :
  is_str (opt user "role") role = true -> exists props, user = VObj props.
Proof.
  destruct user as [| | | |s|items|props]; try done. by eauto.
Qed.

Lemma getItem_setItem k v b : getItem k (setItem k v b) = Some v.
Proof. unfold getItem, setItem. cbn. apply lookup_insert_eq. Qed.

Lemma getItem_setItem_ne k k' v b : k <> k' -> getItem k (setItem k' v b) = getItem k b.
Proof. intros Hne. unfold getItem, setItem. cbn. by apply lookup_insert_ne. Qed.

Lemma getItem_navigate k path b : getItem k (navigate path b) = getItem k b.
Proof. done. Qed.

Section Login.
Context `{Builtins}.
Import Session.

Let credentials (form : LoginState) : request :=
  Api.defaults POST "/api/auth/login" []
    (Some (VObj [("username", VStr (username form)); ("password", VStr (password form))])).

Let settled (form : LoginState) : LoginState :=
  setLoading false (setLoading true (setError (VStr "") form)).

Lemma login_client x rest b form r tok user cid name :
  Api.settle x = Return r ->
  get (Api.data r) "access_token" = Return (VStr tok) ->
  get (Api.data r) "user" = Return user ->
  is_str (opt user "role") "client" = true ->
  own user "client_id" = VStr cid -> cid <> "" ->
  to_string (or_else (own user "client_name") (VStr "")) = Return name ->
  run (x :: rest) handleLogin b form
    = ([Api.add_token b (credentials form)],
       (navigate "/dash"
          (setItem "active_tenant_name" name
             (setItem "active_tenant_id" cid
                (setItem "user" (JSON_stringify user) (setItem "token" tok b)))),
        settled form, Return tt)).
Proof.
  intros Hx Htok Huser Hrole Hcid Hne Hname.
  destruct (role_has_object _ _ Hrole) as [props ->].
  assert (is_str (opt (VObj props) "role") "admin" = false) as Hadmin.
  { cbn in *. destruct (lookup_prop "role" props); try done.
    apply String.eqb_eq in Hrole as ->. done. }
  apply truthy_text in Hne.
  unfold handleLogin, Api.post, setItem_any, stringify. run_steps.
  rewrite Hx. run_steps. rewrite Htok. run_steps. rewrite Huser. run_steps.
  cbn [to_string]. run_steps.
  rewrite Hrole, Hadmin. rewrite (opt_own _ "client_id") by done.
  rewrite Hcid, Hne. cbn [andb]. run_steps.
  rewrite !get_not_nullish by done. run_steps.
  rewrite Hcid. cbn [to_string]. run_steps. rewrite Hname. by run_steps.
Qed.

Lemma login_other x rest b form r tok user :
  Api.settle x = Return r ->
  get (Api.data r) "access_token" = Return (VStr tok) ->
  get (Api.data r) "user" = Return user ->
  user <> VUndef ->
  is_str (opt user "role") "client" && truthy (opt user "client_id") = false ->
  run (x :: rest) handleLogin b form
    = ([Api.add_token b (credentials form)],
       (navigate (if is_str (opt user "role") "admin" then "/admin" else "/dash")
          (setItem "user" (JSON_stringify user) (setItem "token" tok b)),
        settled form, Return tt)).
Proof.
  intros Hx Htok Huser Hdef Hguard.
  unfold handleLogin, Api.post, setItem_any, stringify. run_steps.
  rewrite Hx. run_steps. rewrite Htok. run_steps. rewrite Huser. run_steps.
  cbn [to_string]. run_steps.
  destruct user; try done; cbn [to_string]; run_steps; rewrite Hguard; by run_steps.
Qed.

Lemma open_dashboard_run {S} client id name replies b (s : S) :
  get client "id" = Return (VStr id) ->
  get client "name" = Return (VStr name) ->
  run replies (handleOpenDashboard client) b s
    = ([], (navigate "/dash"
              (setItem "active_tenant_name" name (setItem "active_tenant_id" id b)),
            s, Return tt)).
Proof.
  intros Hid Hname. unfold handleOpenDashboard, setItem_any. run_steps.
  rewrite Hid. run_steps. cbn [to_string]. run_steps.
  rewrite Hname. run_steps. cbn [to_string]. by run_steps.
Qed.

Lemma resolve_tenant_stored b text user role :
  getItem "user" b = Some text -> text <> "" ->
  JSON_parse text = Return user ->
  get user "role" = Return role ->
  resolve_tenant b
  = Some (if is_str role "admin"
          then Return (getItem_value "active_tenant_id" b)
          else get user "client_id").
Proof.
  intros Hu Hne Hparse Hrole. unfold resolve_tenant, stored_user. rewrite Hu.
  destruct (String.eqb_spec text ""); [done|]. rewrite Hparse. cbn.
  unfold tenant_of. by rewrite Hrole.
Qed.
End Login.

Ltac stored :=
  repeat first [ rewrite getItem_navigate | rewrite getItem_setItem
               | rewrite getItem_setItem_ne by done ];
  done.

Section LoginAny.
Context `{Builtins}.
Import Session.

Lemma login_stores_session x rest b form r tok user :
  Api.settle x = Return r ->
  get (Api.data r) "access_token" = Return (VStr tok) ->
  get (Api.data r) "user" = Return user ->
  user <> VUndef ->
  exists b' form',
    run (x :: rest) handleLogin b form
      = ([Api.add_token b
            (Api.defaults POST "/api/auth/login" []
               (Some (VObj [("username", VStr (username form));
                            ("password", VStr (password form))])))],
         (b', form', Return tt))
    /\ getItem "token" b' = Some tok
    /\ getItem "user" b' = Some (JSON_stringify user).
Proof.
  intros Hx Htok Huser Hdef.
  destruct (is_str (opt user "role") "client" && truthy (opt user "client_id")) eqn:Hguard.
  - apply andb_prop in Hguard as [Hrole Hcid].
    destruct (role_has_object _ _ Hrole) as [props ->].
    unfold handleLogin, Api.post, setItem_any, stringify. run_steps.
    rewrite Hx. run_steps. rewrite Htok. run_steps. rewrite Huser. run_steps.
    cbn [to_string]. run_steps. rewrite Hrole, Hcid. cbn [andb]. run_steps.
    rewrite !get_not_nullish by done. run_steps.
    destruct (to_string (own (VObj props) "client_id")) as [cid|e]; run_steps;
      [|do 2 eexists; split; [reflexivity|]; split; stored].
    destruct (to_string (or_else (own (VObj props) "client_name") (VStr "")))
      as [name|e]; run_steps; do 2 eexists; (split; [reflexivity|]); split; stored.
  - rewrite (login_other x rest b form r tok user) by done.
    do 2 eexists; (split; [reflexivity|]); split; stored.
Qed.
End LoginAny.

(** C6, as amended.  A login that succeeds stores the access token under
    ['token'] and the serialised user under ['user']; when the user's role
    is ['client'] and it has a [client_id], that id goes under
    ['active_tenant_id'] and the client's name (or the empty string) under
    ['active_tenant_name'].  The admin's "open dashboard" action stores the
    chosen client's id and name under the same two keys.  The pages read
    the tenant back from these keys: with the stored user parsed, an admin
    gets ['active_tenant_id'], anyone else their [client_id]. *)
Theorem session_kept_in_local_storage `{Builtins} :
  (forall x rest b form r tok user,
     Api.settle x = Return r ->
     get (Api.data r) "access_token" = Return (VStr tok) ->
     get (Api.data r) "user" = Return user ->
     user <> VUndef ->
     exists b' form',
       run (x :: rest) Session.handleLogin b form
         = ([Api.add_token b
               (Api.defaults POST "/api/auth/login" []
                  (Some (VObj [("username", VStr (Session.username form));
                               ("password", VStr (Session.password form))])))],
            (b', form', Return tt))
       /\ getItem "token" b' = Some tok
       /\ getItem "user" b' = Some (JSON_stringify user)
       /\ (forall cid name,
             is_str (opt user "role") "client" = true ->
             own user "client_id" = VStr cid -> cid <> "" ->
             to_string (or_else (own user "client_name") (VStr "")) = Return name ->
             getItem "active_tenant_id" b' = Some cid
             /\ getItem "active_tenant_name" b' = Some name
             /\ location b' = "/dash"))
  /\ (forall client id name replies b (s : unit),
        get client "id" = Return (VStr id) ->
        get client "name" = Return (VStr name) ->
        exists b',
          run replies (Session.handleOpenDashboard client) b s = ([], (b', s, Return tt))
          /\ getItem "active_tenant_id" b' = Some id
          /\ getItem "active_tenant_name" b' = Some name
          /\ location b' = "/dash"
          /\ getItem "user" b' = getItem "user" b
          /\ getItem "token" b' = getItem "token" b)
  /\ (forall b text user role,
        getItem "user" b = Some text -> text <> "" ->
        JSON_parse text = Return user ->
        get user "role" = Return role ->
        Session.resolve_tenant b
        = Some (if is_str role "admin"
                then Return (Session.getItem_value "active_tenant_id" b)
                else get user "client_id")).
Proof.
  split; [|split].
  - intros x rest b form r tok user Hx Htok Huser Hdef.
    destruct (login_stores_session x rest b form r tok user Hx Htok Huser Hdef)
      as (b' & form' & Hrun & Ht & Hu).
    exists b', form'. split; [done|]. split; [done|]. split; [done|].
    intros cid name Hrole Hcid Hne Hname.
    rewrite (login_client x rest b form r tok user cid name) in Hrun by done.
    injection Hrun as <- _. repeat split; stored.
  - intros client id name replies b s Hid Hname.
    rewrite (open_dashboard_run client id name) by done.
    eexists. split; [done|]. repeat split; stored.
  - intros. by eapply resolve_tenant_stored.
Qed.

(** Pacific Surf's user logs in; the layout then finds the tenant. *)
Lemma client_login_witness :
  let reply := Sample.ok (VObj [("access_token", VStr "jwt");
                                ("user", Sample.client_user)]) in
  let form := {| Session.username := "ana"; Session.password := "segredo";
                 Session.loading := false; Session.error := VStr "" |} in
  exists b' form',
    run [reply] (Session.handleLogin (H := Sample.builtins)) Sample.fresh_browser form
      = ([ {| method := POST; url := "/api/auth/login"; params := [];
              headers := [("Content-Type", "application/json")];
              body := Some (VObj [("username", VStr "ana");
                                  ("password", VStr "segredo")]) |} ],
         (b', form', Return tt))
    /\ getItem "token" b' = Some "jwt"
    /\ getItem "active_tenant_id" b' = Some "pacific-surf"
    /\ getItem "active_tenant_name" b' = Some "Pacific Surf"
    /\ Session.resolve_tenant (H := Sample.builtins) b'
       = Some (Return (VStr "pacific-surf")).
Proof.
  intros reply form.
  destruct (session_kept_in_local_storage (H := Sample.builtins))
    as (Hlogin & _ & Hread).
  destruct (Hlogin reply [] Sample.fresh_browser form
              {| Api.status := 200;
                 Api.data := VObj [("access_token", VStr "jwt");
                                   ("user", Sample.client_user)] |}
              "jwt" Sample.client_user eq_refl eq_refl eq_refl)
    as (b' & form' & Hrun & Htok & Huser & Hclient); [discriminate|].
  destruct (Hclient "pacific-surf" "Pacific Surf" eq_refl eq_refl) as (Hid & Hname & _);
    [discriminate|reflexivity|].
  exists b', form'. split; [exact Hrun|]. split; [exact Htok|].
  split; [exact Hid|]. split; [exact Hname|].
  refine (Hread b' "{client}" Sample.client_user (VStr "client") Huser _ eq_refl eq_refl).
  discriminate.
Defined.

(** C6 as first stated has every client-role login store the tenant keys.
    A client-role account that has no client yet logs in: the token and
    the user are stored, the tenant keys are not. *)
Lemma orphan_login_counterexample :
  let reply := Sample.ok (VObj [("access_token", VStr "jwt");
                                ("user", Sample.orphan_user)]) in
  let form := {| Session.username := "novo"; Session.password := "segredo";
                 Session.loading := false; Session.error := VStr "" |} in
  let b' := fst (fst (snd (run [reply] (Session.handleLogin (H := Sample.builtins))
                               Sample.fresh_browser form))) in
  is_str (own Sample.orphan_user "role") "client" = true
  /\ getItem "token" b' = Some "jwt"
  /\ getItem "user" b' = Some "{orphan}"
  /\ getItem "active_tenant_id" b' = None
  /\ getItem "active_tenant_name" b' = None.
Proof. vm_compute. repeat split. Qed.

(** ** The locale and where it is kept *)

Section Locale.
Context `{Builtins}.
Variable translated : string -> bool.
Import I18n.

Lemma savedKey_tenant tenant :
  tenant <> "" -> savedKey (VStr tenant) = Return ("locale:" +:+ tenant).
Proof. intros Hne. unfold savedKey. apply truthy_text in Hne. by rewrite Hne. Qed.

Lemma savedKey_none tenantId : truthy tenantId = false -> savedKey tenantId = Return "locale".
Proof. intros Hf. unfold savedKey. by rewrite Hf. Qed.

Lemma valid_saved_spec saved :
  valid_saved translated saved = true
  <-> exists l, saved = Some l /\ l <> "" /\ translated l = true.
Proof.
  unfold valid_saved. destruct saved as [l|]; [|split; [done|by intros (? & ? & _)]].
  split.
  - intros [Hne Ht]%andb_prop. exists l. split; [done|]. split; [|done].
    by apply truthy_text.
  - intros (? & [= <-] & Hne & ->). apply truthy_text in Hne. cbn in Hne. by rewrite Hne.
Qed.

Lemma effect_saved cancelled replies b s key saved :
  savedKey (resolveTenantId b) = Return key ->
  getItem key b = Some saved -> saved <> "" -> translated saved = true ->
  run replies (run_effect translated cancelled) b s = ([], (b, VStr saved, Return tt)).
Proof.
  intros Hk Hs Hne Ht.
  assert (valid_saved translated (getItem key b) = true) as Hv.
  { apply valid_saved_spec. eauto. }
  unfold run_effect. run_steps. rewrite Hk. run_steps. rewrite Hv. run_steps.
  by rewrite Hs.
Qed.

Lemma effect_no_tenant cancelled replies b s :
  truthy (resolveTenantId b) = false ->
  valid_saved translated (getItem "locale" b) = false ->
  run replies (run_effect translated cancelled) b s = ([], (b, s, Return tt)).
Proof.
  intros Hf Hv. unfold run_effect. run_steps. rewrite (savedKey_none _ Hf). run_steps.
  rewrite Hv, Hf. by run_steps.
Qed.

Lemma effect_fetch cancelled replies b s tenant :
  resolveTenantId b = VStr tenant -> tenant <> "" ->
  valid_saved translated (getItem ("locale:" +:+ tenant) b) = false ->
  exists b' s',
    run replies (run_effect translated cancelled) b s
      = ([Api.add_token b (Api.defaults GET ("/api/clients/" +:+ tenant) [] None)],
         (b', s', Return tt))
    /\ forall r l,
         Api.settle (hd silence replies) = Return r ->
         opt (opt (Api.data r) "settings") "locale" = VStr l ->
         l <> "" -> translated l = true ->
         b' = setItem "locale" l (setItem ("locale:" +:+ tenant) l b)
         /\ s' = if cancelled then s else VStr l.
Proof.
  intros Ht Hne Hv. unfold run_effect, clients_get, Api.get. run_steps.
  rewrite Ht, (savedKey_tenant _ Hne). run_steps. rewrite Hv.
  pose proof Hne as Htr. apply truthy_text in Htr. rewrite Htr. cbn [negb].
  run_steps. cbn [to_string]. run_steps.
  destruct (Api.settle _) as [r|e]; run_steps; [|do 2 eexists; by split].
  destruct (truthy (opt (opt (Api.data r) "settings") "locale")) eqn:Hloc; run_steps.
  2:{ do 2 eexists. split; [done|]. intros r' l [= <-] Hl Hlne _.
      rewrite Hl in Hloc. apply truthy_text in Hlne. congruence. }
  destruct (to_string _) as [name|e] eqn:Hname; run_steps.
  2:{ do 2 eexists. split; [done|]. intros r' l [= <-] Hl _ _. by rewrite Hl in Hname. }
  destruct (translated name) eqn:Hok; run_steps.
  2:{ do 2 eexists. split; [done|]. intros r' l [= <-] Hl _ Htl.
      rewrite Hl in Hname. injection Hname as <-. congruence. }
  destruct cancelled; run_steps; cbn [negb]; run_steps;
    (do 2 eexists; split; [done|]; intros r' l [= <-] Hl _ _;
     rewrite Hl in Hname; injection Hname as <-; by rewrite ?Hl).
Qed.

Lemma setLocale_run newLocale replies b s key :
  savedKey (resolveTenantId b) = Return key ->
  run replies (setLocale newLocale) b s
    = ([], (setItem "locale" newLocale (setItem key newLocale b), VStr newLocale, Return tt)).
Proof.
  intros Hk. unfold setLocale. run_steps. rewrite Hk. by run_steps.
Qed.
End Locale.

(** C7.  The provider keeps the locale per tenant.  The tenant is the one
    the pages resolve, or the stored ['active_tenant_id'] when no user can
    be read; the key read first is ['locale:' + tenant] when there is a
    tenant and ['locale'] when there is none.  A saved locale that the
    translation table knows is taken as it is and nothing is requested.
    Only without one, and with a tenant, the tenant's record is requested;
    a [settings.locale] the table knows is then written under both the
    tenant's key and ['locale'].  [setLocale] writes both keys as well. *)
Theorem locale_mirrored_per_tenant `{Builtins} (translated : string -> bool) :
  (forall b,
     I18n.resolveTenantId b
     = match Session.resolve_tenant b with
       | Some (Return tenantId) => tenantId
       | _ => Session.getItem_value "active_tenant_id" b
       end)
  /\ (forall tenant, tenant <> "" ->
        I18n.savedKey (VStr tenant) = Return ("locale:" +:+ tenant))
  /\ (forall tenantId, truthy tenantId = false -> I18n.savedKey tenantId = Return "locale")
  /\ (forall cancelled replies b s key saved,
        I18n.savedKey (I18n.resolveTenantId b) = Return key ->
        getItem key b = Some saved -> saved <> "" -> translated saved = true ->
        run replies (I18n.run_effect translated cancelled) b s
        = ([], (b, VStr saved, Return tt)))
  /\ (forall cancelled replies b s,
        truthy (I18n.resolveTenantId b) = false ->
        I18n.valid_saved translated (getItem "locale" b) = false ->
        run replies (I18n.run_effect translated cancelled) b s = ([], (b, s, Return tt)))
  /\ (forall cancelled replies b s tenant,
        I18n.resolveTenantId b = VStr tenant -> tenant <> "" ->
        I18n.valid_saved translated (getItem ("locale:" +:+ tenant) b) = false ->
        exists b' s',
          run replies (I18n.run_effect translated cancelled) b s
            = ([Api.add_token b (Api.defaults GET ("/api/clients/" +:+ tenant) [] None)],
               (b', s', Return tt))
          /\ forall r l,
               Api.settle (hd silence replies) = Return r ->
               opt (opt (Api.data r) "settings") "locale" = VStr l ->
               l <> "" -> translated l = true ->
               b' = setItem "locale" l (setItem ("locale:" +:+ tenant) l b)
               /\ s' = (if cancelled then s else VStr l))
  /\ (forall newLocale replies b s key,
        I18n.savedKey (I18n.resolveTenantId b) = Return key ->
        run replies (I18n.setLocale newLocale) b s
        = ([], (setItem "locale" newLocale (setItem key newLocale b),
                VStr newLocale, Return tt))).
Proof.
  split.
  { intros b. unfold I18n.resolveTenantId, Session.resolve_tenant.
    destruct (Session.stored_user b) as [[user|e]|]; [|done..].
    by destruct (_ ≫= _). }
  split; [apply savedKey_tenant|]. split; [apply savedKey_none|].
  split; [intros; by eapply effect_saved|].
  split; [intros; by apply effect_no_tenant|].
  split; [intros; by apply effect_fetch|].
  intros. by apply setLocale_run.
Qed.

(** Pacific Surf's user on a fresh browser; the tenant is set to Spanish on
    the server: both keys end up holding ["es"]. *)
Lemma server_locale_witness :
  let b := setItem "user" "{client}" Sample.fresh_browser in
  let reply := Sample.ok (VObj [("id", VStr "pacific-surf");
                                ("settings", VObj [("locale", VStr "es")])]) in
  exists b' s',
    run [reply] (I18n.run_effect (H := Sample.builtins) Sample.translated false) b I18n.initial
      = ([ {| method := GET; url := "/api/clients/pacific-surf"; params := [];
              headers := [("Content-Type", "application/json")]; body := None |} ],
         (b', s', Return tt))
    /\ getItem "locale:pacific-surf" b' = Some "es"
    /\ getItem "locale" b' = Some "es"
    /\ s' = VStr "es".
Proof.
  intros b reply.
  destruct (locale_mirrored_per_tenant (H := Sample.builtins) Sample.translated)
    as (_ & _ & _ & _ & _ & Hfetch & _).
  destruct (Hfetch false [reply] b I18n.initial "pacific-surf" eq_refl)
    as (b' & s' & Hrun & Hkeys); [discriminate|reflexivity|].
  destruct (Hkeys {| Api.status := 200;
                     Api.data := VObj [("id", VStr "pacific-surf");
                                       ("settings", VObj [("locale", VStr "es")])] |}
                  "es" eq_refl eq_refl) as [-> ->]; [discriminate|reflexivity|].
  exists (setItem "locale" "es" (setItem "locale:pacific-surf" "es" b)), (VStr "es").
  split; [exact Hrun|]. repeat split.
Defined.

(** * More of the code *)

(** * Further properties *)

(** ** The live portal: failures of [portalFetch] *)

Lemma in_2xx_inv st :
  Nat.leb 200 st && Nat.ltb st 300 = true -> 200 <= st < 300.
Proof.
  intros [H1 H2]%andb_prop. apply Nat.leb_le in H1. apply Nat.ltb_lt in H2. lia.
Qed.

(** X1.  [portalFetch] sends the one request it is asked for and hands back
    a value only when the status is in 200..299 and the body is JSON.  For
    any other status it throws an [Error] whose message is the body's
    [detail] when that is a non-empty string, and ["Erro " + status] when
    the body is not JSON or is an object without a [detail]; a body that is
    the JSON [null] makes the reading of [detail] itself fail.  When nothing
    comes back it throws the [TypeError] of [fetch]. *)
Theorem portalFetch_reports_failures {S} (u : string) (options : option Live.RequestInit)
  (b : browser) (s : S) (x : reply) (rest : list reply) :
  run (x :: rest) (Live.portalFetch u options) b s
    = ([Live.fetch_request u options], (b, s, Live.portal_result x))
  /\ (forall v, Live.portal_result x = Return v ->
        exists st, x = Answered st (Json v) /\ 200 <= st < 300)
  /\ (forall st c, x = Answered st c -> ~ (200 <= st < 300) ->
        (forall props d, c = Json (VObj props) ->
           lookup_prop "detail" props = VStr d -> d <> "" ->
           Live.portal_result x = Throw (Error d))
        /\ (forall props, c = Json (VObj props) ->
              truthy (lookup_prop "detail" props) = false ->
              Live.portal_result x = Throw (Error ("Erro " +:+ pretty st)))
        /\ (forall raw, c = Text raw ->
              Live.portal_result x = Throw (Error ("Erro " +:+ pretty st)))
        /\ (c = Json VNull ->
            Live.portal_result x
            = Throw (TypeError "Cannot read properties of null (reading 'detail')")))
  /\ (forall why, x = Unreachable why -> Live.portal_result x = Throw (TypeError why)).
Proof.
  split; [by rewrite run_portalFetch|]. split; [|split].
  - intros v Hv. destruct x as [st c|why]; [|done].
    unfold Live.portal_result in Hv.
    destruct (Nat.leb 200 st && Nat.ltb st 300) eqn:Hok.
    + destruct c as [w|raw]; [|done]. injection Hv as ->.
      exists st. split; [done|]. by apply in_2xx_inv.
    + destruct (get _ "detail") as [d|e]; [|done]. cbn in Hv.
      by destruct (to_string _).
  - intros st c -> Hout.
    assert (Nat.leb 200 st && Nat.ltb st 300 = false) as Hok.
    { destruct (Nat.leb 200 st && Nat.ltb st 300) eqn:Hok; [|done].
      by apply in_2xx_inv in Hok. }
    unfold Live.portal_result. rewrite Hok. split; [|split; [|split]].
    + intros props d -> Hd Hne. cbn. rewrite Hd.
      apply truthy_text in Hne. unfold or_else. by rewrite Hne.
    + intros props -> Hd. cbn. unfold or_else. by rewrite Hd.
    + by intros raw ->.
    + by intros ->.
  - by intros why ->.
Qed.

(** A portal link that has run out: the server answers 404 with its
    reason, which is what the visitor is shown. *)
Lemma portalFetch_expired_witness :
  Live.portal_result (Sample.refused 404 "Link expirado")
  = Throw (Error "Link expirado").
Proof.
  destruct (portalFetch_reports_failures (S := unit) "/api/live/tok-123" None
              Sample.fresh_browser tt (Sample.refused 404 "Link expirado") [])
    as (_ & _ & Hout & _).
  destruct (Hout 404 _ eq_refl) as (Hdetail & _); [lia|].
  exact (Hdetail _ "Link expirado" eq_refl eq_refl ltac:(discriminate)).
Defined.

(** ** The live portal: polling, follow-up, opening a conversation *)

(** X2.  A tick of the conversation view's poll never throws, never
    touches the browser, and sends at most one request, a GET of the
    conversation's endpoint.  Of the view's state it can change the
    conversation only: what is being typed, the error shown and the
    follow-up form stay as they are.  When the fetch fails, nothing changes
    at all. *)
Theorem portal_poll_is_silent (token : string) (b : browser)
  (s : Live.ViewState) (replies : list reply) :
  exists sent s',
    run replies (Live.refresh token) b s = (sent, (b, s', Return tt))
    /\ s' = Live.setConv (Live.conv s') s
    /\ (forall e, Live.conversation_endpoint token s = Throw e -> sent = [] /\ s' = s)
    /\ (forall u, Live.conversation_endpoint token s = Return u ->
          sent = [Live.fetch_request u None]
          /\ match Live.portal_result (hd silence replies) with
             | Return data => s' = Live.setConv data s
             | Throw _ => s' = s
             end).
Proof.
  unfold Live.refresh. run_steps.
  destruct (Live.conversation_endpoint token s) as [u|e] eqn:Hu; run_steps.
  - destruct (Live.portal_result _) as [data|e]; run_steps.
    + do 2 eexists. split; [reflexivity|]. split; [done|]. split; [done|].
      intros ? [= <-]. done.
    + do 2 eexists. split; [reflexivity|]. split; [by destruct s|]. split; [done|].
      intros ? [= <-]. done.
  - do 2 eexists. split; [reflexivity|]. split; [by destruct s|]. split; [done|]. done.
Qed.

(** The API goes down while a visitor is typing: the tick changes
    nothing. *)
Lemma portal_poll_witness :
  let s := Live.setReplyText "Bom d"
             (Live.opened {| Live.conversation := Sample.conversation_open;
                             Live.view_type := Some Live.portal;
                             Live.onBack := true |}) in
  run [] (Live.refresh "tok-123") Sample.fresh_browser s
  = ([Live.fetch_request "/api/live/tok-123/conversations/5511999990000" None],
     (Sample.fresh_browser, s, Return tt)).
Proof.
  intros s.
  destruct (portal_poll_is_silent "tok-123" Sample.fresh_browser s [])
    as (sent & s' & Hrun & _ & _ & Hsent).
  destruct (Hsent _ eq_refl) as [-> Hs]. cbn in Hs. rewrite Hs in Hrun. exact Hrun.
Defined.

(** X3.  Scheduling a follow-up is one PATCH to the conversation's
    [/followup] endpoint.  With a date its body is that date at stage 1,
    with the date left empty it is [null] at stage 0, which clears the
    follow-up.  When the server accepts it, the scheduler is closed and the
    date field emptied; when it does not, both stay as they are and the
    reason is shown as the send error. *)
Theorem followup_closes_only_on_success (token : string) (b : browser)
  (s : Live.ViewState) (u : string) (x : reply) (rest : list reply) :
  Live.conversation_endpoint token s = Return u ->
  let asked :=
    Live.fetch_request (u +:+ "/followup")
      (Some {| Live.init_method := Some PATCH; Live.init_headers := [];
               Live.init_body := Some (Live.followup_body (Live.followupDate s)) |}) in
  Live.followup_body ""
    = VObj [("next_followup_at", VNull); ("followup_stage", VNum "0")]
  /\ (forall date, date <> "" ->
        Live.followup_body date
        = VObj [("next_followup_at", VStr date); ("followup_stage", VNum "1")])
  /\ match Live.portal_result x with
     | Return _ =>
         run (x :: rest) (Live.handleFollowup token) b s
         = ([asked], (b, Live.setFollowupDate "" (Live.setShowFollowup false s), Return tt))
     | Throw e =>
         run (x :: rest) (Live.handleFollowup token) b s
         = ([asked], (b, Live.setSendError (Some (message e)) s, Return tt))
     end.
Proof.
  intros Hu asked. split; [done|]. split.
  { intros date Hne. unfold Live.followup_body.
    by destruct (String.eqb_spec date ""). }
  unfold Live.handleFollowup. run_steps. rewrite Hu. run_steps.
  destruct (Live.portal_result x); by run_steps.
Qed.

(** A follow-up for next Monday morning, accepted by the server. *)
Lemma followup_witness :
  let s := Live.setFollowupDate "2026-02-16T09:00"
             (Live.setShowFollowup true
                (Live.opened {| Live.conversation := Sample.conversation_open;
                                Live.view_type := Some Live.portal;
                                Live.onBack := true |})) in
  run [Sample.ok (VObj [("ok", VBool true)])]
      (Live.handleFollowup "tok-123") Sample.fresh_browser s
  = ([ {| method := PATCH;
          url := "/api/live/tok-123/conversations/5511999990000/followup";
          params := [];
          headers := [("Content-Type", "application/json")];
          body := Some (VObj [("next_followup_at", VStr "2026-02-16T09:00");
                              ("followup_stage", VNum "1")]) |} ],
     (Sample.fresh_browser,
      Live.setFollowupDate "" (Live.setShowFollowup false s), Return tt)).
Proof.
  intros s.
  destruct (followup_closes_only_on_success "tok-123"
              Sample.fresh_browser s "/api/live/tok-123/conversations/5511999990000"
              (Sample.ok (VObj [("ok", VBool true)])) [] eq_refl)
    as (_ & _ & Hrun).
  exact Hrun.
Defined.

Lemma pretty_nat_zero (n : nat) : pretty n = "0" -> n = 0.
Proof. intros Hn. by apply (inj (pretty : nat -> string)). Qed.

Lemma pretty_nat_nonzero (n : nat) : n <> 0 -> String.eqb (pretty n) "0" = false.
Proof.
  intros Hn. destruct (String.eqb_spec (pretty n) "0") as [Hz|]; [|done].
  by apply pretty_nat_zero in Hz.
Qed.

(** X4.  Opening a conversation from the portal's list asks for that
    conversation.  When it arrives the page shows it, with the way back to
    the list.  When it does not, the page keeps what it showed: the list,
    if it has rows, with nothing said about the failure; only with an empty
    list does the page turn into "Link Indisponivel" with the reason. *)
Theorem portal_open_conversation `{JsText.Strings} (token : string) (b : browser)
  (s : Live.PageState) (conv : value) (id : string) (rows : list value)
  (x : reply) (rest : list reply) :
  get conv "conversation_id" = Return (VStr id) ->
  Live.loading s = false ->
  Live.portalType s = Some Live.portal ->
  Live.conversations s = VArr rows ->
  Live.selectedConv s = VNull ->
  exists s',
    run (x :: rest) (Live.openConversation token conv) b s
      = ([Live.fetch_request (Live.detail_endpoint token id) None], (b, s', Return tt))
    /\ match Live.portal_result x with
       | Return data =>
           truthy data = true ->
           PortalPage.render s'
           = Return (Live.Detalhe {| Live.conversation := data;
                                     Live.view_type := Some Live.portal;
                                     Live.onBack := true |})
       | Throw e =>
           Live.error s' = Some (message e)
           /\ (rows <> [] ->
               PortalPage.render s = PortalPage.list_view s
               /\ PortalPage.render s' = PortalPage.render s
               /\ forall kept keyed,
                    PortalList.filtered s = Return kept ->
                    PortalPage.rows_of kept = Return keyed ->
                    PortalPage.render s'
                    = Return (Live.PortalDeConversas (VNum (pretty (length rows))) keyed))
           /\ (rows = [] -> message e <> "" ->
               PortalPage.render s' = Return (Live.LinkIndisponivel (message e)))
       end.
Proof.
  intros Hid Hl Hp Hc Hsel.
  unfold Live.openConversation. run_steps. rewrite Hid.
  cbn [mbind result_bind bind to_string]. run_steps.
  destruct (Live.portal_result x) as [data|e]; run_steps.
  - eexists. split; [reflexivity|]. intros Hd.
    unfold PortalPage.render, Live.unavailable. cbn. rewrite Hl, Hc, Hp, Hd. cbn.
    destruct (negb (String.eqb (default "" (Live.error s)) "")); [|done].
    cbn. by rewrite andb_false_r.
  - eexists. split; [reflexivity|]. split; [done|]. split.
    + intros Hne.
      assert (forall t, Live.conversations t = VArr rows -> Live.loading t = false ->
                        Live.selectedConv t = VNull ->
                        PortalPage.render t = PortalPage.list_view t) as Hlist.
      { intros t Hct Hlt Hselt. apply render_list; [done| |by rewrite Hselt].
        unfold Live.unavailable. rewrite Hct, Hselt.
        destruct (negb (String.eqb (default "" (Live.error t)) "")); [|done].
        cbn. destruct rows; [done|]. by rewrite pretty_nat_nonzero. }
      rewrite (Hlist s), (Hlist (Live.setError (Some (message e)) s)) by done.
      split; [done|]. split; [done|].
      intros kept keyed Hkept Hkeyed. unfold PortalPage.list_view.
      change (PortalList.filtered (Live.setError (Some (message e)) s))
        with (PortalList.filtered s).
      rewrite Hkept. cbn. rewrite Hc, Hkeyed. done.
    + intros -> Hne. unfold PortalPage.render, Live.unavailable. cbn.
      rewrite Hl, Hc, Hsel. cbn.
      destruct (String.eqb_spec (message e) ""); done.
Qed.

(** The list has one row; the visitor opens it while the API is down.  The
    list stays, and the failure is kept but not shown. *)
Lemma portal_open_witness :
  let s := Live.setLoading false
             (Live.setConversations (VArr [Sample.conversation_open])
                (Live.setPortalType Live.portal Live.initial)) in
  exists s',
    run [Unreachable "Failed to fetch"]
        (Live.openConversation "tok-123" Sample.conversation_open) Sample.fresh_browser s
      = ([Live.fetch_request "/api/live/tok-123/conversations/5511999990000" None],
         (Sample.fresh_browser, s', Return tt))
    /\ Live.error s' = Some "Failed to fetch"
    /\ PortalPage.render (H := Examples.strings) s'
       = Return (Live.PortalDeConversas (VNum "1")
                   [("pacific-surf-whatsapp-5511999990000", Sample.conversation_open)]).
Proof.
  intros s.
  destruct (portal_open_conversation (H := Examples.strings) "tok-123"
              Sample.fresh_browser s
              Sample.conversation_open "5511999990000" [Sample.conversation_open]
              (Unreachable "Failed to fetch") [] eq_refl eq_refl eq_refl eq_refl eq_refl)
    as (s' & Hrun & Herr & Hlist & _).
  exists s'. split; [exact Hrun|]. split; [exact Herr|].
  destruct Hlist as (_ & _ & Hshown); [discriminate|].
  exact (Hshown [Sample.conversation_open] _ eq_refl eq_refl).
Defined.

(** ** The search box and the status filter of the two lists *)

Lemma get_own v k w : get v k = Return w -> nullish v = false /\ w = own v k.
Proof. unfold get. destruct (nullish v); [done|]. by intros [= <-]. Qed.

Lemma strict_eq_text v s : strict_eq v (VStr s) = true -> v = VStr s.
Proof. destruct v; try done. cbn. by intros ->%String.eqb_eq. Qed.

Lemma prefix_nil_r q : String.prefix q "" = true -> q = "".
Proof. by destruct q. Qed.

Lemma contains_nil q : contains q "" = true -> q = "".
Proof. cbn. rewrite orb_false_r. apply prefix_nil_r. Qed.

Lemma filter_rows_sound keep rows kept :
  JsText.filter_rows keep rows = Return kept ->
  sublist kept rows /\ Forall (fun c => keep c = Return true) kept.
Proof.
  revert kept. induction rows as [|c rows IH]; intros kept; cbn.
  { intros [= <-]. split; constructor. }
  destruct (keep c) as [b|e] eqn:Hc; [|done]. cbn.
  destruct (JsText.filter_rows keep rows) as [kept'|e]; [|done]. cbn.
  intros [= <-]. destruct (IH kept' eq_refl) as [Hsub Hall].
  destruct b; split; try done; by constructor.
Qed.

Lemma filter_rows_ext keep keep' rows :
  Forall (fun c => keep c = keep' c) rows ->
  JsText.filter_rows keep rows = JsText.filter_rows keep' rows.
Proof.
  induction 1 as [|c rows Hc _ IH]; [done|]. cbn. by rewrite Hc, IH.
Qed.

Section Filters.
Context `{JsText.Strings}.

Lemma matches_inv v search :
  JsText.matches v search = Return true ->
  exists text, v = VStr text
    /\ contains (JsText.toLowerCase search) (JsText.toLowerCase text) = true.
Proof.
  unfold JsText.matches, JsText.lower. destruct v; try done. cbn.
  intros [= Hc]. eauto.
Qed.

Lemma matches_nothing search :
  search <> "" -> JsText.matches (VStr "") search = Return false.
Proof.
  intros Hne. unfold JsText.matches. cbn.
  destruct (contains _ _) eqn:Hc; [|done].
  assert (JsText.toLowerCase "" = "") as Hnil.
  { by apply (proj2 (JsText.toLowerCase_empty "")). }
  rewrite Hnil in Hc. apply contains_nil in Hc.
  by apply (proj1 (JsText.toLowerCase_empty search)) in Hc.
Qed.

Lemma matches_field_inv c k search :
  search <> "" ->
  JsText.matches (or_else (own c k) (VStr "")) search = Return true ->
  exists text, own c k = VStr text
    /\ contains (JsText.toLowerCase search) (JsText.toLowerCase text) = true.
Proof.
  intros Hne Hm. unfold or_else in Hm. destruct (truthy (own c k)) eqn:Ht.
  - by apply matches_inv.
  - by rewrite matches_nothing in Hm.
Qed.

Lemma portal_matchSearch_inv search c :
  search <> "" ->
  PortalList.matchSearch search c = Return true ->
  exists k text,
    k ∈ ["contact_name"; "conversation_id"; "last_text"]
    /\ own c k = VStr text
    /\ contains (JsText.toLowerCase search) (JsText.toLowerCase text) = true.
Proof.
  intros Hne. unfold PortalList.matchSearch.
  destruct (String.eqb_spec search ""); [done|].
  destruct (get c "contact_name") as [name|] eqn:Hname; [|done].
  apply get_own in Hname as [Hc ->]. cbn.
  destruct (JsText.matches (or_else (own c "contact_name") _) search) as [[]|] eqn:H1; cbn;
    [|rewrite !(get_not_nullish c) by done; cbn|done].
  { intros _. apply matches_field_inv in H1 as (text & ? & ?); [|done].
    exists "contact_name", text. split; [set_solver|done]. }
  destruct (JsText.matches (own c "conversation_id") search) as [[]|] eqn:H2; cbn;
    [| |done].
  { intros _. apply matches_inv in H2 as (text & ? & ?).
    exists "conversation_id", text. split; [set_solver|done]. }
  intros H3. apply matches_field_inv in H3 as (text & ? & ?); [|done].
  exists "last_text", text. split; [set_solver|done].
Qed.

Lemma matchStatus_inv statusFilter c :
  statusFilter <> "all" ->
  PortalList.matchStatus statusFilter c = Return true ->
  own c "status" = VStr statusFilter.
Proof.
  intros Hne. unfold PortalList.matchStatus.
  destruct (String.eqb_spec statusFilter "all"); [done|].
  destruct (get c "status") as [st|] eqn:Hst; [|done].
  apply get_own in Hst as [_ ->]. cbn. intros [= Heq]. by apply strict_eq_text.
Qed.

Lemma portal_keep_inv search statusFilter c :
  PortalList.keep search statusFilter c = Return true ->
  PortalList.matchSearch search c = Return true
  /\ PortalList.matchStatus statusFilter c = Return true.
Proof.
  unfold PortalList.keep.
  destruct (PortalList.matchSearch search c) as [[]|]; cbn; [|by destruct (PortalList.matchStatus _ _)|done].
  by destruct (PortalList.matchStatus statusFilter c) as [[]|].
Qed.

Lemma last_text_agrees search c :
  match opt c "last_text" with VStr _ | VNull | VUndef => True | _ => False end ->
  DashList.matchSearch search c = PortalList.matchSearch search c.
Proof.
  intros Hlast. unfold DashList.matchSearch, PortalList.matchSearch.
  destruct (String.eqb_spec search "") as [|Hne]; [done|].
  destruct (get c "contact_name") as [name|] eqn:Hname; [|done].
  apply get_own in Hname as [Hc ->]. cbn.
  destruct (JsText.matches (or_else (own c "contact_name") _) search) as [[]|]; cbn; [done| |done].
  rewrite !(get_not_nullish c) by done. cbn.
  destruct (JsText.matches (own c "conversation_id") search) as [[]|]; cbn; [done| |done].
  rewrite opt_own in Hlast by done.
  destruct (own c "last_text") as [| | | |text| |]; try done;
    unfold or_else; cbn [nullish truthy].
  - by rewrite matches_nothing.
  - by rewrite matches_nothing.
  - by destruct (String.eqb_spec text "") as [->|].
Qed.

End Filters.

(** X5.  The portal's list keeps, of the conversations it holds and in
    their order, those that pass the search box and the status filter.  With
    the box empty and the filter on "all" every conversation is kept,
    whatever it looks like.  With a status chosen, every row kept has
    exactly that status.  With something typed, every row kept has a contact
    name, a conversation id or a last text that contains it, case
    apart. *)
Theorem portal_filter_keeps_matching_rows `{JsText.Strings} (s : Live.PageState)
  (rows : list value) :
  Live.conversations s = VArr rows ->
  (Live.search s = "" -> Live.statusFilter s = "all" ->
     PortalList.filtered s = Return rows)
  /\ (forall kept,
        PortalList.filtered s = Return kept ->
        sublist kept rows
        /\ (Live.statusFilter s <> "all" ->
            Forall (fun c => own c "status" = VStr (Live.statusFilter s)) kept)
        /\ (Live.search s <> "" ->
            Forall (fun c =>
                      exists k text,
                        k ∈ ["contact_name"; "conversation_id"; "last_text"]
                        /\ own c k = VStr text
                        /\ contains (JsText.toLowerCase (Live.search s))
                                    (JsText.toLowerCase text) = true) kept)).
Proof.
  intros Hrows. unfold PortalList.filtered. rewrite Hrows. cbn [JsText.filter_of]. split.
  - intros -> ->. by apply filter_rows_all.
  - intros kept Hk. apply filter_rows_sound in Hk as [Hsub Hall].
    split; [done|]. split.
    + intros Hne. eapply Forall_impl; [exact Hall|]. intros c Hc.
      apply portal_keep_inv in Hc as [_ Hst]. by apply matchStatus_inv.
    + intros Hne. eapply Forall_impl; [exact Hall|]. intros c Hc.
      apply portal_keep_inv in Hc as [Hs _]. by apply portal_matchSearch_inv.
Qed.

(** Two conversations, one open and one handed off; the visitor picks
    "Humano". *)
Lemma portal_filter_witness :
  let s := {| Live.portalType := Some Live.portal;
              Live.conversations :=
                VArr [Sample.conversation_open; Examples.conversation_other];
              Live.selectedConv := VNull; Live.loading := false; Live.error := None;
              Live.search := ""; Live.statusFilter := "handoff" |} in
  PortalList.filtered (H := Examples.strings) s = Return [Examples.conversation_other]
  /\ Forall (fun c => own c "status" = VStr "handoff") [Examples.conversation_other].
Proof.
  intros s. split; [reflexivity|].
  destruct (portal_filter_keeps_matching_rows (H := Examples.strings) s _ eq_refl)
    as [_ Hkept].
  destruct (Hkept _ eq_refl) as (_ & Hstatus & _).
  apply Hstatus. discriminate.
Defined.

(** X6.  The dashboard's conversation list and the portal's list are
    filtered by the same rule: on the same conversations, search text and
    status filter they keep the same rows, or fail alike, as long as every
    [last_text] is a string or missing. *)
Theorem dashboard_and_portal_filters_agree `{JsText.Strings} (p : Live.PageState)
  (d : ConversationList.State) (rows : list value) :
  Live.conversations p = VArr rows ->
  ConversationList.conversations d = VArr rows ->
  ConversationList.search d = Live.search p ->
  ConversationList.statusFilter d = Live.statusFilter p ->
  Forall (fun c => match opt c "last_text" with
                   | VStr _ | VNull | VUndef => True
                   | _ => False
                   end) rows ->
  DashList.filtered d = PortalList.filtered p.
Proof.
  intros Hp Hd Hs Hf Hrows. unfold DashList.filtered, PortalList.filtered.
  rewrite Hp, Hd, Hs, Hf. cbn [JsText.filter_of]. apply filter_rows_ext.
  eapply Forall_impl; [exact Hrows|]. intros c Hc. cbn in Hc.
  unfold DashList.keep, PortalList.keep. by rewrite last_text_agrees.
Qed.

(** The same two conversations in both lists, searched for "AULA". *)
Lemma filters_agree_witness :
  let rows := [Sample.conversation_open; Examples.conversation_other] in
  let p := {| Live.portalType := Some Live.portal; Live.conversations := VArr rows;
              Live.selectedConv := VNull; Live.loading := false; Live.error := None;
              Live.search := "AULA"; Live.statusFilter := "all" |} in
  let d := {| ConversationList.conversations := VArr rows;
              ConversationList.loading := false; ConversationList.error := None;
              ConversationList.search := "AULA";
              ConversationList.statusFilter := "all" |} in
  DashList.filtered (H := Examples.strings) d = PortalList.filtered (H := Examples.strings) p
  /\ PortalList.filtered (H := Examples.strings) p = Return [Examples.conversation_other].
Proof.
  intros rows p d. split; [|reflexivity].
  apply (dashboard_and_portal_filters_agree (H := Examples.strings) p d rows);
    [reflexivity..|].
  repeat constructor.
Defined.

(** ** The name shown for a conversation *)

Lemma skip_spec k s :
  exists front, s = front +:+ JsText.skip k s
    /\ String.length (JsText.skip k s) = String.length s - k.
Proof.
  revert s. induction k as [|k IH]; intros s.
  { exists "". split; [done|]. cbn. lia. }
  destruct s as [|c s]; cbn [JsText.skip].
  { exists "". by split. }
  destruct (IH s) as (front & Hs & Hlen).
  exists (String c front). split; [|done].
  change (String c s = String c (front +:+ JsText.skip k s)). by rewrite <- Hs.
Qed.

Lemma last_chars_spec n s :
  exists front, s = front +:+ JsText.last_chars n s
    /\ String.length (JsText.last_chars n s) = min n (String.length s).
Proof.
  unfold JsText.last_chars.
  destruct (skip_spec (String.length s - n) s) as (front & Hs & Hlen).
  exists front. split; [done|]. lia.
Qed.

(** X7.  The name shown for a conversation, in the staff viewer and in
    the portal alike, is the contact's name when there is one.  Without a
    name it is ["Contato #"] followed by what [slice(-6)] gives of the
    conversation id; for an id in ASCII that is its last six characters,
    or all of it when it has fewer.  Without an id either, it is
    ["Contato #"] alone. *)
Theorem displayName_is_name_or_id_tail `{JsText.Strings} (conv : value) :
  nullish conv = false ->
  (truthy (own conv "contact_name") = true ->
     JsText.displayName conv = Return (own conv "contact_name"))
  /\ (truthy (own conv "contact_name") = false ->
      (forall id, own conv "conversation_id" = VStr id ->
         JsText.displayName conv
         = Return (VStr ("Contato #" +:+ JsText.slice_end 6 id))
         /\ (JsText.ascii_only id = true ->
             exists front tail,
               JsText.displayName conv = Return (VStr ("Contato #" +:+ tail))
               /\ id = front +:+ tail
               /\ String.length tail = min 6 (String.length id)))
      /\ (truthy (own conv "conversation_id") = false ->
          JsText.displayName conv = Return (VStr "Contato #"))).
Proof.
  intros Hc. unfold JsText.displayName. rewrite !(get_not_nullish conv) by done.
  cbn [mbind result_bind bind]. split.
  { by intros ->. }
  intros ->.
  assert (JsText.slice_end 6 "" = "") as Hempty.
  { by rewrite JsText.slice_end_ascii. }
  split.
  - intros id Hid. rewrite Hid.
    assert (JsText.slice_last 6 (or_else (VStr id) (VStr ""))
            = Return (VStr (JsText.slice_end 6 id))) as ->.
    { unfold or_else. destruct (truthy (VStr id)) eqn:Ht; [done|].
      cbn in Ht. by apply negb_false_iff, String.eqb_eq in Ht as ->. }
    cbn [mbind result_bind bind to_string]. split; [done|].
    intros Hascii. rewrite JsText.slice_end_ascii by done.
    destruct (last_chars_spec 6 id) as (front & Hfront & Hlen).
    by exists front, (JsText.last_chars 6 id).
  - intros Hid. unfold or_else. rewrite Hid. cbn. by rewrite Hempty.
Qed.

(** A WhatsApp contact without a name: the end of the number stands in.
    An id of four accented letters is four characters, and is kept whole. *)
Lemma displayName_witness :
  let conv := VObj [("conversation_id", VStr "5511999990000"); ("contact_name", VNull)] in
  let other := VObj [("conversation_id", VStr "éééé")] in
  JsText.displayName (H := Examples.strings) conv = Return (VStr "Contato #990000")
  /\ (exists front tail,
        JsText.displayName (H := Examples.strings) conv
        = Return (VStr ("Contato #" +:+ tail))
        /\ "5511999990000" = front +:+ tail
        /\ String.length tail = 6)
  /\ JsText.displayName (H := Examples.strings) other = Return (VStr "Contato #éééé").
Proof.
  intros conv other. split; [reflexivity|].
  destruct (displayName_is_name_or_id_tail (H := Examples.strings) conv eq_refl)
    as [_ Hid].
  destruct (Hid eq_refl) as [Htail _].
  split; [exact (proj2 (Htail "5511999990000" eq_refl) eq_refl)|].
  destruct (displayName_is_name_or_id_tail (H := Examples.strings) other eq_refl)
    as [_ Hother].
  destruct (Hother eq_refl) as [Hkept _].
  exact (proj1 (Hkept "éééé" eq_refl)).
Defined.

(** ** The staff viewer: who a message is from *)

(** X8.  In the staff viewer the icon and the label of a message are worked
    out by two functions that test the message type in different orders;
    they never disagree.  The wrench goes with "Tool Call", the warning sign
    with "Sistema", the hand with the agent who took over (or "Atendente"),
    the person with the contact's name and the robot with "Assistente". *)
Theorem message_icon_and_label_agree (takeoverAgent displayName : value)
  (msg : Viewer.Message) :
  StaffViewer.getMessageLabel takeoverAgent displayName msg
  = match StaffViewer.getMessageIcon (Viewer.direction msg) (Viewer.message_type msg) with
    | StaffViewer.Wrench => VStr "Tool Call"
    | StaffViewer.AlertTriangle => VStr "Sistema"
    | StaffViewer.HandMetal => or_else takeoverAgent (VStr "Atendente")
    | StaffViewer.User => displayName
    | StaffViewer.Bot => VStr "Assistente"
    end.
Proof.
  unfold StaffViewer.getMessageLabel, StaffViewer.getMessageIcon.
  destruct (String.eqb (Viewer.message_type msg) "tool_call"
            || String.eqb (Viewer.message_type msg) "tool_result"); [done|].
  destruct (String.eqb_spec (Viewer.message_type msg) "human_reply") as [->|]; [done|].
  destruct (String.eqb (Viewer.message_type msg) "status_change"); [done|].
  by destruct (String.eqb (Viewer.direction msg) "in").
Qed.

(** ** The staff viewer: the public link *)

(** X9.  Sharing a conversation is one POST to [/api/live/create-link]
    with the project and conversation of the route.  When the server
    answers with a token, the link shown is the dashboard's origin followed
    by [/live/] and that token, and the dialog opens.  The token is not
    looked at: whatever the body holds under [token] is put into the link
    as text, so a body without one (an empty object, an empty text) opens
    the dialog on a link that ends in [/live/undefined].  When the request
    fails, when the body is [null], or when the token cannot be turned
    into text, the dialog stays as it was, no link is set, and "Erro ao
    gerar link público" is shown. *)
Theorem share_link_is_origin_live_token (project_id conversation_id origin : string)
  (b : browser) (s : ConversationViewerPage.State) (x : reply) (rest : list reply) :
  let go := StaffViewer.handleShare project_id conversation_id origin in
  let asked :=
    Api.add_token b
      (Api.defaults POST "/api/live/create-link" []
         (Some (VObj [("project_id", VStr project_id);
                      ("conversation_id", VStr conversation_id)]))) in
  let failed := ConversationViewerPage.setSendError (Some StaffViewer.share_failed) s in
  let shared text :=
    StaffViewer.setShareModal true
      (StaffViewer.setShareLink (origin +:+ "/live/" +:+ text) s) in
  (forall r token,
     Api.settle x = Return r -> get (Api.data r) "token" = Return (VStr token) ->
     run (x :: rest) go b s = ([asked], (b, shared token, Return tt)))
  /\ (forall e, Api.settle x = Throw e ->
        exists b', run (x :: rest) go b s = ([asked], (b', failed, Return tt)))
  /\ (forall r, Api.settle x = Return r -> nullish (Api.data r) = true ->
        run (x :: rest) go b s = ([asked], (b, failed, Return tt)))
  /\ ConversationViewerPage.shareModal failed = ConversationViewerPage.shareModal s
  /\ ConversationViewerPage.shareLink failed = ConversationViewerPage.shareLink s
  /\ ConversationViewerPage.sendError failed = Some "Erro ao gerar link público"
  /\ (forall r,
        Api.settle x = Return r -> nullish (Api.data r) = false ->
        match to_string (own (Api.data r) "token") with
        | Return text => run (x :: rest) go b s = ([asked], (b, shared text, Return tt))
        | Throw _ => run (x :: rest) go b s = ([asked], (b, failed, Return tt))
        end)
  /\ (forall r,
        Api.settle x = Return r -> nullish (Api.data r) = false ->
        own (Api.data r) "token" = VUndef ->
        run (x :: rest) go b s = ([asked], (b, shared "undefined", Return tt)))
  /\ (forall text,
        ConversationViewerPage.shareLink (shared text) = origin +:+ "/live/" +:+ text
        /\ ConversationViewerPage.shareModal (shared text) = true
        /\ ConversationViewerPage.sendError (shared text)
           = ConversationViewerPage.sendError s).
Proof.
  intros go asked failed shared. subst go.
  unfold StaffViewer.handleShare, Api.post.
  split; [|split; [|split; [|split; [|split; [|split; [|split; [|split]]]]]]]; try done.
  - intros r token Hx Htok. run_steps. rewrite Hx. run_steps. rewrite Htok.
    run_steps. cbn [to_string]. by run_steps.
  - intros e Hx. run_steps. rewrite Hx. run_steps. by eexists.
  - intros r Hx Hnull. run_steps. rewrite Hx. run_steps.
    unfold get. rewrite Hnull. by run_steps.
  - intros r Hx Hnull. run_steps. rewrite Hx. run_steps.
    rewrite get_not_nullish by done. run_steps.
    destruct (to_string _) as [text|e]; by run_steps.
  - intros r Hx Hnull Htok. run_steps. rewrite Hx. run_steps.
    rewrite get_not_nullish by done. run_steps. rewrite Htok. cbn [to_string].
    by run_steps.
Qed.

(** The link for Ana's conversation; and what the dialog shows when the
    server answers 200 with an empty object. *)
Lemma share_link_witness :
  let asked :=
    {| method := POST; url := "/api/live/create-link"; params := [];
       headers := [("Content-Type", "application/json")];
       body := Some (VObj [("project_id", VStr "pacific-surf");
                           ("conversation_id", VStr "5511999990000")]) |} in
  let go :=
    StaffViewer.handleShare "pacific-surf" "5511999990000" "https://app.superbot.digital" in
  (exists s',
     run [Sample.ok (VObj [("token", VStr "tok-123")])] go
         Sample.fresh_browser ConversationViewerPage.initial
     = ([asked], (Sample.fresh_browser, s', Return tt))
     /\ ConversationViewerPage.shareLink s' = "https://app.superbot.digital/live/tok-123"
     /\ ConversationViewerPage.shareModal s' = true
     /\ ConversationViewerPage.sendError s' = None)
  /\ (exists s',
        run [Sample.ok (VObj [])] go Sample.fresh_browser ConversationViewerPage.initial
        = ([asked], (Sample.fresh_browser, s', Return tt))
        /\ ConversationViewerPage.shareLink s'
           = "https://app.superbot.digital/live/undefined"
        /\ ConversationViewerPage.shareModal s' = true
        /\ ConversationViewerPage.sendError s' = None).
Proof.
  intros asked go. split.
  - destruct (share_link_is_origin_live_token "pacific-surf" "5511999990000"
                "https://app.superbot.digital" Sample.fresh_browser
                ConversationViewerPage.initial
                (Sample.ok (VObj [("token", VStr "tok-123")])) []) as (Hok & _).
    eexists. split; [exact (Hok _ "tok-123" eq_refl eq_refl)|].
    split; [reflexivity|]. split; reflexivity.
  - destruct (share_link_is_origin_live_token "pacific-surf" "5511999990000"
                "https://app.superbot.digital" Sample.fresh_browser
                ConversationViewerPage.initial
                (Sample.ok (VObj [])) []) as (_ & _ & _ & _ & _ & _ & _ & Hnone & _).
    eexists. split; [exact (Hnone _ eq_refl eq_refl eq_refl)|].
    split; [reflexivity|]. split; reflexivity.
Defined.

(** ** The conversation hook *)

Section Hook.
Variables projectId conversationId : string.
Import UseConversation.

Let refetch (b : browser) : request :=
  Api.add_token b (Api.defaults GET (endpoint projectId conversationId) [] None).

Lemma fetchConversation_failed replies b h e :
  Api.settle (hd silence replies) = Throw e ->
  run replies (fetchConversation projectId conversationId) b h
  = ([refetch b],
     (if Api.is_unauthorized e then navigate "/login" (removeItem "token" b) else b,
      setLoading false
        (setError (or_else (Api.detail e) (VStr "Erro ao carregar conversa")) h),
      Return tt)).
Proof.
  intros He. unfold fetchConversation, Api.get. run_steps. rewrite He. by run_steps.
Qed.

Lemma fetchConversation_loaded replies b h r items :
  Api.settle (hd silence replies) = Return r ->
  get (Api.data r) "messages" = Return (VArr items) ->
  run replies (fetchConversation projectId conversationId) b h
  = ([refetch b],
     (b,
      setLoading false
        (setError VNull
           ((if Nat.ltb (lastMessageCount h) (length items)
             then setLastMessageCount (length items) else id)
              (setMessages (VArr items) (setConversation (Api.data r) h)))),
      Return tt)).
Proof.
  intros Hr Hm. unfold fetchConversation, Api.get. run_steps. rewrite Hr. run_steps.
  rewrite Hm. run_steps. cbn [get nullish own String.eqb Ascii.eqb Bool.eqb]. run_steps.
  cbn [count_of setMessages or_else truthy messages lastMessageCount setConversation].
  destruct (Nat.ltb _ _); by run_steps.
Qed.

Lemma fetchConversation_no_messages replies b h r :
  Api.settle (hd silence replies) = Return r ->
  nullish (Api.data r) = false ->
  nullish (own (Api.data r) "messages") = true ->
  run replies (fetchConversation projectId conversationId) b h
  = ([refetch b],
     (b,
      setLoading false
        (setError (VStr "Erro ao carregar conversa")
           (setMessages (VArr []) (setConversation (Api.data r) h))),
      Return tt)).
Proof.
  intros Hr Hd Hm. unfold fetchConversation, Api.get. run_steps. rewrite Hr. run_steps.
  rewrite (get_not_nullish (Api.data r)) by done. run_steps.
  destruct (own (Api.data r) "messages"); try done; by run_steps.
Qed.

Lemma fetchConversation_no_body replies b h r :
  Api.settle (hd silence replies) = Return r ->
  nullish (Api.data r) = true ->
  run replies (fetchConversation projectId conversationId) b h
  = ([refetch b],
     (b,
      setLoading false
        (setError (VStr "Erro ao carregar conversa") (setConversation (Api.data r) h)),
      Return tt)).
Proof.
  intros Hr Hd. unfold fetchConversation, Api.get. run_steps. rewrite Hr. run_steps.
  unfold get. rewrite Hd. by run_steps.
Qed.

Lemma fetchConversation_state replies b h :
  exists b' h',
    run replies (fetchConversation projectId conversationId) b h
      = ([refetch b], (b', h', Return tt))
    /\ loading h' = false
    /\ isPolling h' = isPolling h
    /\ sending h' = sending h
    /\ lastMessageCount h <= lastMessageCount h'.
Proof.
  unfold fetchConversation, Api.get. run_steps.
  destruct (Api.settle _) as [r|e]; run_steps;
    [|do 2 eexists; split; [reflexivity|]; cbn; repeat split; lia].
  destruct (get (Api.data r) "messages") as [msgs|e']; run_steps;
    [|do 2 eexists; split; [reflexivity|]; cbn; repeat split; lia].
  destruct (get msgs "length") as [n|e'']; run_steps;
    [|do 2 eexists; split; [reflexivity|]; cbn; repeat split; lia].
  destruct (count_of msgs) as [k|];
    [destruct (Nat.ltb_spec (lastMessageCount
        (setMessages (or_else msgs (VArr [])) (setConversation (Api.data r) h))) k)|];
    run_steps; do 2 eexists; (split; [reflexivity|]); cbn in *; repeat split; lia.
Qed.

End Hook.

(** X10.  A fetch of the hook always comes to an end: it sends its one
    GET, never throws, and leaves [loading] off.  It does not touch the
    polling and sending flags, and the count of messages it remembers never
    goes down.  When the request fails, the conversation and the messages
    on screen are kept and the error is the server's [detail], or "Erro ao
    carregar conversa".  When it brings a list of messages, conversation
    and messages are replaced, the error is cleared, and the count is the
    larger of the old count and the new length. *)
Theorem fetchConversation_always_settles (projectId conversationId : string)
  (replies : list reply) (b : browser) (h : UseConversation.State) :
  exists b' h',
    run replies (UseConversation.fetchConversation projectId conversationId) b h
      = ([Api.add_token b
            (Api.defaults GET (UseConversation.endpoint projectId conversationId) [] None)],
         (b', h', Return tt))
    /\ UseConversation.loading h' = false
    /\ UseConversation.isPolling h' = UseConversation.isPolling h
    /\ UseConversation.sending h' = UseConversation.sending h
    /\ UseConversation.lastMessageCount h <= UseConversation.lastMessageCount h'
    /\ (forall e, Api.settle (hd silence replies) = Throw e ->
          UseConversation.conversation h' = UseConversation.conversation h
          /\ UseConversation.messages h' = UseConversation.messages h
          /\ UseConversation.lastMessageCount h' = UseConversation.lastMessageCount h
          /\ UseConversation.error h'
             = or_else (Api.detail e) (VStr "Erro ao carregar conversa"))
    /\ (forall r items,
          Api.settle (hd silence replies) = Return r ->
          get (Api.data r) "messages" = Return (VArr items) ->
          b' = b
          /\ UseConversation.conversation h' = Api.data r
          /\ UseConversation.messages h' = VArr items
          /\ UseConversation.error h' = VNull
          /\ UseConversation.lastMessageCount h'
             = max (UseConversation.lastMessageCount h) (length items)).
Proof.
  destruct (fetchConversation_state projectId conversationId replies b h)
    as (b' & h' & Hrun & Hl & Hp & Hs & Hc).
  exists b', h'. split; [done|]. split; [done|]. split; [done|]. split; [done|].
  split; [done|]. split.
  - intros e He. rewrite (fetchConversation_failed _ _ _ _ _ e He) in Hrun.
    by injection Hrun as <- <-.
  - intros r items Hr Hm.
    rewrite (fetchConversation_loaded _ _ _ _ _ r items Hr Hm) in Hrun.
    injection Hrun as <- <-. clear Hl Hp Hs Hc.
    destruct (Nat.ltb_spec (UseConversation.lastMessageCount h) (length items));
      cbn; repeat split; lia.
Qed.

(** The viewer had three messages and the API is down for a tick: they
    stay, with the error beside them. *)
Lemma fetchConversation_witness :
  let h := UseConversation.setLastMessageCount 3
             (UseConversation.setMessages (VArr [VNull; VNull; VNull])
                (UseConversation.setConversation Sample.conversation_open
                   UseConversation.initial)) in
  exists b' h',
    run [] (UseConversation.fetchConversation "pacific-surf" "5511999990000")
        Sample.fresh_browser h
      = ([Api.add_token Sample.fresh_browser
            (Api.defaults GET "/api/conversations/pacific-surf/5511999990000" [] None)],
         (b', h', Return tt))
    /\ UseConversation.conversation h' = Sample.conversation_open
    /\ UseConversation.lastMessageCount h' = 3
    /\ UseConversation.error h' = VStr "Erro ao carregar conversa".
Proof.
  intros h.
  destruct (fetchConversation_always_settles "pacific-surf" "5511999990000" []
              Sample.fresh_browser h)
    as (b' & h' & Hrun & _ & _ & _ & _ & Hfail & _).
  destruct (Hfail _ eq_refl) as (Hc & _ & Hn & He).
  exists b', h'. split; [exact Hrun|]. split; [exact Hc|]. split; [exact Hn|exact He].
Defined.

(** X11.  An answer that is fine by its status but has no list of messages
    is half taken in: the conversation on screen is replaced by what came,
    and the error "Erro ao carregar conversa" is set all the same.  With an
    object for a body the messages become the empty list; with an empty
    body ([null]) the conversation becomes [null], and the staff viewer
    then says the conversation was not found. *)
Theorem fetchConversation_without_messages `{Builtins} (projectId conversationId : string)
  (replies : list reply) (b : browser) (h : UseConversation.State) (r : Api.response) :
  Api.settle (hd silence replies) = Return r ->
  let asked :=
    Api.add_token b
      (Api.defaults GET (UseConversation.endpoint projectId conversationId) [] None) in
  let go := UseConversation.fetchConversation projectId conversationId in
  (nullish (Api.data r) = false -> nullish (own (Api.data r) "messages") = true ->
   exists h',
     run replies go b h = ([asked], (b, h', Return tt))
     /\ UseConversation.conversation h' = Api.data r
     /\ UseConversation.messages h' = VArr []
     /\ UseConversation.error h' = VStr "Erro ao carregar conversa")
  /\ (nullish (Api.data r) = true ->
      exists h',
        run replies go b h = ([asked], (b, h', Return tt))
        /\ UseConversation.conversation h' = Api.data r
        /\ UseConversation.messages h' = UseConversation.messages h
        /\ UseConversation.error h' = VStr "Erro ao carregar conversa"
        /\ forall s,
             ConversationViewerPage.render (ConversationViewerPage.setHook h' s)
             = ConversationViewerPage.NaoEncontrada).
Proof.
  intros Hr asked go. split.
  - intros Hd Hm. eexists. split; [by apply fetchConversation_no_messages|]. done.
  - intros Hd. eexists. split; [by apply fetchConversation_no_body|].
    repeat split. intros s. unfold ConversationViewerPage.render. cbn.
    by destruct (Api.data r).
Qed.

(** The conversation was on screen; one poll is answered [200] with
    [null]. *)
Lemma fetchConversation_empty_body_witness :
  let h := UseConversation.setLoading false
             (UseConversation.setConversation Sample.conversation_open
                UseConversation.initial) in
  exists h',
    run [Sample.ok VNull]
        (UseConversation.fetchConversation "pacific-surf" "5511999990000")
        Sample.fresh_browser h
      = ([Api.add_token Sample.fresh_browser
            (Api.defaults GET "/api/conversations/pacific-surf/5511999990000" [] None)],
         (Sample.fresh_browser, h', Return tt))
    /\ UseConversation.conversation h' = VNull
    /\ ConversationViewerPage.render (H := Sample.builtins)
         (ConversationViewerPage.setHook h' ConversationViewerPage.initial)
       = ConversationViewerPage.NaoEncontrada.
Proof.
  intros h.
  destruct (fetchConversation_without_messages (H := Sample.builtins)
              "pacific-surf" "5511999990000" [Sample.ok VNull] Sample.fresh_browser h
              {| Api.status := 200; Api.data := VNull |} eq_refl) as [_ Hnull].
  destruct (Hnull eq_refl) as (h' & Hrun & Hc & _ & _ & Hview).
  exists h'. split; [exact Hrun|]. split; [exact Hc|]. apply Hview.
Defined.

Section Mutations.
Variables projectId conversationId : string.
Import UseConversation.

Let after (e : exn) (b : browser) : browser :=
  if Api.is_unauthorized e then navigate "/login" (removeItem "token" b) else b.

Lemma rethrow_text {A} fallback e text replies b h :
  to_string (or_else (Api.detail e) (VStr fallback)) = Return text ->
  run replies (rethrow (A := A) fallback e) b h = ([], (b, h, Throw (Error text))).
Proof. intros Ht. unfold rethrow. run_steps. rewrite Ht. by run_steps. Qed.

Lemma sendMessage_failed text x rest b h e shown :
  Api.settle x = Throw e ->
  to_string (or_else (Api.detail e) (VStr "Erro ao enviar mensagem")) = Return shown ->
  run (x :: rest) (sendMessage projectId conversationId text) b h
  = ([Api.add_token b
        (Api.defaults POST (endpoint projectId conversationId +:+ "/send") []
           (Some (VObj [("text", VStr text)])))],
     (after e b, setSending false (setSending true h), Throw (Error shown))).
Proof.
  intros He Ht. unfold sendMessage, Api.post. run_steps. rewrite He. run_steps.
  rewrite (rethrow_text _ _ shown) by done. by run_steps.
Qed.

Lemma sendMessage_sent text x rest b h r :
  Api.settle x = Return r ->
  exists b' h',
    run (x :: rest) (sendMessage projectId conversationId text) b h
    = ([Api.add_token b
          (Api.defaults POST (endpoint projectId conversationId +:+ "/send") []
             (Some (VObj [("text", VStr text)])));
        Api.add_token b
          (Api.defaults GET (endpoint projectId conversationId) [] None)],
       (b', h', Return (Api.data r)))
    /\ sending h' = false.
Proof.
  intros Hr. unfold sendMessage, Api.post. run_steps. rewrite Hr. run_steps.
  destruct (fetchConversation_state projectId conversationId rest b (setSending true h))
    as (b' & h' & -> & _). run_steps. by do 2 eexists.
Qed.

Lemma updateStatus_failed status reason x rest b h e shown :
  Api.settle x = Throw e ->
  to_string (or_else (Api.detail e) (VStr "Erro ao atualizar status")) = Return shown ->
  run (x :: rest) (updateStatus projectId conversationId status reason) b h
  = ([Api.add_token b
        (Api.defaults PATCH (endpoint projectId conversationId +:+ "/status") []
           (Some (status_body status reason)))],
     (after e b, h, Throw (Error shown))).
Proof.
  intros He Ht. unfold updateStatus, Api.patch. run_steps. rewrite He. run_steps.
  rewrite (rethrow_text _ _ shown) by done. by run_steps.
Qed.

Lemma updateStatus_done status reason x rest b h r :
  Api.settle x = Return r ->
  exists b' h',
    run (x :: rest) (updateStatus projectId conversationId status reason) b h
    = ([Api.add_token b
          (Api.defaults PATCH (endpoint projectId conversationId +:+ "/status") []
             (Some (status_body status reason)));
        Api.add_token b
          (Api.defaults GET (endpoint projectId conversationId) [] None)],
       (b', h', Return (Api.data r))).
Proof.
  intros Hr. unfold updateStatus, Api.patch. run_steps. rewrite Hr. run_steps.
  destruct (fetchConversation_state projectId conversationId rest b h)
    as (b' & h' & -> & _). run_steps. by do 2 eexists.
Qed.

End Mutations.

(** X12.  The hook's two mutations, sending a message and changing the
    status, report in the same way.  When their own request is accepted
    they reload the conversation and return the data of their own reply,
    whatever becomes of the reload.  When it is refused they send nothing
    more and throw an [Error] whose message is the server's [detail], or
    "Erro ao enviar mensagem" and "Erro ao atualizar status".  Either way
    [sendMessage] leaves the [sending] flag off. *)
Theorem hook_mutations_report (projectId conversationId : string)
  (x : reply) (rest : list reply) (b : browser) (h : UseConversation.State) :
  let endpoint := UseConversation.endpoint projectId conversationId in
  let reload := Api.add_token b (Api.defaults GET endpoint [] None) in
  let after e := if Api.is_unauthorized e
                 then navigate "/login" (removeItem "token" b) else b in
  (forall text,
     let go := UseConversation.sendMessage projectId conversationId text in
     let post :=
       Api.add_token b
         (Api.defaults POST (endpoint +:+ "/send") [] (Some (VObj [("text", VStr text)]))) in
     (forall r, Api.settle x = Return r ->
        exists b' h',
          run (x :: rest) go b h = ([post; reload], (b', h', Return (Api.data r)))
          /\ UseConversation.sending h' = false)
     /\ (forall e shown,
           Api.settle x = Throw e ->
           to_string (or_else (Api.detail e) (VStr "Erro ao enviar mensagem"))
             = Return shown ->
           run (x :: rest) go b h
           = ([post],
              (after e, UseConversation.setSending false (UseConversation.setSending true h),
               Throw (Error shown)))))
  /\ (forall status reason,
        let go := UseConversation.updateStatus projectId conversationId status reason in
        let patch :=
          Api.add_token b
            (Api.defaults PATCH (endpoint +:+ "/status") []
               (Some (UseConversation.status_body status reason))) in
        (forall r, Api.settle x = Return r ->
           exists b' h',
             run (x :: rest) go b h = ([patch; reload], (b', h', Return (Api.data r))))
        /\ (forall e shown,
              Api.settle x = Throw e ->
              to_string (or_else (Api.detail e) (VStr "Erro ao atualizar status"))
                = Return shown ->
              run (x :: rest) go b h = ([patch], (after e, h, Throw (Error shown))))).
Proof.
  intros endpoint reload after. split.
  - intros text go post. split.
    + intros r Hr. by apply sendMessage_sent.
    + intros e shown He Hs. by apply sendMessage_failed.
  - intros status reason go patch. split.
    + intros r Hr. by apply updateStatus_done.
    + intros e shown He Hs. by apply updateStatus_failed.
Qed.

(** The contact has blocked the business: the send is refused with a
    reason, which is what the hook throws. *)
Lemma hook_mutations_witness :
  run [Sample.refused 400 "Janela de 24h encerrada"]
      (UseConversation.sendMessage "pacific-surf" "5511999990000" "Oi")
      Sample.fresh_browser UseConversation.initial
  = ([ {| method := POST; url := "/api/conversations/pacific-surf/5511999990000/send";
          params := []; headers := [("Content-Type", "application/json")];
          body := Some (VObj [("text", VStr "Oi")]) |} ],
     (Sample.fresh_browser, UseConversation.initial,
      Throw (Error "Janela de 24h encerrada"))).
Proof.
  destruct (hook_mutations_report "pacific-surf" "5511999990000"
              (Sample.refused 400 "Janela de 24h encerrada") []
              Sample.fresh_browser UseConversation.initial) as [Hsend _].
  destruct (Hsend "Oi") as [_ Hfail].
  exact (Hfail _ "Janela de 24h encerrada" eq_refl eq_refl).
Defined.

(** ** The REST client: the token header *)

Lemma find_app {A} (f : A -> bool) (l1 l2 : list A) :
  List.find f (l1 ++ l2)
  = match List.find f l1 with Some a => Some a | None => List.find f l2 end.
Proof. induction l1 as [|a l1 IH]; [done|]. cbn. by destruct (f a). Qed.

Lemma find_other_key (k k' : string) (hs : list (string * string)) :
  k <> k' ->
  List.find (fun h => String.eqb (fst h) k)
            (filter (fun h => negb (String.eqb (fst h) k')) hs)
  = List.find (fun h => String.eqb (fst h) k) hs.
Proof.
  intros Hne. induction hs as [|[k0 v0] hs IH]; [done|].
  rewrite filter_cons. cbn [fst].
  destruct (String.eqb_spec k0 k') as [->|Hk0]; cbn [negb].
  - rewrite decide_False by (by intros []). cbn [List.find fst].
    destruct (String.eqb_spec k' k); [congruence|done].
  - rewrite decide_True by done. cbn [List.find fst].
    by destruct (String.eqb k0 k).
Qed.

Lemma find_same_key (k : string) (hs : list (string * string)) :
  List.find (fun h => String.eqb (fst h) k)
            (filter (fun h => negb (String.eqb (fst h) k)) hs) = None.
Proof.
  induction hs as [|[k0 v0] hs IH]; [done|].
  rewrite filter_cons. cbn [fst].
  destruct (String.eqb_spec k0 k) as [->|Hk0]; cbn [negb].
  - by rewrite decide_False by (by intros []).
  - rewrite decide_True by done. cbn [List.find fst].
    by destruct (String.eqb_spec k0 k).
Qed.

Lemma filter_same_key (k : string) (hs : list (string * string)) :
  List.filter (fun h => String.eqb (fst h) k)
              (filter (fun h => negb (String.eqb (fst h) k)) hs) = [].
Proof.
  induction hs as [|[k0 v0] hs IH]; [done|].
  rewrite filter_cons. cbn [fst].
  destruct (String.eqb_spec k0 k) as [->|Hk0]; cbn [negb].
  - by rewrite decide_False by (by intros []).
  - rewrite decide_True by done. cbn [List.filter fst].
    by destruct (String.eqb_spec k0 k).
Qed.

(** X13.  The request interceptor changes nothing of a request but its
    [Authorization] header.  With a token in local storage the request
    leaves with exactly one such header, ["Bearer " + token], whatever it
    carried before, and all its other headers as they were.  With no token,
    or an empty one, the request leaves as it came. *)
Theorem token_header_added_once (b : browser) (config : request) :
  method (Api.add_token b config) = method config
  /\ url (Api.add_token b config) = url config
  /\ params (Api.add_token b config) = params config
  /\ body (Api.add_token b config) = body config
  /\ (forall token, getItem "token" b = Some token -> token <> "" ->
        header "Authorization" (Api.add_token b config) = Some ("Bearer " +:+ token)
        /\ List.filter (fun h => String.eqb (fst h) "Authorization")
                       (headers (Api.add_token b config))
           = [("Authorization", "Bearer " +:+ token)]
        /\ forall k, k <> "Authorization" ->
             header k (Api.add_token b config) = header k config)
  /\ (getItem "token" b = None \/ getItem "token" b = Some "" ->
      Api.add_token b config = config).
Proof.
  split; [apply add_token_method|]. split; [apply add_token_url|].
  split; [apply add_token_params|]. split.
  { unfold Api.add_token. by repeat case_match. }
  split.
  - intros token Ht Hne. unfold Api.add_token. rewrite Ht.
    destruct (String.eqb_spec token ""); [done|]. cbn [negb].
    unfold header, Api.set_header. cbn [headers]. split; [|split].
    + by rewrite find_app, find_same_key.
    + rewrite List.filter_app, filter_same_key. done.
    + intros k Hk. rewrite find_app, find_other_key by done.
      destruct (List.find _ (headers config)); [done|]. cbn [List.find fst].
      destruct (String.eqb_spec "Authorization" k); [congruence|done].
  - unfold Api.add_token. by intros [->| ->].
Qed.

(** A request that already carries a stale [Authorization] header leaves
    with the stored token in its place. *)
Lemma token_header_witness :
  let b := setItem "token" "jwt" Sample.fresh_browser in
  let config := {| method := GET; url := "/api/clients"; params := [];
                   headers := [("Authorization", "Bearer old");
                               ("Content-Type", "application/json")];
                   body := None |} in
  header "Authorization" (Api.add_token b config) = Some "Bearer jwt"
  /\ List.filter (fun h => String.eqb (fst h) "Authorization")
                 (headers (Api.add_token b config))
     = [("Authorization", "Bearer jwt")].
Proof.
  intros b config.
  destruct (token_header_added_once b config) as (_ & _ & _ & _ & Htoken & _).
  destruct (Htoken "jwt" eq_refl ltac:(discriminate)) as (Hh & Hone & _).
  split; [exact Hh|exact Hone].
Defined.

(** ** The REST client: the base URL *)

Section Runtime.
Import ApiRuntime.

Lemma ensureInit_first x rest b :
  run (x :: rest) ensureInit b initial
  = ([config_request],
     (b, {| _apiUrl := learned x; _initPromise := true; baseURL := learned x |},
      Return tt)).
Proof.
  unfold ensureInit, resolveApiUrl, learned. run_steps. cbn [_initPromise initial].
  run_steps. cbn [negb is_null _apiUrl set_initPromise initial]. run_steps.
  destruct (fetch_json x) as [data|e]; run_steps; [|done].
  destruct (get data "apiUrl") as [apiUrl|e]; run_steps; [|done].
  destruct (truthy apiUrl); by run_steps.
Qed.

Lemma ensureInit_again replies b g :
  _initPromise g = true ->
  run replies ensureInit b g = ([], (b, g, Return tt)).
Proof. intros Hg. unfold ensureInit. run_steps. rewrite Hg. by run_steps. Qed.

Lemma dispatch_first config x rest b :
  exists b' out,
    run (x :: rest) (dispatch config) b initial
    = ([config_request; Api.add_token b config],
       (b', {| _apiUrl := learned x; _initPromise := true; baseURL := learned x |}, out)).
Proof.
  unfold dispatch, request_interceptor. run_steps.
  rewrite ensureInit_first. run_steps.
  unfold Api.on_fulfilled, Api.on_rejected.
  destruct (Api.settle _) as [r|e]; run_steps; [by do 2 eexists|].
  destruct (Api.is_unauthorized e); run_steps; by do 2 eexists.
Qed.

Lemma dispatch_again config replies b g :
  _initPromise g = true ->
  exists b' out,
    run replies (dispatch config) b g
    = ([Api.add_token b config], (b', g, out)).
Proof.
  intros Hg. unfold dispatch, request_interceptor. run_steps.
  rewrite ensureInit_again by done. run_steps.
  unfold Api.on_fulfilled, Api.on_rejected.
  destruct (Api.settle _) as [r|e]; run_steps; [by do 2 eexists|].
  destruct (Api.is_unauthorized e); run_steps; by do 2 eexists.
Qed.

Lemma dispatches_again configs replies b g :
  _initPromise g = true ->
  exists sent b',
    run replies (in_turn (map (fun c => detached (dispatch c)) configs)) b g
    = (sent, (b', g, Return tt))
    /\ map url sent = map url configs
    /\ map method sent = map method configs.
Proof.
  intros Hg. revert replies b. induction configs as [|c configs IH]; intros replies b.
  { exists [], b. by repeat split. }
  cbn [map in_turn]. run_steps.
  destruct (dispatch_again c replies b g Hg) as (b1 & out & ->).
  run_steps.
  destruct (IH (drop 1 replies) b1) as (sent & b' & -> & Hu & Hm).
  run_steps. do 2 eexists. split; [reflexivity|].
  cbn [map]. by rewrite Hu, Hm, add_token_url, add_token_method.
Qed.

End Runtime.

(** X14.  The later copy of the client asks the dashboard's own server for
    the API base URL once: before the first request, and never again,
    however many requests follow.  The base URL is the [apiUrl] of that
    answer when it has one; when the answer has none, is not JSON, or does
    not come, it is the empty string, so that requests go to the
    dashboard's own origin. *)
Theorem base_url_is_asked_once (config : request) (configs : list request)
  (x : reply) (rest : list reply) (b : browser) :
  let calls := map (fun c => detached (ApiRuntime.dispatch c)) (config :: configs) in
  exists sent b' g',
    run (x :: rest) (in_turn calls) b ApiRuntime.initial
      = (ApiRuntime.config_request :: sent, (b', g', Return tt))
    /\ map url sent = map url (config :: configs)
    /\ map method sent = map method (config :: configs)
    /\ (forall data apiUrl st,
          x = Answered st (Json data) -> get data "apiUrl" = Return apiUrl ->
          truthy apiUrl = true -> ApiRuntime.baseURL g' = apiUrl)
    /\ (forall why, x = Unreachable why -> ApiRuntime.baseURL g' = VStr "")
    /\ (forall st raw, x = Answered st (Text raw) -> ApiRuntime.baseURL g' = VStr "")
    /\ (forall st data, x = Answered st (Json data) ->
          truthy (opt data "apiUrl") = false -> ApiRuntime.baseURL g' = VStr "").
Proof.
  intros calls. subst calls. cbn [map in_turn]. run_steps.
  destruct (dispatch_first config x rest b) as (b1 & out & ->).
  run_steps.
  destruct (dispatches_again configs (drop 1 rest) b1
              {| ApiRuntime._apiUrl := ApiRuntime.learned x; ApiRuntime._initPromise := true;
                 ApiRuntime.baseURL := ApiRuntime.learned x |} eq_refl)
    as (sent & b' & -> & Hu & Hm).
  run_steps. do 3 eexists. split; [reflexivity|].
  cbn [map ApiRuntime.baseURL]. rewrite Hu, Hm, add_token_url, add_token_method.
  split; [done|]. split; [done|]. split; [|split; [|split]].
  - intros data apiUrl st -> Hget Ht. unfold ApiRuntime.learned. cbn. by rewrite Hget, Ht.
  - by intros why ->.
  - by intros st raw ->.
  - intros st data -> Hf. unfold ApiRuntime.learned. cbn.
    unfold opt in Hf. unfold get. destruct (nullish data); [done|]. by rewrite Hf.
Qed.

(** Three requests in a row, the first config answer naming the API. *)
Lemma base_url_witness :
  let c1 := Api.defaults GET "/api/clients" [] None in
  let c2 := Api.defaults GET "/api/conversations/" [("project_id", VStr "pacific-surf")] None in
  let c3 := Api.defaults GET "/api/clients/c-42" [] None in
  exists sent b' g',
    run [Sample.ok (VObj [("apiUrl", VStr "https://api.superbot.digital")])]
        (in_turn (map (fun c => detached (ApiRuntime.dispatch c)) [c1; c2; c3]))
        Sample.fresh_browser ApiRuntime.initial
      = (ApiRuntime.config_request :: sent, (b', g', Return tt))
    /\ map url sent = ["/api/clients"; "/api/conversations/"; "/api/clients/c-42"]
    /\ ApiRuntime.baseURL g' = VStr "https://api.superbot.digital".
Proof.
  intros c1 c2 c3.
  destruct (base_url_is_asked_once c1 [c2; c3]
              (Sample.ok (VObj [("apiUrl", VStr "https://api.superbot.digital")])) []
              Sample.fresh_browser)
    as (sent & b' & g' & Hrun & Hu & _ & Hbase & _).
  exists sent, b', g'. split; [exact Hrun|]. split; [exact Hu|].
  exact (Hbase _ (VStr "https://api.superbot.digital") 200 eq_refl eq_refl eq_refl).
Defined.

(** ** The copy of the client without interceptors *)

Section Bare.
Import ApiBare.

Lemma getApiUrl_resolved replies b g :
  _resolved g = true ->
  run replies getApiUrl b g = ([], (b, g, Return (_apiUrl g))).
Proof. intros Hg. unfold getApiUrl. run_steps. rewrite Hg. by run_steps. Qed.

Lemma getApiUrl_browser replies b g :
  exists sent g' out, run replies getApiUrl b g = (sent, (b, g', out)).
Proof.
  unfold getApiUrl. run_steps. destruct (_resolved g); run_steps; [by do 3 eexists|].
  destruct (negb (_fetchPromise g)); run_steps; [|by do 3 eexists].
  destruct (ApiRuntime.fetch_json _) as [d|e]; run_steps; [|by do 3 eexists].
  destruct (get d "apiUrl"); run_steps; by do 3 eexists.
Qed.

End Bare.

(** X15.  Through the copy of the client that has no interceptors, no
    answer changes the browser: a 401 leaves the token in local storage and
    the location where it was, and is handed to the caller as the axios
    error.  Once the base URL is known, a call is one request to the base
    URL followed by the path, with the content-type header, the
    [Authorization] header exactly when a token is stored, and a body only
    for the methods that send one. *)
Theorem bare_client_keeps_the_session (m : verb) (u : string) (payload : option value)
  (config : ApiBare.AxiosRequestConfig) (replies : list reply) (b : browser)
  (g : ApiBare.Globals) :
  (exists sent g' out,
     run replies (ApiBare.makeRequest m u payload config) b g = (sent, (b, g', out)))
  /\ (forall base,
        ApiBare._resolved g = true -> ApiBare._apiUrl g = VStr base ->
        run replies (ApiBare.makeRequest m u payload config) b g
        = ([ {| method := m; url := base +:+ u; params := ApiBare.cfg_params config;
                headers := default (ApiBare.own_headers b) (ApiBare.cfg_headers config);
                body := match m with GET | DELETE => None | _ => payload end |} ],
           (b, g, Api.settle (hd silence replies))))
  /\ (forall token, getItem "token" b = Some token -> token <> "" ->
        ApiBare.own_headers b
        = [("Content-Type", "application/json"); ("Authorization", "Bearer " +:+ token)])
  /\ (getItem "token" b = None \/ getItem "token" b = Some "" ->
      ApiBare.own_headers b = [("Content-Type", "application/json")]).
Proof.
  split; [|split; [|split]].
  - unfold ApiBare.makeRequest. run_steps.
    destruct (getApiUrl_browser replies b g) as (sent & g' & [baseUrl|e] & ->);
      run_steps; [|by do 3 eexists].
    destruct (to_string baseUrl); run_steps; by do 3 eexists.
  - intros base Hres Hurl. unfold ApiBare.makeRequest. run_steps.
    rewrite getApiUrl_resolved by done. run_steps. rewrite Hurl. cbn [to_string].
    by run_steps.
  - intros token Ht Hne. unfold ApiBare.own_headers. rewrite Ht.
    by destruct (String.eqb_spec token "").
  - unfold ApiBare.own_headers. by intros [->| ->].
Qed.

(** A stale token and a 401: the error comes back and the token stays. *)
Lemma bare_client_witness :
  let b := setItem "token" "stale.jwt" Sample.fresh_browser in
  let g := ApiBare.resolve (VStr "https://api.superbot.digital") ApiBare.initial in
  run [Sample.refused 401 "Token expirado"]
      (ApiBare.makeRequest GET "/api/clients" None ApiBare.no_config) b g
  = ([ {| method := GET; url := "https://api.superbot.digital/api/clients"; params := [];
          headers := [("Content-Type", "application/json");
                      ("Authorization", "Bearer stale.jwt")];
          body := None |} ],
     (b, g, Throw (AxiosError (Some (401, VObj [("detail", VStr "Token expirado")]))
                              "Request failed with status code 401"))).
Proof.
  intros b g.
  destruct (bare_client_keeps_the_session GET "/api/clients" None ApiBare.no_config
              [Sample.refused 401 "Token expirado"] b g) as (_ & Hcall & _).
  exact (Hcall "https://api.superbot.digital" eq_refl eq_refl).
Defined.

(** ** Logging out, and the guard of the pages under [/dash] *)

Lemma getItem_removeItem k b : getItem k (removeItem k b) = None.
Proof. unfold getItem, removeItem. cbn. apply lookup_delete_eq. Qed.

Lemma getItem_removeItem_ne k k' b : k <> k' -> getItem k (removeItem k' b) = getItem k b.
Proof. intros Hne. unfold getItem, removeItem. cbn. by apply lookup_delete_ne. Qed.

Section Guard.
Context `{Builtins}.
Import Session.

Lemma guard_no_user replies b ready :
  stored_user b = None ->
  run replies DashLayout_mount b ready = ([], (navigate "/login" b, ready, Return tt)).
Proof. intros Hu. unfold DashLayout_mount. run_steps. rewrite Hu. by run_steps. Qed.

Lemma guard_tenant replies b ready user tenantId :
  stored_user b = Some (Return user) ->
  tenant_of b user = Return tenantId -> truthy tenantId = true ->
  run replies DashLayout_mount b ready = ([], (b, true, Return tt)).
Proof.
  intros Hu Ht Htruthy. unfold DashLayout_mount. run_steps. rewrite Hu. run_steps.
  rewrite Ht. run_steps. rewrite Htruthy. by run_steps.
Qed.

Lemma guard_no_tenant replies b ready user tenantId role :
  stored_user b = Some (Return user) ->
  tenant_of b user = Return tenantId -> truthy tenantId = false ->
  get user "role" = Return role ->
  run replies DashLayout_mount b ready
  = ([], (navigate (if is_str role "admin" then "/admin" else "/login") b, ready,
          Return tt)).
Proof.
  intros Hu Ht Htruthy Hrole. unfold DashLayout_mount. run_steps. rewrite Hu. run_steps.
  rewrite Ht. run_steps. rewrite Htruthy. cbn [negb]. run_steps. rewrite Hrole.
  by run_steps.
Qed.

Lemma guard_ready replies b ready sent b' ready' out :
  run replies DashLayout_mount b ready = (sent, (b', ready', out)) ->
  sent = []
  /\ (ready' = true ->
      ready = true
      \/ (b' = b /\ out = Return tt
          /\ exists tenantId,
               resolve_tenant b = Some (Return tenantId) /\ truthy tenantId = true)).
Proof.
  unfold DashLayout_mount, resolve_tenant. run_steps.
  destruct (stored_user b) as [[user|e]|]; run_steps; cbn [mbind result_bind bind].
  - destruct (tenant_of b user) as [tenantId|e] eqn:Ht; run_steps.
    + destruct (truthy tenantId) eqn:Htruthy; cbn [negb]; run_steps.
      * intros [= <- <- <- <-]. split; [done|]. intros _. right. by eauto.
      * destruct (get user "role"); run_steps; intros [= <- <- <- <-]; by auto.
    + intros [= <- <- <- <-]. by auto.
  - intros [= <- <- <- <-]. by auto.
  - intros [= <- <- <- <-]. by auto.
Qed.

End Guard.

(** X16.  Logging out removes the token, the user and the tenant selection
    from local storage, leaves every other key as it was, sends nothing, and
    goes to [/login].  Opening a page under [/dash] afterwards leads back to
    [/login], whatever else the browser still holds. *)
Theorem logout_clears_the_session `{Builtins} {S : Type} (replies : list reply)
  (b : browser) (s : S) :
  exists b',
    run replies Session.handleLogout b s = ([], (b', s, Return tt))
    /\ (forall k, k ∈ ["token"; "user"; "active_tenant_id"; "active_tenant_name"] ->
          getItem k b' = None)
    /\ (forall k, k ∉ ["token"; "user"; "active_tenant_id"; "active_tenant_name"] ->
          getItem k b' = getItem k b)
    /\ location b' = "/login"
    /\ forall replies' ready,
         run replies' Session.DashLayout_mount b' ready = ([], (b', ready, Return tt)).
Proof.
  eexists. split; [unfold Session.handleLogout; by run_steps|].
  split; [|split; [|split; [done|]]].
  - intros k Hk. rewrite getItem_navigate.
    repeat (apply elem_of_cons in Hk as [->|Hk]);
      [repeat first [ apply getItem_removeItem
                    | rewrite getItem_removeItem_ne by done ]..|].
    by apply elem_of_nil in Hk.
  - intros k Hk. rewrite getItem_navigate.
    rewrite !getItem_removeItem_ne; [done|intros ->; apply Hk; set_solver..].
  - intros replies' ready. rewrite guard_no_user; [done|].
    unfold Session.stored_user. rewrite getItem_navigate.
    rewrite !getItem_removeItem_ne by done. by rewrite getItem_removeItem.
Qed.

(** X17.  The layout of the pages under [/dash] sends no request, and lets
    the pages show only when the stored user resolves to a tenant: the
    active tenant of an administrator, the [client_id] of anyone else.
    Without a stored user it goes to [/login]; an administrator without an
    active tenant goes to [/admin], anyone else without a tenant to
    [/login].  A stored user that does not parse makes the effect throw
    what [JSON.parse] threw: nothing is sent, the browser stays where it
    is, and [ready] is not set. *)
Theorem dash_layout_needs_a_tenant `{Builtins} (replies : list reply) (b : browser)
  (ready : bool) :
  (forall sent b' ready' out,
     run replies Session.DashLayout_mount b ready = (sent, (b', ready', out)) ->
     sent = []
     /\ (ready' = true ->
         ready = true
         \/ (b' = b /\ out = Return tt
             /\ exists tenantId,
                  Session.resolve_tenant b = Some (Return tenantId)
                  /\ truthy tenantId = true)))
  /\ (forall user tenantId,
        Session.stored_user b = Some (Return user) ->
        Session.tenant_of b user = Return tenantId -> truthy tenantId = true ->
        run replies Session.DashLayout_mount b ready = ([], (b, true, Return tt)))
  /\ (Session.stored_user b = None ->
      run replies Session.DashLayout_mount b ready
      = ([], (navigate "/login" b, ready, Return tt)))
  /\ (forall user,
        Session.stored_user b = Some (Return user) ->
        is_str (opt user "role") "admin" = true ->
        truthy (Session.getItem_value "active_tenant_id" b) = false ->
        run replies Session.DashLayout_mount b ready
        = ([], (navigate "/admin" b, ready, Return tt)))
  /\ (forall user,
        Session.stored_user b = Some (Return user) -> nullish user = false ->
        is_str (own user "role") "admin" = false ->
        truthy (own user "client_id") = false ->
        run replies Session.DashLayout_mount b ready
        = ([], (navigate "/login" b, ready, Return tt)))
  /\ (forall e,
        Session.stored_user b = Some (Throw e) ->
        run replies Session.DashLayout_mount b ready = ([], (b, ready, Throw e))).
Proof.
  split; [intros sent b' ready' out; apply guard_ready|].
  split; [intros user tenantId; apply guard_tenant|].
  split; [apply guard_no_user|]. split; [|split].
  - intros user Hu Hrole Ht.
    destruct (role_has_object _ _ Hrole) as [props ->].
    rewrite opt_own in Hrole by done.
    rewrite (guard_no_tenant replies b ready (VObj props)
               (Session.getItem_value "active_tenant_id" b) (own (VObj props) "role"));
      [by rewrite Hrole|done| |done|by rewrite get_not_nullish].
    unfold Session.tenant_of. rewrite !get_not_nullish by done. cbn [mbind result_bind bind].
    by rewrite Hrole.
  - intros user Hu Hnull Hrole Ht.
    rewrite (guard_no_tenant replies b ready user (own user "client_id") (own user "role"));
      [by rewrite Hrole|done| |done|by rewrite get_not_nullish].
    unfold Session.tenant_of. rewrite !get_not_nullish by done. cbn [mbind result_bind bind].
    by rewrite Hrole.
  - intros e Hu. unfold Session.DashLayout_mount. run_steps. rewrite Hu. by run_steps.
Qed.

(** An administrator who has not chosen a client is sent to the admin page. *)
Lemma dash_layout_witness :
  let b := setItem "user" "{admin}" Sample.fresh_browser in
  run [] (Session.DashLayout_mount (H := Sample.builtins)) b false
  = ([], (navigate "/admin" b, false, Return tt)).
Proof.
  intros b.
  destruct (dash_layout_needs_a_tenant (H := Sample.builtins) [] b false)
    as (_ & _ & _ & Hadmin & _).
  exact (Hadmin Sample.admin_user eq_refl eq_refl eq_refl).
Defined.

(** ** The way in: login, then the guard *)

Section Entry.
Context `{Builtins}.
Import Session.

Lemma stored_user_after b text :
  getItem "user" b = Some text -> text <> "" ->
  stored_user b = Some (JSON_parse text).
Proof.
  intros Hu Hne. unfold stored_user. rewrite Hu.
  by destruct (String.eqb_spec text "").
Qed.

Lemma login_rejected x rest b form e :
  Api.settle x = Throw e ->
  run (x :: rest) handleLogin b form
  = ([Api.add_token b
        (Api.defaults POST "/api/auth/login" []
           (Some (VObj [("username", VStr (username form));
                        ("password", VStr (password form))])))],
     (if Api.is_unauthorized e then navigate "/login" (removeItem "token" b) else b,
      {| username := username form; password := password form; loading := false;
         error := or_else (Api.detail e) (VStr invalid_credentials) |},
      Return tt)).
Proof.
  intros Hx. unfold handleLogin, Api.post. run_steps. rewrite Hx.
  unfold Api.on_rejected. run_steps.
  destruct (Api.is_unauthorized e); by run_steps.
Qed.

End Entry.

(** X18.  A login the server turns down stores nothing: the form shows the
    server's [detail], or "Usuário ou senha inválidos" when there is none,
    the spinner stops, what was typed stays, and no key of local storage is
    written.  A 401 passes through the response interceptor like any other,
    which removes a token left from before. *)
Theorem rejected_login_stores_nothing `{Builtins} (x : reply) (rest : list reply)
  (b : browser) (form : Session.LoginState) (e : exn) :
  Api.settle x = Throw e ->
  exists b' form',
    run (x :: rest) Session.handleLogin b form
    = ([Api.add_token b
          (Api.defaults POST "/api/auth/login" []
             (Some (VObj [("username", VStr (Session.username form));
                          ("password", VStr (Session.password form))])))],
       (b', form', Return tt))
    /\ Session.error form' = or_else (Api.detail e) (VStr Session.invalid_credentials)
    /\ Session.loading form' = false
    /\ Session.username form' = Session.username form
    /\ Session.password form' = Session.password form
    /\ (forall k, k <> "token" -> getItem k b' = getItem k b)
    /\ getItem "token" b'
       = (if Api.is_unauthorized e then None else getItem "token" b).
Proof.
  intros Hx. do 2 eexists. split; [by apply login_rejected|].
  cbn [Session.error Session.loading Session.username Session.password].
  do 4 (split; [done|]).
  destruct (Api.is_unauthorized e); split; try done.
  - intros k Hk. rewrite getItem_navigate. by rewrite getItem_removeItem_ne.
  - rewrite getItem_navigate. apply getItem_removeItem.
Qed.

(** A wrong password on a browser that still holds an old token. *)
Lemma rejected_login_witness :
  let b := setItem "token" "old.jwt" Sample.fresh_browser in
  let form := {| Session.username := "ana"; Session.password := "wrong";
                 Session.loading := false; Session.error := VStr "" |} in
  exists b' form',
    run [Sample.refused 401 "Credenciais inválidas"]
        (Session.handleLogin (H := Sample.builtins)) b form
    = ([ {| method := POST; url := "/api/auth/login"; params := [];
            headers := [("Content-Type", "application/json");
                        ("Authorization", "Bearer old.jwt")];
            body := Some (VObj [("username", VStr "ana"); ("password", VStr "wrong")]) |} ],
       (b', form', Return tt))
    /\ Session.error form' = VStr "Credenciais inválidas"
    /\ getItem "token" b' = None
    /\ getItem "user" b' = None.
Proof.
  intros b form.
  destruct (rejected_login_stores_nothing (H := Sample.builtins)
              (Sample.refused 401 "Credenciais inválidas") [] b form _ eq_refl)
    as (b' & form' & Hrun & Herr & _ & _ & _ & Hkeep & Htoken).
  exists b', form'. split; [exact Hrun|]. split; [exact Herr|]. split; [exact Htoken|].
  exact (Hkeep "user" ltac:(discriminate)).
Defined.

(** X19.  After the login of a client-role user with a client, the pages
    under [/dash] open at once: the guard of the layout finds the user the
    login stored, resolves the tenant to the user's [client_id], and lets
    the pages show, as long as [JSON.parse] gives back what
    [JSON.stringify] was given. *)
Theorem client_login_opens_the_dashboard `{Builtins} (x : reply) (rest : list reply)
  (b : browser) (form : Session.LoginState) (r : Api.response) (tok : string)
  (user : value) (cid name : string) :
  Api.settle x = Return r ->
  get (Api.data r) "access_token" = Return (VStr tok) ->
  get (Api.data r) "user" = Return user ->
  is_str (opt user "role") "client" = true ->
  own user "client_id" = VStr cid -> cid <> "" ->
  to_string (or_else (own user "client_name") (VStr "")) = Return name ->
  JSON_stringify user <> "" ->
  JSON_parse (JSON_stringify user) = Return user ->
  exists sent b' form',
    run (x :: rest) Session.handleLogin b form = (sent, (b', form', Return tt))
    /\ location b' = "/dash"
    /\ Session.resolve_tenant b' = Some (Return (VStr cid))
    /\ forall replies ready,
         run replies Session.DashLayout_mount b' ready = ([], (b', true, Return tt)).
Proof.
  intros Hx Htok Huser Hrole Hcid Hne Hname Htext Hparse.
  do 3 eexists. split; [by eapply login_client|]. split; [done|].
  destruct (role_has_object _ _ Hrole) as [props ->].
  rewrite opt_own in Hrole by done.
  match goal with |- Session.resolve_tenant ?b' = _ /\ _ =>
    assert (Session.stored_user b' = Some (Return (VObj props))) as Hstored
  end.
  { rewrite <- Hparse. apply stored_user_after; [stored|done]. }
  assert (forall b0, Session.tenant_of b0 (VObj props) = Return (VStr cid)) as Htenant.
  { intros b0. unfold Session.tenant_of. rewrite !get_not_nullish by done.
    cbn [mbind result_bind bind].
    assert (is_str (own (VObj props) "role") "admin" = false) as ->; [|by rewrite Hcid].
    destruct (own (VObj props) "role") as [| | | |role| |]; try done.
    cbn in Hrole. by apply String.eqb_eq in Hrole as ->. }
  split.
  - unfold Session.resolve_tenant. rewrite Hstored. cbn [mbind result_bind bind].
    by rewrite Htenant.
  - intros replies ready. eapply guard_tenant; [exact Hstored|apply Htenant|].
    by apply truthy_text.
Qed.

(** The sample client logs in on a fresh browser. *)
Lemma client_login_guard_witness :
  let reply := Sample.ok (VObj [("access_token", VStr "jwt"); ("user", Sample.client_user)]) in
  let form := {| Session.username := "ana"; Session.password := "secret";
                 Session.loading := false; Session.error := VStr "" |} in
  exists sent b' form',
    run [reply] (Session.handleLogin (H := Sample.builtins)) Sample.fresh_browser form
    = (sent, (b', form', Return tt))
    /\ location b' = "/dash"
    /\ Session.resolve_tenant (H := Sample.builtins) b' = Some (Return (VStr "pacific-surf"))
    /\ forall replies ready,
         run replies (Session.DashLayout_mount (H := Sample.builtins)) b' ready
         = ([], (b', true, Return tt)).
Proof.
  intros reply form.
  apply (client_login_opens_the_dashboard (H := Sample.builtins) reply []
           Sample.fresh_browser form
           {| Api.status := 200;
              Api.data := VObj [("access_token", VStr "jwt"); ("user", Sample.client_user)] |}
           "jwt" Sample.client_user "pacific-surf"
           "Pacific Surf");
    first [reflexivity | discriminate].
Defined.

(** X20.  An administrator reaches a client's dashboard in two steps.
    Straight after logging in on a browser without a tenant selection the
    guard of [/dash] sends them to [/admin]; once they have opened a client
    from the admin page, the guard resolves the tenant to that client's id
    and lets the pages show. *)
Theorem admin_picks_a_client_first `{Builtins} (b : browser) (user client : value)
  (id name : string) (replies : list reply) (ready : bool) :
  Session.stored_user b = Some (Return user) ->
  is_str (opt user "role") "admin" = true ->
  getItem "active_tenant_id" b = None ->
  get client "id" = Return (VStr id) -> id <> "" ->
  get client "name" = Return (VStr name) ->
  run replies Session.DashLayout_mount b ready
  = ([], (navigate "/admin" b, ready, Return tt))
  /\ exists b',
       run replies (Session.handleOpenDashboard client) b ready = ([], (b', ready, Return tt))
       /\ location b' = "/dash"
       /\ Session.resolve_tenant b' = Some (Return (VStr id))
       /\ run replies Session.DashLayout_mount b' ready = ([], (b', true, Return tt)).
Proof.
  intros Hu Hrole Hnone Hid Hne Hname.
  destruct (role_has_object _ _ Hrole) as [props ->].
  rewrite opt_own in Hrole by done.
  assert (forall b0, Session.tenant_of b0 (VObj props)
                     = Return (Session.getItem_value "active_tenant_id" b0)) as Htenant.
  { intros b0. unfold Session.tenant_of. rewrite !get_not_nullish by done.
    cbn [mbind result_bind bind]. by rewrite Hrole. }
  split.
  - rewrite (guard_no_tenant replies b ready (VObj props)
               (Session.getItem_value "active_tenant_id" b) (own (VObj props) "role"));
      [by rewrite Hrole|done|apply Htenant| |by rewrite get_not_nullish].
    unfold Session.getItem_value. by rewrite Hnone.
  - eexists. split; [by apply open_dashboard_run|]. split; [done|].
    match goal with |- Session.resolve_tenant ?b' = _ /\ _ =>
      assert (Session.stored_user b' = Some (Return (VObj props))) as Hstored;
      [|assert (Session.getItem_value "active_tenant_id" b' = VStr id) as Hsel]
    end.
    { unfold Session.stored_user in *. rewrite getItem_navigate.
      by rewrite !getItem_setItem_ne by done. }
    { unfold Session.getItem_value. rewrite getItem_navigate.
      rewrite getItem_setItem_ne by done. by rewrite getItem_setItem. }
    split.
    + unfold Session.resolve_tenant. rewrite Hstored. cbn [mbind result_bind bind].
      by rewrite Htenant, Hsel.
    + eapply guard_tenant; [exact Hstored|by rewrite Htenant, Hsel|].
      by apply truthy_text.
Qed.

(** The sample administrator opens Pacific Surf. *)
Lemma admin_picks_witness :
  let b := setItem "user" "{admin}" Sample.fresh_browser in
  run [] (Session.DashLayout_mount (H := Sample.builtins)) b false
  = ([], (navigate "/admin" b, false, Return tt))
  /\ exists b',
       run [] (Session.handleOpenDashboard Examples.a_client) b false
       = ([], (b', false, Return tt))
       /\ location b' = "/dash"
       /\ Session.resolve_tenant (H := Sample.builtins) b' = Some (Return (VStr "c-42"))
       /\ run [] (Session.DashLayout_mount (H := Sample.builtins)) b' false
          = ([], (b', true, Return tt)).
Proof.
  intros b.
  apply (admin_picks_a_client_first (H := Sample.builtins) b Sample.admin_user
           Examples.a_client "c-42" "Pacific Surf" [] false);
    first [reflexivity | discriminate].
Defined.

(** ** The admin page: what a save sends *)

Lemma elem_of_when_set k v k0 v0 :
  (k, v) ∈ AdminDashboard.when_set k0 v0 <-> k = k0 /\ v = v0 /\ truthy v0 = true.
Proof.
  unfold AdminDashboard.when_set. destruct (truthy v0).
  - rewrite list_elem_of_singleton. split; [by intros [= -> ->]|by intros (-> & -> & _)].
  - rewrite elem_of_nil. split; [done|by intros (_ & _ & ?)].
Qed.

Lemma when_set_keys k v : (AdminDashboard.when_set k v).*1 `sublist_of` [k].
Proof.
  unfold AdminDashboard.when_set. destruct (truthy v); cbn; [done|].
  by apply sublist_nil_l.
Qed.

Lemma literal_keys fields :
  (Endpoints.spread (Endpoints.literal fields)).*1 `sublist_of` fields.*1.
Proof. cbn. apply fmap_sublist, sublist_filter. Qed.

Lemma elem_of_literal k v fields :
  (k, v) ∈ Endpoints.spread (Endpoints.literal fields)
  <-> (k, v) ∈ fields /\ v <> VUndef.
Proof.
  cbn. rewrite list_elem_of_filter. cbn. split; intros [? ?]; split; try done.
  - by destruct v.
  - by destruct v.
Qed.

Lemma lookup_prop_elem k v props :
  NoDup props.*1 -> (k, v) ∈ props -> lookup_prop k props = v.
Proof.
  induction props as [|[k' v'] props IH]; cbn; [by intros _ ?%elem_of_nil|].
  intros [Hk' Hnd]%NoDup_cons [[= -> ->]|Hin]%elem_of_cons.
  - by rewrite String.eqb_refl.
  - destruct (String.eqb_spec k k') as [->|]; [|by apply IH].
    destruct Hk'. apply list_elem_of_fmap. by exists (k', v).
Qed.

Lemma lookup_prop_absent k props : k ∉ props.*1 -> lookup_prop k props = VUndef.
Proof.
  induction props as [|[k' v'] props IH]; cbn; [done|].
  intros [Hne Hin]%not_elem_of_cons.
  destruct (String.eqb_spec k k'); [done|by apply IH].
Qed.

Section Payloads.
Import AdminDashboard.

Lemma update_payload_keys m :
  (Endpoints.spread (update_payload m)).*1 `sublist_of`
  ["name"; "status"; "timezone"; "meta_page_id"; "meta_phone_id"; "meta_ig_id";
   "meta_waba_id"; "meta_access_token"; "elevenlabs_agent_id"; "elevenlabs_voice_id";
   "elevenlabs_api_key"; "settings"].
Proof.
  unfold update_payload. etrans; [apply literal_keys|].
  rewrite !fmap_app.
  change ["name"; "status"; "timezone"; "meta_page_id"; "meta_phone_id"; "meta_ig_id";
          "meta_waba_id"; "meta_access_token"; "elevenlabs_agent_id";
          "elevenlabs_voice_id"; "elevenlabs_api_key"; "settings"] with
    (["name"; "status"; "timezone"] ++ ["meta_page_id"] ++ ["meta_phone_id"]
     ++ ["meta_ig_id"] ++ ["meta_waba_id"] ++ ["meta_access_token"]
     ++ ["elevenlabs_agent_id"] ++ ["elevenlabs_voice_id"] ++ ["elevenlabs_api_key"]
     ++ ["settings"]).
  repeat (apply sublist_app; [first [done | apply when_set_keys]|]).
  destruct (truthy (project_id m)); [done|by apply sublist_nil_l].
Qed.

Lemma create_payload_keys m :
  (Endpoints.spread (create_payload m)).*1 `sublist_of`
  ["name"; "slug"; "timezone"; "meta_page_id"; "meta_phone_id"; "meta_ig_id";
   "meta_waba_id"; "meta_access_token"; "elevenlabs_agent_id"; "elevenlabs_voice_id";
   "elevenlabs_api_key"].
Proof. unfold create_payload. etrans; [apply literal_keys|done]. Qed.

Lemma update_payload_optional m k v :
  (k, v) ∈ Endpoints.spread (update_payload m) ->
  k ∉ ["name"; "status"; "timezone"] -> truthy v = true.
Proof.
  unfold update_payload. rewrite elem_of_literal. intros [Hin _] Hk.
  rewrite !elem_of_app, !elem_of_when_set in Hin.
  destruct Hin as [Hin|Hin].
  { destruct Hk.
    repeat (apply elem_of_cons in Hin as [[= -> ->]|Hin]; [set_solver|]).
    by apply elem_of_nil in Hin. }
  repeat (destruct Hin as [(_ & -> & ?)|Hin]; [done|]).
  destruct (truthy (project_id m)); [|by apply elem_of_nil in Hin].
  by apply list_elem_of_singleton in Hin as [= -> ->].
Qed.

Lemma create_payload_optional m k v :
  (k, v) ∈ Endpoints.spread (create_payload m) ->
  k ∉ ["name"; "slug"; "timezone"] -> truthy v = true.
Proof.
  unfold create_payload. rewrite elem_of_literal. intros [Hin Hv] Hk.
  repeat (apply elem_of_cons in Hin as [[= -> ->]|Hin];
          [first [ by destruct Hk; set_solver
                 | unfold or_else in *; by destruct (truthy _) eqn:? ]|]).
  by apply elem_of_nil in Hin.
Qed.

End Payloads.

Ltac by_compute := refine (bool_decide_unpack _ _); vm_compute; exact I.

Section PayloadFields.
Import AdminDashboard.

Lemma update_payload_blank m k :
  k ∈ ["meta_page_id"; "meta_phone_id"; "meta_ig_id"; "meta_waba_id";
       "meta_access_token"; "elevenlabs_agent_id"; "elevenlabs_voice_id";
       "elevenlabs_api_key"] ->
  (forall v, (k, v) ∈ Endpoints.spread (update_payload m) -> False) ->
  own (update_payload m) k = VUndef.
Proof.
  intros _ Hnone. apply lookup_prop_absent. intros Hin.
  apply list_elem_of_fmap in Hin as ([k' v] & -> & Hin). by apply (Hnone v).
Qed.

Lemma update_payload_secret m k v :
  (k, v) ∈ Endpoints.spread (update_payload m) ->
  (k = "meta_access_token" -> v = meta_access_token m)
  /\ (k = "elevenlabs_api_key" -> v = elevenlabs_api_key m).
Proof.
  unfold update_payload. rewrite elem_of_literal. intros [Hin _].
  rewrite !elem_of_app, !elem_of_when_set in Hin.
  destruct Hin as [Hin|Hin].
  { repeat (apply elem_of_cons in Hin as [[= -> ->]|Hin]; [done|]).
    by apply elem_of_nil in Hin. }
  repeat (destruct Hin as [(-> & -> & ?)|Hin]; [done|]).
  destruct (truthy (project_id m)); [|by apply elem_of_nil in Hin].
  by apply list_elem_of_singleton in Hin as [= -> ->].
Qed.

Lemma update_without_token m :
  truthy (meta_access_token m) = false ->
  own (update_payload m) "meta_access_token" = VUndef.
Proof.
  intros Hblank. apply update_payload_blank; [by_compute|].
  intros v Hin. pose proof (update_payload_optional m _ v Hin) as Ht.
  apply update_payload_secret in Hin as [Hv _]. rewrite (Hv eq_refl) in Ht.
  rewrite Hblank in Ht. discriminate Ht. by_compute.
Qed.

Lemma update_without_api_key m :
  truthy (elevenlabs_api_key m) = false ->
  own (update_payload m) "elevenlabs_api_key" = VUndef.
Proof.
  intros Hblank. apply update_payload_blank; [by_compute|].
  intros v Hin. pose proof (update_payload_optional m _ v Hin) as Ht.
  apply update_payload_secret in Hin as [_ Hv]. rewrite (Hv eq_refl) in Ht.
  rewrite Hblank in Ht. discriminate Ht. by_compute.
Qed.

Lemma own_literal k fields :
  NoDup fields.*1 -> own (Endpoints.literal fields) k = lookup_prop k fields.
Proof.
  unfold Endpoints.literal. cbn [own].
  induction fields as [|[k' v'] fields IH]; [done|].
  cbn [fmap list_fmap fst]. intros [Hk' Hnd]%NoDup_cons.
  rewrite filter_cons. cbn [snd lookup_prop]. case_decide as Hv.
  - cbn [lookup_prop]. destruct (String.eqb k k'); [done|by apply IH].
  - destruct (String.eqb_spec k k') as [->|]; [|by apply IH].
    rewrite lookup_prop_absent; [by destruct v'|].
    intros Hin. apply Hk'. eapply elem_of_sublist; [exact Hin|].
    apply fmap_sublist, sublist_filter.
Qed.

Lemma lookup_prop_when_set k k0 v rest :
  lookup_prop k (when_set k0 v ++ rest)
  = if String.eqb k k0 && truthy v then v else lookup_prop k rest.
Proof.
  unfold when_set. destruct (truthy v); cbn.
  - by destruct (String.eqb k k0).
  - by rewrite andb_false_r.
Qed.

Lemma update_payload_own m k :
  own (update_payload m) k
  = if String.eqb k "name" then name m
    else if String.eqb k "status" then status m
    else if String.eqb k "timezone" then timezone m
    else if String.eqb k "meta_page_id" && truthy (meta_page_id m)
    then meta_page_id m
    else if String.eqb k "meta_phone_id" && truthy (meta_phone_id m)
    then meta_phone_id m
    else if String.eqb k "meta_ig_id" && truthy (meta_ig_id m)
    then meta_ig_id m
    else if String.eqb k "meta_waba_id" && truthy (meta_waba_id m)
    then meta_waba_id m
    else if String.eqb k "meta_access_token" && truthy (meta_access_token m)
    then meta_access_token m
    else if String.eqb k "elevenlabs_agent_id" && truthy (elevenlabs_agent_id m)
    then elevenlabs_agent_id m
    else if String.eqb k "elevenlabs_voice_id" && truthy (elevenlabs_voice_id m)
    then elevenlabs_voice_id m
    else if String.eqb k "elevenlabs_api_key" && truthy (elevenlabs_api_key m)
    then elevenlabs_api_key m
    else if String.eqb k "settings" && truthy (project_id m)
    then VObj [("project_id", project_id m)]
    else VUndef.
Proof.
  unfold update_payload. rewrite own_literal.
  - cbn [app lookup_prop]. rewrite !lookup_prop_when_set.
    destruct (truthy (project_id m)); cbn [lookup_prop];
      by rewrite ?andb_true_r, ?andb_false_r.
  - apply (sublist_NoDup _ ["name"; "status"; "timezone"; "meta_page_id"; "meta_phone_id";
                            "meta_ig_id"; "meta_waba_id"; "meta_access_token";
                            "elevenlabs_agent_id"; "elevenlabs_voice_id";
                            "elevenlabs_api_key"; "settings"]); [by_compute|].
    rewrite !fmap_app.
    change ["name"; "status"; "timezone"; "meta_page_id"; "meta_phone_id"; "meta_ig_id";
            "meta_waba_id"; "meta_access_token"; "elevenlabs_agent_id";
            "elevenlabs_voice_id"; "elevenlabs_api_key"; "settings"] with
      (["name"; "status"; "timezone"] ++ ["meta_page_id"] ++ ["meta_phone_id"]
       ++ ["meta_ig_id"] ++ ["meta_waba_id"] ++ ["meta_access_token"]
       ++ ["elevenlabs_agent_id"] ++ ["elevenlabs_voice_id"] ++ ["elevenlabs_api_key"]
       ++ ["settings"]).
    repeat (apply sublist_app; [first [done | apply when_set_keys]|]).
    destruct (truthy (project_id m)); [done|by apply sublist_nil_l].
Qed.

Lemma create_payload_own m k :
  own (create_payload m) k
  = if String.eqb k "name" then name m
    else if String.eqb k "slug" then slug m
    else if String.eqb k "timezone" then timezone m
    else if String.eqb k "meta_page_id" then or_else (meta_page_id m) VUndef
    else if String.eqb k "meta_phone_id" then or_else (meta_phone_id m) VUndef
    else if String.eqb k "meta_ig_id" then or_else (meta_ig_id m) VUndef
    else if String.eqb k "meta_waba_id" then or_else (meta_waba_id m) VUndef
    else if String.eqb k "meta_access_token" then or_else (meta_access_token m) VUndef
    else if String.eqb k "elevenlabs_agent_id" then or_else (elevenlabs_agent_id m) VUndef
    else if String.eqb k "elevenlabs_voice_id" then or_else (elevenlabs_voice_id m) VUndef
    else if String.eqb k "elevenlabs_api_key" then or_else (elevenlabs_api_key m) VUndef
    else VUndef.
Proof. unfold create_payload. rewrite own_literal; [done|by_compute]. Qed.

End PayloadFields.

(** X21.  What a save sends.  An update carries [name], [status] and
    [timezone], and of the other fields only those filled in; it never
    carries the slug, and the project id only inside [settings].  A creation
    carries [name], [slug] and [timezone] and the filled-in Meta and
    ElevenLabs fields; it never carries the status or the project id typed
    into the form.  So a secret left blank in the form is not part of the
    update, and the stored one is not overwritten.  Read by key: in both
    bodies [name] and [timezone] are the form's, as is [status] in an
    update and [slug] in a creation; each of the eight Meta and ElevenLabs
    keys holds the form's value when that is filled in and is absent
    otherwise; [settings] is in an update only, and is
    [{ project_id }] when the project id is filled in. *)
Theorem save_sends_only_filled_fields (m : AdminDashboard.ModalData) :
  let updated := Endpoints.spread (AdminDashboard.update_payload m) in
  let created := Endpoints.spread (AdminDashboard.create_payload m) in
  let optional :=
    [("meta_page_id", AdminDashboard.meta_page_id);
     ("meta_phone_id", AdminDashboard.meta_phone_id);
     ("meta_ig_id", AdminDashboard.meta_ig_id);
     ("meta_waba_id", AdminDashboard.meta_waba_id);
     ("meta_access_token", AdminDashboard.meta_access_token);
     ("elevenlabs_agent_id", AdminDashboard.elevenlabs_agent_id);
     ("elevenlabs_voice_id", AdminDashboard.elevenlabs_voice_id);
     ("elevenlabs_api_key", AdminDashboard.elevenlabs_api_key)] in
  updated.*1 `sublist_of`
    ["name"; "status"; "timezone"; "meta_page_id"; "meta_phone_id"; "meta_ig_id";
     "meta_waba_id"; "meta_access_token"; "elevenlabs_agent_id"; "elevenlabs_voice_id";
     "elevenlabs_api_key"; "settings"]
  /\ created.*1 `sublist_of`
       ["name"; "slug"; "timezone"; "meta_page_id"; "meta_phone_id"; "meta_ig_id";
        "meta_waba_id"; "meta_access_token"; "elevenlabs_agent_id";
        "elevenlabs_voice_id"; "elevenlabs_api_key"]
  /\ (forall k v, (k, v) ∈ updated -> k ∉ ["name"; "status"; "timezone"] ->
        truthy v = true)
  /\ (forall k v, (k, v) ∈ created -> k ∉ ["name"; "slug"; "timezone"] ->
        truthy v = true)
  /\ (truthy (AdminDashboard.meta_access_token m) = false ->
      own (AdminDashboard.update_payload m) "meta_access_token" = VUndef)
  /\ (truthy (AdminDashboard.elevenlabs_api_key m) = false ->
      own (AdminDashboard.update_payload m) "elevenlabs_api_key" = VUndef)
  /\ (truthy (AdminDashboard.project_id m) = true ->
      own (AdminDashboard.update_payload m) "settings"
      = VObj [("project_id", AdminDashboard.project_id m)])
  /\ (own (AdminDashboard.update_payload m) "name" = AdminDashboard.name m
      /\ own (AdminDashboard.update_payload m) "status" = AdminDashboard.status m
      /\ own (AdminDashboard.update_payload m) "timezone" = AdminDashboard.timezone m
      /\ (forall k field,
            (k, field) ∈ optional ->
            own (AdminDashboard.update_payload m) k
            = if truthy (field m) then field m else VUndef)
      /\ own (AdminDashboard.update_payload m) "settings"
         = (if truthy (AdminDashboard.project_id m)
            then VObj [("project_id", AdminDashboard.project_id m)] else VUndef)
      /\ own (AdminDashboard.update_payload m) "slug" = VUndef
      /\ own (AdminDashboard.update_payload m) "project_id" = VUndef)
  /\ (own (AdminDashboard.create_payload m) "name" = AdminDashboard.name m
      /\ own (AdminDashboard.create_payload m) "slug" = AdminDashboard.slug m
      /\ own (AdminDashboard.create_payload m) "timezone" = AdminDashboard.timezone m
      /\ (forall k field,
            (k, field) ∈ optional ->
            own (AdminDashboard.create_payload m) k
            = if truthy (field m) then field m else VUndef)
      /\ own (AdminDashboard.create_payload m) "status" = VUndef
      /\ own (AdminDashboard.create_payload m) "settings" = VUndef
      /\ own (AdminDashboard.create_payload m) "project_id" = VUndef)
  /\ NoDup updated.*1 /\ NoDup created.*1.
Proof.
  intros updated created optional.
  assert (NoDup updated.*1) as Hupdated.
  { eapply sublist_NoDup; [|apply update_payload_keys]. by_compute. }
  assert (NoDup created.*1) as Hcreated.
  { eapply sublist_NoDup; [|apply create_payload_keys]. by_compute. }
  split; [apply update_payload_keys|]. split; [apply create_payload_keys|].
  split; [apply update_payload_optional|]. split; [apply create_payload_optional|].
  split; [apply update_without_token|]. split; [apply update_without_api_key|].
  split; [|split; [|split; [|done]]].
  - intros Hp. rewrite update_payload_own. cbn. by rewrite Hp.
  - do 3 (split; [by rewrite update_payload_own|]).
    split; [|split; [|split]]; try by rewrite update_payload_own.
    intros k field Hin. rewrite update_payload_own.
    repeat (apply elem_of_cons in Hin as [[= -> ->]|Hin]; [done|]).
    by apply elem_of_nil in Hin.
  - do 3 (split; [by rewrite create_payload_own|]).
    split; [|split; [|split]]; try by rewrite create_payload_own.
    intros k field Hin. rewrite create_payload_own.
    repeat (apply elem_of_cons in Hin as [[= -> ->]|Hin]; [done|]).
    by apply elem_of_nil in Hin.
Qed.

(** Editing Pacific Surf: a page id is typed in, both secrets are left
    blank.  The update carries five keys, neither secret among them. *)
Lemma save_payload_witness :
  let m :=
    {| AdminDashboard.name := VStr "Pacific Surf";
       AdminDashboard.slug := VStr "pacific-surf";
       AdminDashboard.timezone := VStr "America/Sao_Paulo";
       AdminDashboard.status := VStr "active";
       AdminDashboard.meta_page_id := VStr "1029384756";
       AdminDashboard.meta_phone_id := VStr "";
       AdminDashboard.meta_ig_id := VStr "";
       AdminDashboard.meta_waba_id := VStr "";
       AdminDashboard.meta_access_token := VStr "";
       AdminDashboard.elevenlabs_agent_id := VStr "";
       AdminDashboard.elevenlabs_voice_id := VStr "";
       AdminDashboard.elevenlabs_api_key := VStr "";
       AdminDashboard.project_id := VStr "0624f30a" |} in
  Endpoints.spread (AdminDashboard.update_payload m)
  = [("name", VStr "Pacific Surf"); ("status", VStr "active");
     ("timezone", VStr "America/Sao_Paulo"); ("meta_page_id", VStr "1029384756");
     ("settings", VObj [("project_id", VStr "0624f30a")])]
  /\ own (AdminDashboard.update_payload m) "meta_access_token" = VUndef
  /\ own (AdminDashboard.update_payload m) "meta_page_id" = VStr "1029384756"
  /\ own (AdminDashboard.create_payload m) "slug" = VStr "pacific-surf"
  /\ own (AdminDashboard.create_payload m) "elevenlabs_api_key" = VUndef
  /\ own (AdminDashboard.create_payload m) "project_id" = VUndef.
Proof.
  intros m. split; [reflexivity|].
  destruct (save_sends_only_filled_fields m)
    as (_ & _ & _ & _ & Htoken & _ & _ & Hupdate & Hcreate & _).
  destruct Hupdate as (_ & _ & _ & Hfilled & _).
  destruct Hcreate as (_ & Hslug & _ & Hblank & _ & _ & Hproject).
  split; [exact (Htoken eq_refl)|].
  split; [exact (Hfilled "meta_page_id" AdminDashboard.meta_page_id
                   ltac:(apply list_elem_of_here))|].
  split; [exact Hslug|].
  split; [exact (Hblank "elevenlabs_api_key" AdminDashboard.elevenlabs_api_key
                   ltac:(do 7 apply list_elem_of_further; apply list_elem_of_here))
         |exact Hproject].
Defined.

(** ** The admin page: opening, saving, deleting *)

Section Admin.
Context `{Builtins}.
Import AdminDashboard.

Lemma loadClients_run replies b s :
  run replies loadClients b s
  = ([Api.add_token b (Api.defaults GET "/api/clients" [] None)],
     match Api.settle (hd silence replies) with
     | Return r => (b, setLoading false (setClients (Api.data r) s), Return tt)
     | Throw e =>
         (if Api.is_unauthorized e then navigate "/login" (removeItem "token" b) else b,
          setLoading false s, Return tt)
     end).
Proof.
  unfold loadClients, Api.get. run_steps.
  destruct (Api.settle _) as [r|e]; by run_steps.
Qed.

Lemma mount_no_user replies b s :
  Session.stored_user b = None ->
  run replies mount b s = ([], (navigate "/login" b, s, Return tt)).
Proof. intros Hu. unfold mount. run_steps. rewrite Hu. by run_steps. Qed.

Lemma mount_other replies b s user :
  Session.stored_user b = Some (Return user) -> nullish user = false ->
  is_str (own user "role") "admin" = false ->
  run replies mount b s = ([], (navigate "/dash" b, s, Return tt)).
Proof.
  intros Hu Hnull Hrole. unfold mount. run_steps. rewrite Hu. run_steps.
  rewrite get_not_nullish by done. run_steps. rewrite Hrole. by run_steps.
Qed.

Lemma mount_admin replies b s user :
  Session.stored_user b = Some (Return user) ->
  is_str (opt user "role") "admin" = true ->
  run replies mount b s
  = ([Api.add_token b (Api.defaults GET "/api/clients" [] None)],
     match Api.settle (hd silence replies) with
     | Return r =>
         (b, setLoading false (setClients (Api.data r) (setUser user s)), Return tt)
     | Throw e =>
         (if Api.is_unauthorized e then navigate "/login" (removeItem "token" b) else b,
          setLoading false (setUser user s), Return tt)
     end).
Proof.
  intros Hu Hrole. destruct (role_has_object _ _ Hrole) as [props ->].
  rewrite opt_own in Hrole by done.
  unfold mount. run_steps. rewrite Hu. run_steps.
  rewrite get_not_nullish by done. run_steps. rewrite Hrole. cbn [negb]. run_steps.
  pose proof (loadClients_run replies b (setUser (VObj props) s)) as Hload.
  destruct (run replies loadClients b (setUser (VObj props) s)) as [sent [[b1 s1] out]].
  injection Hload as -> Hrest. cbn [app]. f_equal.
  destruct (Api.settle _) as [r|e]; by injection Hrest as -> -> _.
Qed.

Lemma mount_asks replies b s sent b' s' out :
  run replies mount b s = (sent, (b', s', out)) -> sent <> [] ->
  exists admin,
    Session.stored_user b = Some (Return admin)
    /\ is_str (opt admin "role") "admin" = true
    /\ user s' = admin.
Proof.
  intros Hrun Hsent.
  destruct (Session.stored_user b) as [[admin|e]|] eqn:Hu.
  - destruct (nullish admin) eqn:Hnull.
    { revert Hrun. unfold mount. run_steps. rewrite Hu. run_steps.
      unfold get. rewrite Hnull. run_steps. by intros [= <- _ _ _]. }
    destruct (is_str (own admin "role") "admin") eqn:Hrole.
    + exists admin. split; [done|]. rewrite opt_own by done. split; [done|].
      rewrite (mount_admin replies b s admin) in Hrun by (by rewrite ?opt_own).
      destruct (Api.settle _); by injection Hrun as _ _ <- _.
    + rewrite (mount_other replies b s admin) in Hrun by done.
      by injection Hrun as <- _ _ _.
  - revert Hrun. unfold mount. run_steps. rewrite Hu. run_steps. by intros [= <- _ _ _].
  - rewrite mount_no_user in Hrun by done. by injection Hrun as <- _ _ _.
Qed.

End Admin.

(** X22.  The admin page asks for the list of clients only when the stored
    user is an administrator, and then once, with [GET /api/clients].
    Without a stored user it goes to [/login] and with any other role to
    [/dash], in both cases without a request.  The spinner stops whether or
    not the list arrives; when it does not, the list stays as it was. *)
Theorem admin_page_is_for_admins `{Builtins} (replies : list reply) (b : browser)
  (s : AdminDashboard.State) :
  (forall sent b' s' out,
     run replies AdminDashboard.mount b s = (sent, (b', s', out)) -> sent <> [] ->
     exists admin,
       Session.stored_user b = Some (Return admin)
       /\ is_str (opt admin "role") "admin" = true
       /\ AdminDashboard.user s' = admin)
  /\ (Session.stored_user b = None ->
      run replies AdminDashboard.mount b s = ([], (navigate "/login" b, s, Return tt)))
  /\ (forall user,
        Session.stored_user b = Some (Return user) -> nullish user = false ->
        is_str (own user "role") "admin" = false ->
        run replies AdminDashboard.mount b s = ([], (navigate "/dash" b, s, Return tt)))
  /\ (forall user,
        Session.stored_user b = Some (Return user) ->
        is_str (opt user "role") "admin" = true ->
        exists b' s',
          run replies AdminDashboard.mount b s
          = ([Api.add_token b (Api.defaults GET "/api/clients" [] None)],
             (b', s', Return tt))
          /\ AdminDashboard.loading s' = false
          /\ AdminDashboard.user s' = user
          /\ (forall r, Api.settle (hd silence replies) = Return r ->
                b' = b /\ AdminDashboard.clients s' = Api.data r)
          /\ (forall e, Api.settle (hd silence replies) = Throw e ->
                AdminDashboard.clients s' = AdminDashboard.clients s)).
Proof.
  split; [intros sent b' s' out; apply mount_asks|].
  split; [apply mount_no_user|]. split; [intros user; apply mount_other|].
  intros user Hu Hrole. rewrite (mount_admin replies b s user) by done.
  destruct (Api.settle _) as [r|e]; do 2 eexists; (split; [reflexivity|]);
    (split; [done|]); (split; [done|]); split; try done.
  by intros r' [= <-].
Qed.

(** The sample client-role user opens the admin page. *)
Lemma admin_page_witness :
  let b := setItem "user" "{client}" Sample.fresh_browser in
  run [] (AdminDashboard.mount (H := Sample.builtins)) b AdminDashboard.initial
  = ([], (navigate "/dash" b, AdminDashboard.initial, Return tt)).
Proof.
  intros b.
  destruct (admin_page_is_for_admins (H := Sample.builtins) [] b AdminDashboard.initial)
    as (_ & _ & Hother & _).
  exact (Hother Sample.client_user eq_refl eq_refl eq_refl).
Defined.

Section AdminActions.
Import AdminDashboard.

Lemma handleSave_invalid replies b s :
  truthy (name (modalData s)) && truthy (slug (modalData s)) = false ->
  run replies handleSave b s
  = ([], (b, setMessage (Some (Failure (VStr required_missing))) s, Return tt)).
Proof.
  intros Hv. unfold handleSave. run_steps.
  assert (negb (truthy (name (modalData s))) || negb (truthy (slug (modalData s))) = true)
    as ->.
  { by rewrite <- negb_andb, Hv. }
  by run_steps.
Qed.

Lemma handleSave_failed replies b s path e :
  truthy (name (modalData s)) && truthy (slug (modalData s)) = true ->
  (truthy (editingId s) = true -> to_string (editingId s) = Return path) ->
  Api.settle (hd silence replies) = Throw e ->
  run replies handleSave b s
  = ([Api.add_token b
        (if truthy (editingId s)
         then Api.defaults PATCH ("/api/clients/" +:+ path) []
                (Some (update_payload (modalData s)))
         else Api.defaults POST "/api/clients" [] (Some (create_payload (modalData s))))],
     (if Api.is_unauthorized e then navigate "/login" (removeItem "token" b) else b,
      setSaving false
        (setMessage (Some (Failure (or_else (Api.detail e) (VStr "Erro ao salvar"))))
           (setMessage None (setSaving true s))),
      Return tt)).
Proof.
  intros Hv Hpath Hx. unfold handleSave, Api.patch, Api.post. run_steps.
  assert (negb (truthy (name (modalData s))) || negb (truthy (slug (modalData s))) = false)
    as ->.
  { by rewrite <- negb_andb, Hv. }
  run_steps. destruct (truthy (editingId s)); run_steps.
  - rewrite Hpath by done. run_steps. rewrite Hx. by run_steps.
  - rewrite Hx. by run_steps.
Qed.

Lemma handleSave_saved replies b s path r :
  truthy (name (modalData s)) && truthy (slug (modalData s)) = true ->
  (truthy (editingId s) = true -> to_string (editingId s) = Return path) ->
  Api.settle (hd silence replies) = Return r ->
  exists b' s',
    run replies handleSave b s
    = ([Api.add_token b
          (if truthy (editingId s)
           then Api.defaults PATCH ("/api/clients/" +:+ path) []
                  (Some (update_payload (modalData s)))
           else Api.defaults POST "/api/clients" [] (Some (create_payload (modalData s))));
        Api.add_token b (Api.defaults GET "/api/clients" [] None)],
       (b', s', Return tt))
    /\ saving s' = false /\ modalData s' = modalData s /\ showModal s' = showModal s
    /\ message s'
       = Some (Success (VStr (if truthy (editingId s)
                              then "Cliente atualizado!" else "Cliente criado!")))
    /\ timeouts s' = timeouts s ++ [(800%N, CloseModal)]
    /\ loading s' = false.
Proof.
  intros Hv Hpath Hx.
  unfold handleSave, Api.patch, Api.post. run_steps.
  assert (negb (truthy (name (modalData s))) || negb (truthy (slug (modalData s))) = false)
    as ->.
  { by rewrite <- negb_andb, Hv. }
  run_steps. destruct (truthy (editingId s)); run_steps.
  - rewrite Hpath by done. run_steps. rewrite Hx. run_steps.
    rewrite loadClients_run.
    destruct (Api.settle (hd silence (drop 1 replies))); run_steps;
      do 2 eexists; (split; [reflexivity|]); by cbn.
  - rewrite Hx. run_steps.
    rewrite loadClients_run.
    destruct (Api.settle (hd silence (drop 1 replies))); run_steps;
      do 2 eexists; (split; [reflexivity|]); by cbn.
Qed.

End AdminActions.

(** X23.  Saving the form of the admin page.  Without a name or a slug
    nothing is sent and "Nome e slug sao obrigatorios" is shown.  Otherwise
    one request goes out: a PATCH of the client being edited, or a POST of a
    new one.  When it fails, nothing else is sent, the server's [detail] or
    "Erro ao salvar" is shown and the form stays open.  When it succeeds,
    the list of clients is fetched again, the success message is shown, and
    the form is set to close 800 ms later.  Either way the saving flag is
    down at the end and the form keeps what was typed. *)
Theorem save_is_checked_then_reported (replies : list reply) (b : browser)
  (s : AdminDashboard.State) (path : string) :
  let m := AdminDashboard.modalData s in
  let first :=
    if truthy (AdminDashboard.editingId s)
    then Api.defaults PATCH ("/api/clients/" +:+ path) []
           (Some (AdminDashboard.update_payload m))
    else Api.defaults POST "/api/clients" [] (Some (AdminDashboard.create_payload m)) in
  let done :=
    VStr (if truthy (AdminDashboard.editingId s)
          then "Cliente atualizado!" else "Cliente criado!") in
  (truthy (AdminDashboard.name m) && truthy (AdminDashboard.slug m) = false ->
     run replies AdminDashboard.handleSave b s
     = ([], (b, AdminDashboard.setMessage
                  (Some (AdminDashboard.Failure (VStr AdminDashboard.required_missing))) s,
             Return tt)))
  /\ (truthy (AdminDashboard.name m) && truthy (AdminDashboard.slug m) = true ->
      (truthy (AdminDashboard.editingId s) = true ->
       to_string (AdminDashboard.editingId s) = Return path) ->
      exists sent b' s',
        run replies AdminDashboard.handleSave b s
        = (Api.add_token b first :: sent, (b', s', Return tt))
        /\ AdminDashboard.saving s' = false
        /\ AdminDashboard.modalData s' = m
        /\ AdminDashboard.showModal s' = AdminDashboard.showModal s
        /\ (forall e, Api.settle (hd silence replies) = Throw e ->
              sent = []
              /\ AdminDashboard.message s'
                 = Some (AdminDashboard.Failure
                           (or_else (Api.detail e) (VStr "Erro ao salvar")))
              /\ AdminDashboard.timeouts s' = AdminDashboard.timeouts s
              /\ AdminDashboard.clients s' = AdminDashboard.clients s)
        /\ (forall r, Api.settle (hd silence replies) = Return r ->
              sent = [Api.add_token b (Api.defaults GET "/api/clients" [] None)]
              /\ AdminDashboard.message s' = Some (AdminDashboard.Success done)
              /\ AdminDashboard.timeouts s'
                 = AdminDashboard.timeouts s ++ [(800%N, AdminDashboard.CloseModal)]
              /\ AdminDashboard.loading s' = false)).
Proof.
  intros m first done'. split; [apply handleSave_invalid|].
  intros Hv Hpath. destruct (Api.settle (hd silence replies)) as [r|e] eqn:Hx.
  - destruct (handleSave_saved replies b s path r Hv Hpath Hx)
      as (b' & s' & Hrun & Hsaving & Hm & Hshow & Hmsg & Htime & Hload).
    do 3 eexists. split; [exact Hrun|]. do 3 (split; [done|]).
    split; [by intros e [=]|]. by intros r' _.
  - pose proof (handleSave_failed replies b s path e Hv Hpath Hx) as Hrun.
    do 3 eexists. split; [exact Hrun|]. do 3 (split; [done|]). split.
    + intros e' [= <-]. by repeat split.
    + by intros r [=].
Qed.

(** A new client is saved; the list comes back with it. *)
Lemma save_new_client_witness :
  let m := {| AdminDashboard.name := VStr "Pacific Surf";
              AdminDashboard.slug := VStr "pacific-surf";
              AdminDashboard.timezone := VStr "America/Sao_Paulo";
              AdminDashboard.status := VStr "active";
              AdminDashboard.meta_page_id := VStr ""; AdminDashboard.meta_phone_id := VStr "";
              AdminDashboard.meta_ig_id := VStr ""; AdminDashboard.meta_waba_id := VStr "";
              AdminDashboard.meta_access_token := VStr "";
              AdminDashboard.elevenlabs_agent_id := VStr "";
              AdminDashboard.elevenlabs_voice_id := VStr "";
              AdminDashboard.elevenlabs_api_key := VStr "";
              AdminDashboard.project_id := VStr "0624f30a" |} in
  let s := AdminDashboard.setModalData m AdminDashboard.initial in
  exists sent b' s',
    run [Sample.ok Examples.a_client; Sample.ok (VArr [Examples.a_client])]
        AdminDashboard.handleSave Sample.fresh_browser s
    = ({| method := POST; url := "/api/clients"; params := [];
          headers := [("Content-Type", "application/json")];
          body := Some (VObj [("name", VStr "Pacific Surf"); ("slug", VStr "pacific-surf");
                              ("timezone", VStr "America/Sao_Paulo")]) |} :: sent,
       (b', s', Return tt))
    /\ sent = [Api.defaults GET "/api/clients" [] None]
    /\ AdminDashboard.message s'
       = Some (AdminDashboard.Success (VStr "Cliente criado!"))
    /\ AdminDashboard.timeouts s' = [(800%N, AdminDashboard.CloseModal)].
Proof.
  intros m s.
  destruct (save_is_checked_then_reported
              [Sample.ok Examples.a_client; Sample.ok (VArr [Examples.a_client])]
              Sample.fresh_browser s "") as [_ Hvalid].
  destruct (Hvalid eq_refl ltac:(discriminate))
    as (sent & b' & s' & Hrun & _ & _ & _ & _ & Hok).
  destruct (Hok _ eq_refl) as (Hsent & Hmsg & Htime & _).
  exists sent, b', s'. split; [exact Hrun|]. split; [exact Hsent|].
  split; [exact Hmsg|exact Htime].
Defined.

Section AdminForm.
Import AdminDashboard.

(** The form [openEditModal] falls back on. *)
Let from_row (client : value) : ModalData :=
  {| name := own client "name"; slug := own client "slug";
     timezone := own client "timezone"; status := own client "status";
     meta_page_id := VStr ""; meta_phone_id := VStr ""; meta_ig_id := VStr "";
     meta_waba_id := VStr ""; meta_access_token := VStr "";
     elevenlabs_agent_id := VStr ""; elevenlabs_voice_id := VStr "";
     elevenlabs_api_key := VStr ""; project_id := VStr "" |}.

Let opened (id : value) (form : ModalData) (s : State) : State :=
  setShowModal true
    (setModalData form (setMessage None (setActiveTab "geral" (setEditingId id s)))).

Lemma openEditModal_fallback client id path replies b s e :
  get client "id" = Return id -> to_string id = Return path ->
  Api.settle (hd silence replies) = Throw e ->
  run replies (openEditModal client) b s
  = ([Api.add_token b (Api.defaults GET ("/api/clients/" +:+ path) [] None)],
     (if Api.is_unauthorized e then navigate "/login" (removeItem "token" b) else b,
      opened id (from_row client) s, Return tt)).
Proof.
  intros Hid Hpath Hx. apply get_own in Hid as Hc. destruct Hc as [Hc _].
  unfold openEditModal, Api.get. run_steps. rewrite Hid. run_steps.
  rewrite Hpath. run_steps. rewrite Hx. run_steps.
  rewrite !(get_not_nullish client) by done. by run_steps.
Qed.

Lemma openEditModal_no_path client id replies b s e :
  get client "id" = Return id -> to_string id = Throw e ->
  run replies (openEditModal client) b s
  = ([], (b, opened id (from_row client) s, Return tt)).
Proof.
  intros Hid Hpath. apply get_own in Hid as Hc. destruct Hc as [Hc _].
  unfold openEditModal, Api.get. run_steps. rewrite Hid. run_steps.
  rewrite Hpath. run_steps.
  rewrite !(get_not_nullish client) by done. by run_steps.
Qed.

Lemma openEditModal_empty client id path replies b s r :
  get client "id" = Return id -> to_string id = Return path ->
  Api.settle (hd silence replies) = Return r -> nullish (Api.data r) = true ->
  run replies (openEditModal client) b s
  = ([Api.add_token b (Api.defaults GET ("/api/clients/" +:+ path) [] None)],
     (b, opened id (from_row client) s, Return tt)).
Proof.
  intros Hid Hpath Hx Hnull. apply get_own in Hid as Hc. destruct Hc as [Hc _].
  unfold openEditModal, Api.get, field. run_steps. rewrite Hid. run_steps.
  rewrite Hpath. run_steps. rewrite Hx. run_steps.
  assert (get (Api.data r) "name" = Throw (cannot_read (Api.data r) "name")) as ->.
  { unfold get. by rewrite Hnull. }
  cbn [mbind result_bind bind]. run_steps.
  rewrite !(get_not_nullish client) by done. by run_steps.
Qed.

Lemma openEditModal_loaded client id path replies b s r :
  get client "id" = Return id -> to_string id = Return path ->
  Api.settle (hd silence replies) = Return r -> nullish (Api.data r) = false ->
  let c := Api.data r in
  run replies (openEditModal client) b s
  = ([Api.add_token b (Api.defaults GET ("/api/clients/" +:+ path) [] None)],
     (b,
      opened id
        {| name := or_else (own c "name") (VStr "");
           slug := or_else (own c "slug") (VStr "");
           timezone := or_else (own c "timezone") (VStr "America/Sao_Paulo");
           status := or_else (own c "status") (VStr "active");
           meta_page_id := or_else (own c "meta_page_id") (VStr "");
           meta_phone_id := or_else (own c "meta_phone_id") (VStr "");
           meta_ig_id := or_else (own c "meta_ig_id") (VStr "");
           meta_waba_id := or_else (own c "meta_waba_id") (VStr "");
           meta_access_token := VStr "";
           elevenlabs_agent_id := or_else (own c "elevenlabs_agent_id") (VStr "");
           elevenlabs_voice_id := or_else (own c "elevenlabs_voice_id") (VStr "");
           elevenlabs_api_key := VStr "";
           project_id := or_else (opt (own c "settings") "project_id") (VStr "") |} s,
      Return tt)).
Proof.
  intros Hid Hpath Hx Hnull c. subst c.
  unfold openEditModal, Api.get, field. run_steps. rewrite Hid. run_steps.
  rewrite Hpath. run_steps. rewrite Hx. run_steps.
  rewrite !(get_not_nullish (Api.data r)) by done.
  cbn [mbind result_bind bind]. by run_steps.
Qed.

End AdminForm.

(** X24.  Opening a client for editing asks the server for the full
    record with one GET and always ends with the form open on the first
    tab, whatever the server answers: when the record does not come, the
    form is filled from the row of the list.  The two secrets, the Meta
    access token and the ElevenLabs API key, are never filled in, so a save
    straight after opening sends neither. *)
Theorem edit_form_never_shows_secrets (client id : value) (replies : list reply)
  (b : browser) (s : AdminDashboard.State) :
  get client "id" = Return id ->
  exists sent b' s',
    run replies (AdminDashboard.openEditModal client) b s = (sent, (b', s', Return tt))
    /\ (forall path, to_string id = Return path ->
          sent = [Api.add_token b
                    (Api.defaults GET ("/api/clients/" +:+ path) [] None)])
    /\ AdminDashboard.showModal s' = true
    /\ AdminDashboard.editingId s' = id
    /\ AdminDashboard.activeTab s' = "geral"
    /\ AdminDashboard.message s' = None
    /\ AdminDashboard.meta_access_token (AdminDashboard.modalData s') = VStr ""
    /\ AdminDashboard.elevenlabs_api_key (AdminDashboard.modalData s') = VStr ""
    /\ own (AdminDashboard.update_payload (AdminDashboard.modalData s'))
           "meta_access_token" = VUndef
    /\ own (AdminDashboard.update_payload (AdminDashboard.modalData s'))
           "elevenlabs_api_key" = VUndef
    /\ (forall e, Api.settle (hd silence replies) = Throw e ->
          AdminDashboard.name (AdminDashboard.modalData s') = own client "name"
          /\ AdminDashboard.slug (AdminDashboard.modalData s') = own client "slug"
          /\ AdminDashboard.project_id (AdminDashboard.modalData s') = VStr "")
    /\ (forall r path,
          to_string id = Return path ->
          Api.settle (hd silence replies) = Return r -> nullish (Api.data r) = false ->
          AdminDashboard.name (AdminDashboard.modalData s')
          = or_else (own (Api.data r) "name") (VStr "")
          /\ AdminDashboard.timezone (AdminDashboard.modalData s')
             = or_else (own (Api.data r) "timezone") (VStr "America/Sao_Paulo")
          /\ AdminDashboard.project_id (AdminDashboard.modalData s')
             = or_else (opt (own (Api.data r) "settings") "project_id") (VStr "")).
Proof.
  intros Hid.
  assert (forall sent b' s',
            run replies (AdminDashboard.openEditModal client) b s = (sent, (b', s', Return tt)) ->
            AdminDashboard.meta_access_token (AdminDashboard.modalData s') = VStr "" ->
            AdminDashboard.elevenlabs_api_key (AdminDashboard.modalData s') = VStr "" ->
            own (AdminDashboard.update_payload (AdminDashboard.modalData s'))
                "meta_access_token" = VUndef
            /\ own (AdminDashboard.update_payload (AdminDashboard.modalData s'))
                   "elevenlabs_api_key" = VUndef) as Hsecrets.
  { intros sent b' s' _ Htok Hkey. split.
    - apply update_without_token. by rewrite Htok.
    - apply update_without_api_key. by rewrite Hkey. }
  destruct (to_string id) as [path|e0] eqn:Hpath.
  - destruct (Api.settle (hd silence replies)) as [r|e] eqn:Hx.
    + destruct (nullish (Api.data r)) eqn:Hnull.
      * pose proof (openEditModal_empty client id path replies b s r Hid Hpath Hx Hnull)
          as Hrun.
        do 3 eexists. split; [exact Hrun|].
        split; [by intros ? [= <-]|]. do 6 (split; [done|]).
        destruct (Hsecrets _ _ _ Hrun eq_refl eq_refl) as [? ?].
        do 2 (split; [done|]). split; [by intros e [=]|].
        intros r' path' _ [= <-]. by rewrite Hnull.
      * pose proof (openEditModal_loaded client id path replies b s r Hid Hpath Hx Hnull)
          as Hrun.
        cbv zeta in Hrun. do 3 eexists. split; [exact Hrun|].
        split; [by intros ? [= <-]|]. do 6 (split; [done|]).
        destruct (Hsecrets _ _ _ Hrun eq_refl eq_refl) as [? ?].
        do 2 (split; [done|]). split; [by intros e [=]|].
        by intros r' path' _ [= <-] _.
    + pose proof (openEditModal_fallback client id path replies b s e Hid Hpath Hx)
        as Hrun.
      do 3 eexists. split; [exact Hrun|].
      split; [by intros ? [= <-]|]. do 6 (split; [done|]).
      destruct (Hsecrets _ _ _ Hrun eq_refl eq_refl) as [? ?].
      do 2 (split; [done|]). split; [by intros e' _|].
      by intros r' path' _ [=].
  - pose proof (openEditModal_no_path client id replies b s e0 Hid Hpath) as Hrun.
    do 3 eexists. split; [exact Hrun|].
    split; [by intros ? [=]|]. do 6 (split; [done|]).
    destruct (Hsecrets _ _ _ Hrun eq_refl eq_refl) as [? ?].
    do 2 (split; [done|]). split; [by intros e' _|].
    by intros r' path' [=].
Qed.

(** The record of Pacific Surf arrives with a stored token in it; the form
    does not take it over. *)
Lemma edit_form_witness :
  let full := VObj [("id", VStr "c-42"); ("name", VStr "Pacific Surf");
                    ("slug", VStr "pacific-surf"); ("meta_access_token", VStr "EAAB-secret");
                    ("settings", VObj [("project_id", VStr "0624f30a")])] in
  exists sent b' s',
    run [Sample.ok full] (AdminDashboard.openEditModal Examples.a_client)
        Sample.fresh_browser AdminDashboard.initial
    = (sent, (b', s', Return tt))
    /\ sent = [Api.defaults GET "/api/clients/c-42" [] None]
    /\ AdminDashboard.showModal s' = true
    /\ AdminDashboard.meta_access_token (AdminDashboard.modalData s') = VStr ""
    /\ AdminDashboard.project_id (AdminDashboard.modalData s') = VStr "0624f30a".
Proof.
  intros full.
  destruct (edit_form_never_shows_secrets Examples.a_client (VStr "c-42")
              [Sample.ok full] Sample.fresh_browser AdminDashboard.initial eq_refl)
    as (sent & b' & s' & Hrun & Hsent & Hshow & _ & _ & _ & Htok & _ & _ & _ & _ & Hfull).
  destruct (Hfull _ "c-42" eq_refl eq_refl eq_refl) as (_ & _ & Hproject).
  exists sent, b', s'. split; [exact Hrun|]. split; [exact (Hsent "c-42" eq_refl)|].
  split; [exact Hshow|]. split; [exact Htok|exact Hproject].
Defined.

Section AdminLinks.
Import AdminDashboard.
Variable origin : string.

Let create_portal (projectId : value) : request :=
  Api.defaults POST "/api/live/create-portal" [] (Some (VObj [("project_id", projectId)])).

Lemma portal_no_project allowed client settings replies b s :
  get client "settings" = Return settings ->
  truthy (opt settings "project_id") = false ->
  run replies (handleGeneratePortal origin allowed client) b s
  = ([], (b, alert (VStr no_project) s, Return tt)).
Proof.
  intros Hs Hp. unfold handleGeneratePortal. run_steps. rewrite Hs. run_steps.
  rewrite Hp. by run_steps.
Qed.

Lemma portal_refused allowed client settings replies b s e :
  get client "settings" = Return settings ->
  truthy (opt settings "project_id") = true ->
  Api.settle (hd silence replies) = Throw e ->
  run replies (handleGeneratePortal origin allowed client) b s
  = ([Api.add_token b (create_portal (opt settings "project_id"))],
     (if Api.is_unauthorized e then navigate "/login" (removeItem "token" b) else b,
      alert (match Api.detail e with
             | VStr d => VStr d
             | _ => VStr "Erro ao gerar portal"
             end) s,
      Return tt)).
Proof.
  intros Hs Hp Hx. unfold handleGeneratePortal, Api.post. run_steps. rewrite Hs. run_steps.
  rewrite Hp. cbn [negb]. run_steps. rewrite Hx. run_steps.
  by destruct (Api.detail e).
Qed.

Lemma portal_copied client settings replies b s r token text :
  get client "settings" = Return settings ->
  truthy (opt settings "project_id") = true ->
  Api.settle (hd silence replies) = Return r ->
  get (Api.data r) "token" = Return token -> to_string token = Return text ->
  run replies (handleGeneratePortal origin true client) b s
  = ([Api.add_token b (create_portal (opt settings "project_id"))],
     (b, setTimeout ClearCopied 2000
           (setCopiedId (own client "id")
              (setClipboard (origin +:+ "/live/" +:+ text) s)),
      Return tt)).
Proof.
  intros Hs Hp Hx Htok Htext. apply get_own in Hs as Hc. destruct Hc as [Hc _].
  unfold handleGeneratePortal, writeText, Api.post. run_steps. rewrite Hs. run_steps.
  rewrite Hp. cbn [negb]. run_steps. rewrite Hx. run_steps. rewrite Htok. run_steps.
  rewrite Htext. run_steps. rewrite get_not_nullish by done. by run_steps.
Qed.

Lemma portal_not_copied client settings replies b s r token text :
  get client "settings" = Return settings ->
  truthy (opt settings "project_id") = true ->
  Api.settle (hd silence replies) = Return r ->
  get (Api.data r) "token" = Return token -> to_string token = Return text ->
  run replies (handleGeneratePortal origin false client) b s
  = ([Api.add_token b (create_portal (opt settings "project_id"))],
     (b, alert (VStr "Erro ao gerar portal") s, Return tt)).
Proof.
  intros Hs Hp Hx Htok Htext.
  unfold handleGeneratePortal, writeText, Api.post. run_steps. rewrite Hs. run_steps.
  rewrite Hp. cbn [negb]. run_steps. rewrite Hx. run_steps. rewrite Htok. run_steps.
  rewrite Htext. by run_steps.
Qed.

Lemma handleDelete_done clientId path replies b s r :
  to_string clientId = Return path ->
  Api.settle (hd silence replies) = Return r ->
  run replies (handleDelete clientId) b s
  = ([Api.add_token b (Api.defaults DELETE ("/api/clients/" +:+ path) [] None);
      Api.add_token b (Api.defaults GET "/api/clients" [] None)],
     match Api.settle (hd silence (drop 1 replies)) with
     | Return r2 =>
         (b, setLoading false (setClients (Api.data r2) (setDeleteId VNull s)), Return tt)
     | Throw e =>
         (if Api.is_unauthorized e then navigate "/login" (removeItem "token" b) else b,
          setLoading false (setDeleteId VNull s), Return tt)
     end).
Proof.
  intros Hpath Hx. unfold handleDelete, Endpoints.api_delete. run_steps.
  rewrite Hpath. run_steps. rewrite Hx. run_steps. rewrite loadClients_run.
  destruct (Api.settle (hd silence (drop 1 replies))); by run_steps.
Qed.

Lemma handleDelete_failed clientId path replies b s e :
  to_string clientId = Return path ->
  Api.settle (hd silence replies) = Throw e ->
  run replies (handleDelete clientId) b s
  = ([Api.add_token b (Api.defaults DELETE ("/api/clients/" +:+ path) [] None)],
     (if Api.is_unauthorized e then navigate "/login" (removeItem "token" b) else b,
      alert (or_else (Api.detail e) (VStr "Erro ao excluir")) s, Return tt)).
Proof.
  intros Hpath Hx. unfold handleDelete, Endpoints.api_delete. run_steps.
  rewrite Hpath. run_steps. rewrite Hx. by run_steps.
Qed.

End AdminLinks.

(** X25.  Generating a portal link for a client.  A client without a
    project id gets an alert and no request is sent.  Otherwise one POST to
    [/api/live/create-portal] carries the project id.  With a token in the
    answer and the clipboard available, the link copied is the origin, then
    [/live/], then the token; the client's row is marked as copied and the
    mark is set to clear 2000 ms later.  When the clipboard refuses, or the
    request fails, nothing is marked: an alert shows the server's [detail]
    when it is a string and "Erro ao gerar portal" otherwise. *)
Theorem portal_link_is_copied_or_reported (origin : string) (client settings : value)
  (replies : list reply) (b : browser) (s : AdminDashboard.State) :
  get client "settings" = Return settings ->
  let projectId := opt settings "project_id" in
  let asked :=
    Api.add_token b
      (Api.defaults POST "/api/live/create-portal" []
         (Some (VObj [("project_id", projectId)]))) in
  (truthy projectId = false ->
     forall allowed,
       run replies (AdminDashboard.handleGeneratePortal origin allowed client) b s
       = ([], (b, AdminDashboard.alert (VStr AdminDashboard.no_project) s, Return tt)))
  /\ (truthy projectId = true ->
      (forall e allowed,
         Api.settle (hd silence replies) = Throw e ->
         exists b' text,
           run replies (AdminDashboard.handleGeneratePortal origin allowed client) b s
           = ([asked], (b', AdminDashboard.alert (VStr text) s, Return tt))
           /\ (forall d, Api.detail e = VStr d -> text = d)
           /\ ((forall d, Api.detail e <> VStr d) -> text = "Erro ao gerar portal"))
      /\ (forall r token text,
            Api.settle (hd silence replies) = Return r ->
            get (Api.data r) "token" = Return token -> to_string token = Return text ->
            run replies (AdminDashboard.handleGeneratePortal origin true client) b s
            = ([asked],
               (b, AdminDashboard.setTimeout AdminDashboard.ClearCopied 2000
                     (AdminDashboard.setCopiedId (own client "id")
                        (AdminDashboard.setClipboard (origin +:+ "/live/" +:+ text) s)),
                Return tt))
            /\ run replies (AdminDashboard.handleGeneratePortal origin false client) b s
               = ([asked],
                  (b, AdminDashboard.alert (VStr "Erro ao gerar portal") s, Return tt)))).
Proof.
  intros Hs projectId asked. split.
  - intros Hp allowed. by apply (portal_no_project origin allowed client settings).
  - intros Hp. split.
    + intros e allowed Hx.
      pose proof (portal_refused origin allowed client settings replies b s e Hs Hp Hx)
        as Hrun.
      destruct (Api.detail e) as [| | | |d| |] eqn:Hd;
        do 2 eexists; (split; [exact Hrun|]); split; try done.
      * by intros d' [= <-].
      * intros Hne. by destruct (Hne d).
    + intros r token text Hx Htok Htext. split.
      * by apply (portal_copied origin client settings replies b s r token text).
      * by apply (portal_not_copied origin client settings replies b s r token text).
Qed.

(** The link for Pacific Surf. *)
Lemma portal_link_witness :
  run [Sample.ok (VObj [("token", VStr "ptl-9")])]
      (AdminDashboard.handleGeneratePortal "https://app.superbot.digital" true
         Examples.a_client)
      Sample.fresh_browser AdminDashboard.initial
  = ([ {| method := POST; url := "/api/live/create-portal"; params := [];
          headers := [("Content-Type", "application/json")];
          body := Some (VObj [("project_id", VStr "0624f30a")]) |} ],
     (Sample.fresh_browser,
      AdminDashboard.setTimeout AdminDashboard.ClearCopied 2000
        (AdminDashboard.setCopiedId (VStr "c-42")
           (AdminDashboard.setClipboard "https://app.superbot.digital/live/ptl-9"
              AdminDashboard.initial)),
      Return tt)).
Proof.
  destruct (portal_link_is_copied_or_reported "https://app.superbot.digital"
              Examples.a_client _ [Sample.ok (VObj [("token", VStr "ptl-9")])]
              Sample.fresh_browser AdminDashboard.initial eq_refl) as [_ Hproject].
  destruct (Hproject eq_refl) as [_ Hok].
  destruct (Hok _ (VStr "ptl-9") "ptl-9" eq_refl eq_refl eq_refl) as [Hcopied _].
  exact Hcopied.
Defined.

(** X26.  Deleting a client is one DELETE of [/api/clients/] followed by
    the id.  When it succeeds the confirmation closes and the list is
    fetched again; when it fails the confirmation stays open, the list is
    not fetched, and an alert shows the server's [detail] or "Erro ao
    excluir". *)
Theorem delete_reloads_or_alerts (clientId : value) (path : string)
  (replies : list reply) (b : browser) (s : AdminDashboard.State) :
  to_string clientId = Return path ->
  let asked :=
    Api.add_token b (Api.defaults DELETE ("/api/clients/" +:+ path) [] None) in
  (forall r, Api.settle (hd silence replies) = Return r ->
     exists b' s',
       run replies (AdminDashboard.handleDelete clientId) b s
       = ([asked; Api.add_token b (Api.defaults GET "/api/clients" [] None)],
          (b', s', Return tt))
       /\ AdminDashboard.deleteId s' = VNull
       /\ AdminDashboard.alerts s' = AdminDashboard.alerts s
       /\ AdminDashboard.loading s' = false
       /\ (forall r2, Api.settle (hd silence (drop 1 replies)) = Return r2 ->
             AdminDashboard.clients s' = Api.data r2))
  /\ (forall e, Api.settle (hd silence replies) = Throw e ->
        exists b',
          run replies (AdminDashboard.handleDelete clientId) b s
          = ([asked],
             (b', AdminDashboard.alert (or_else (Api.detail e) (VStr "Erro ao excluir")) s,
              Return tt))).
Proof.
  intros Hpath asked. split.
  - intros r Hx. rewrite (handleDelete_done clientId path replies b s r) by done.
    destruct (Api.settle (hd silence (drop 1 replies))) as [r2|e2];
      do 2 eexists; (split; [reflexivity|]); do 3 (split; [done|]).
    + by intros r' [= <-].
    + by intros r' [=].
  - intros e Hx. eexists. by apply handleDelete_failed.
Qed.

(** The server refuses to delete a client that still has conversations. *)
Lemma delete_refused_witness :
  exists b',
    run [Sample.refused 409 "Cliente possui conversas"]
        (AdminDashboard.handleDelete (VStr "c-42")) Sample.fresh_browser
        AdminDashboard.initial
    = ([Api.defaults DELETE "/api/clients/c-42" [] None],
       (b', AdminDashboard.alert (VStr "Cliente possui conversas") AdminDashboard.initial,
        Return tt)).
Proof.
  destruct (delete_reloads_or_alerts (VStr "c-42") "c-42"
              [Sample.refused 409 "Cliente possui conversas"] Sample.fresh_browser
              AdminDashboard.initial eq_refl) as [_ Hfail].
  exact (Hfail _ eq_refl).
Defined.

(** ** [slugify] *)

Section SlugText.
Import Slug.

Lemma slug_char_not_hyphen u : is_slug_char u = true -> u <> hyphen.
Proof. intros Hu ->. by vm_compute in Hu. Qed.

Lemma slug_unit_not_mark u :
  is_slug_char u = true \/ u = hyphen -> is_mark u = false.
Proof.
  unfold is_slug_char, is_mark, hyphen. intros [Hu| ->]; [|done].
  destruct (N.leb_spec 768 u); [|done]. cbn.
  apply orb_true_iff in Hu as [Hu|Hu]; apply andb_true_iff in Hu as [_ Hu];
    apply N.leb_le in Hu; lia.
Qed.

Lemma hyphenate_units r t :
  Forall (fun u => is_slug_char u = true \/ u = hyphen) (hyphenate r t).
Proof.
  revert r. induction t as [|u t IH]; intros r; cbn; [constructor|].
  destruct (is_slug_char u) eqn:Hu; [constructor; auto|].
  destruct r; [apply IH|constructor; auto].
Qed.

Lemma hyphenate_run_head t : head (hyphenate true t) <> Some hyphen.
Proof.
  induction t as [|u t IH]; cbn; [done|].
  destruct (is_slug_char u) eqn:Hu; [|done].
  cbn. intros [= ->]. by vm_compute in Hu.
Qed.

Lemma hyphenate_no_double r t i :
  hyphenate r t !! i = Some hyphen -> hyphenate r t !! S i <> Some hyphen.
Proof.
  revert r i. induction t as [|u t IH]; intros r i; cbn; [done|].
  destruct (is_slug_char u) eqn:Hu.
  - destruct i as [|i]; cbn; [|apply IH].
    intros [= ->]. by vm_compute in Hu.
  - destruct r; [apply IH|]. destruct i as [|i]; cbn; [|apply IH].
    intros _ Hnext. apply (hyphenate_run_head t). rewrite head_lookup. exact Hnext.
Qed.

Lemma trim_start_spec t :
  (exists rest, t = hyphen :: rest /\ trim_start t = rest)
  \/ (head t <> Some hyphen /\ trim_start t = t).
Proof.
  destruct t as [|u rest]; cbn; [by right|].
  destruct (N.eqb_spec u hyphen) as [->|Hne]; [left; by eauto|].
  right. split; [|done]. by intros [= ->].
Qed.

Lemma trim_end_spec t :
  (exists front, t = front ++ [hyphen] /\ trim_end t = front)
  \/ (last t <> Some hyphen /\ trim_end t = t).
Proof.
  unfold trim_end. destruct (reverse t) as [|u rest] eqn:Hr.
  - apply (f_equal reverse) in Hr. rewrite reverse_involutive in Hr. subst t. by right.
  - assert (t = reverse rest ++ [u]) as Ht.
    { rewrite <- (reverse_involutive t), Hr. by rewrite reverse_cons. }
    destruct (N.eqb_spec u hyphen) as [->|Hne]; [left; by eauto|].
    right. split; [|done]. rewrite Ht, last_snoc. by intros [= ->].
Qed.

Lemma hyphenate_fixed r s :
  Forall (fun u => is_slug_char u = true \/ u = hyphen) s ->
  (forall i, s !! i = Some hyphen -> s !! S i <> Some hyphen) ->
  (r = true -> head s <> Some hyphen) ->
  hyphenate r s = s.
Proof.
  revert r. induction s as [|u s IH]; intros r Hall Hno Hhead; [done|].
  apply Forall_cons in Hall as [Hu Hall]. cbn.
  destruct (is_slug_char u) eqn:Hslug.
  - f_equal. apply IH; [done| |done]. intros i. apply (Hno (S i)).
  - destruct Hu as [?| ->]; [done|].
    destruct r; [by destruct Hhead|].
    f_equal. apply IH; [done| |].
    + intros i. apply (Hno (S i)).
    + intros _. rewrite head_lookup. by apply (Hno 0).
Qed.

(** What the three replacements leave of any text. *)
Lemma trimmed_is_slug x :
  let s := trim_end (trim_start (hyphenate false x)) in
  Forall (fun u => is_slug_char u = true \/ u = hyphen) s
  /\ head s <> Some hyphen
  /\ last s <> Some hyphen
  /\ (forall i, s !! i = Some hyphen -> s !! S i <> Some hyphen).
Proof.
  intros s. subst s.
  pose proof (hyphenate_units false x) as Hall.
  pose proof (hyphenate_no_double false x) as Hno.
  set (h := hyphenate false x) in *. clearbody h.
  assert (Forall (fun u => is_slug_char u = true \/ u = hyphen) (trim_start h)
          /\ head (trim_start h) <> Some hyphen
          /\ (forall i, trim_start h !! i = Some hyphen ->
                trim_start h !! S i <> Some hyphen)) as (Hall' & Hhead' & Hno').
  { destruct (trim_start_spec h) as [(rest & -> & ->)|[Hhead ->]]; [|done].
    apply Forall_cons in Hall as [_ Hall]. split; [done|]. split.
    - rewrite head_lookup. by apply (Hno 0).
    - intros i. apply (Hno (S i)). }
  set (a := trim_start h) in *. clearbody a. clear h Hall Hno.
  destruct (trim_end_spec a) as [(front & -> & ->)|[Hlast ->]]; [|done].
  apply Forall_app in Hall' as [Hall' _]. split; [done|]. split; [|split].
  - destruct front; [done|]. done.
  - intros Hlast. apply last_Some in Hlast as [front' ->].
    apply (Hno' (length front')).
    + rewrite <- app_assoc. cbn [app]. by apply list_lookup_middle.
    + rewrite <- app_assoc. cbn [app]. unfold text.
      rewrite lookup_app_r by lia.
      by replace (S (length front') - length front') with 1 by lia.
  - intros i Hi Hnext. apply (Hno' i).
    + by apply lookup_app_l_Some.
    + by apply lookup_app_l_Some.
Qed.

Lemma trimmed_fixed s :
  Forall (fun u => is_slug_char u = true \/ u = hyphen) s ->
  head s <> Some hyphen -> last s <> Some hyphen ->
  (forall i, s !! i = Some hyphen -> s !! S i <> Some hyphen) ->
  trim_end (trim_start (hyphenate false (strip_marks s))) = s.
Proof.
  intros Hall Hhead Hlast Hno.
  assert (strip_marks s = s) as ->.
  { unfold strip_marks, text. clear Hhead Hlast Hno.
    induction Hall as [|u s Hu _ IH]; [done|].
    rewrite filter_cons, decide_True; [by rewrite IH|].
    by rewrite slug_unit_not_mark. }
  rewrite hyphenate_fixed by done.
  destruct (trim_start_spec s) as [(rest & -> & _)|[_ ->]]; [done|].
  destruct (trim_end_spec s) as [(front & -> & _)|[_ ->]]; [|done].
  by rewrite last_snoc in Hlast.
Qed.

End SlugText.

(** X27.  Whatever is typed as a name, the slug made of it consists of
    lower-case letters, digits and hyphens only, does not begin or end with
    a hyphen, and has no two hyphens in a row.  Making a slug of a slug
    changes nothing, provided lower-casing and NFD normalisation leave text
    of that alphabet alone, as they do. *)
Theorem slugify_gives_a_slug `{Slug.Unicode} (t : Slug.text) :
  let s := Slug.slugify t in
  Forall (fun u => Slug.is_slug_char u = true \/ u = Slug.hyphen) s
  /\ head s <> Some Slug.hyphen
  /\ last s <> Some Slug.hyphen
  /\ (forall i, s !! i = Some Slug.hyphen -> s !! S i <> Some Slug.hyphen)
  /\ ((forall x, Forall (fun u => Slug.is_slug_char u = true \/ u = Slug.hyphen) x ->
         Slug.toLowerCase x = x /\ Slug.normalize_NFD x = x) ->
      Slug.slugify s = s).
Proof.
  intros s. subst s. unfold Slug.slugify at 1 2 3 4 5 6.
  destruct (trimmed_is_slug (Slug.strip_marks (Slug.normalize_NFD (Slug.toLowerCase t))))
    as (Hall & Hhead & Hlast & Hno).
  do 4 (split; [done|]).
  intros Hfix. unfold Slug.slugify.
  set (s := Slug.trim_end _) in *. clearbody s.
  destruct (Hfix s Hall) as [-> ->]. by apply trimmed_fixed.
Qed.

Lemma lower_unit_fixed (x : Slug.text) :
  Forall (fun u => Slug.is_slug_char u = true \/ u = Slug.hyphen) x ->
  map Examples.lower_unit x = x.
Proof.
  induction 1 as [|u x Hu _ IH]; [done|]. cbn. rewrite IH. f_equal.
  unfold Examples.lower_unit, Slug.is_slug_char, Slug.hyphen in *.
  destruct Hu as [Hu| ->]; [|done].
  destruct (N.leb_spec 65 u); [|done]. destruct (N.leb_spec u 90); [|done]. cbn.
  apply orb_true_iff in Hu as [Hu|Hu]; apply andb_true_iff in Hu as [Hlo Hhi];
    apply N.leb_le in Hlo, Hhi; lia.
Qed.

(** The slug of a name with capitals, spaces and punctuation. *)
Lemma slugify_witness :
  let s := Slug.slugify (H := Examples.unicode) (Examples.units "  Pacific Surf & Co.") in
  s = Examples.units "pacific-surf-co"
  /\ Slug.slugify (H := Examples.unicode) s = s.
Proof.
  intros s. split; [by vm_compute|].
  destruct (slugify_gives_a_slug (H := Examples.unicode)
              (Examples.units "  Pacific Surf & Co.")) as (_ & _ & _ & _ & Hfix).
  apply Hfix. intros x Hx. split; [by apply lower_unit_fixed|done].
Defined.

(** ** The language of the dashboard *)

Lemma lookup_set_prop k k' v props :
  lookup_prop k (set_prop k' v props)
  = if String.eqb k k' then v else lookup_prop k props.
Proof.
  induction props as [|[k0 v0] props IH]; cbn.
  - by destruct (String.eqb k k').
  - destruct (String.eqb_spec k' k0) as [->|Hne]; cbn.
    + by destruct (String.eqb k k0).
    + rewrite IH. destruct (String.eqb_spec k k0) as [->|]; [|done].
      destruct (String.eqb_spec k0 k'); [congruence|done].
Qed.

Section Language.
Context `{Builtins}.
Variable common_error : string.
Import ConfigIndex.

Lemma saveDashboardLanguage_idle newLocale replies b s :
  truthy (tenantId s) = false ->
  run replies (saveDashboardLanguage common_error newLocale) b s = ([], (b, s, Return tt)).
Proof.
  intros Ht. unfold saveDashboardLanguage. run_steps. rewrite Ht. by run_steps.
Qed.

Lemma saveDashboardLanguage_unread newLocale replies b s tenant e :
  tenantId s = VStr tenant -> tenant <> "" ->
  Api.settle (hd silence replies) = Throw e ->
  run replies (saveDashboardLanguage common_error newLocale) b s
  = ([Api.add_token b (Api.defaults GET ("/api/clients/" +:+ tenant) [] None)],
     (if Api.is_unauthorized e then navigate "/login" (removeItem "token" b) else b,
      setSavingLang false
        (setMessage
           (Some (AdminDashboard.Failure (or_else (Api.detail e) (VStr common_error))))
           (setMessage None (setSavingLang true s))),
      Return tt)).
Proof.
  intros Ht Hne Hx. apply truthy_text in Hne.
  unfold saveDashboardLanguage, Endpoints.clientsAPI_get, Api.get. run_steps.
  rewrite Ht, Hne. cbn [negb to_string]. run_steps. rewrite Hx. by run_steps.
Qed.

Lemma saveDashboardLanguage_unsaved newLocale replies b s tenant r e :
  tenantId s = VStr tenant -> tenant <> "" ->
  Api.settle (hd silence replies) = Return r ->
  Api.settle (hd silence (drop 1 replies)) = Throw e ->
  run replies (saveDashboardLanguage common_error newLocale) b s
  = ([Api.add_token b (Api.defaults GET ("/api/clients/" +:+ tenant) [] None);
      Api.add_token b
        (Api.defaults PATCH ("/api/clients/" +:+ tenant) []
           (Some (language_payload
                    (or_else (opt (Api.data r) "settings") (VObj [])) newLocale)))],
     (if Api.is_unauthorized e then navigate "/login" (removeItem "token" b) else b,
      setSavingLang false
        (setMessage
           (Some (AdminDashboard.Failure (or_else (Api.detail e) (VStr common_error))))
           (setMessage None (setSavingLang true s))),
      Return tt)).
Proof.
  intros Ht Hne Hx Hy. apply truthy_text in Hne.
  unfold saveDashboardLanguage, Endpoints.clientsAPI_get, Endpoints.clientsAPI_update,
    Api.get, Api.patch.
  run_steps. rewrite Ht, Hne. cbn [negb to_string]. run_steps. rewrite Hx. run_steps.
  rewrite Hy. by run_steps.
Qed.

Lemma saveDashboardLanguage_saved newLocale replies b s tenant r r2 key :
  tenantId s = VStr tenant -> tenant <> "" ->
  Api.settle (hd silence replies) = Return r ->
  Api.settle (hd silence (drop 1 replies)) = Return r2 ->
  I18n.savedKey (I18n.resolveTenantId b) = Return key ->
  run replies (saveDashboardLanguage common_error newLocale) b s
  = ([Api.add_token b (Api.defaults GET ("/api/clients/" +:+ tenant) [] None);
      Api.add_token b
        (Api.defaults PATCH ("/api/clients/" +:+ tenant) []
           (Some (language_payload
                    (or_else (opt (Api.data r) "settings") (VObj [])) newLocale)))],
     (setItem "locale" newLocale (setItem key newLocale b),
      setSavingLang false
        (setMessage (Some (AdminDashboard.Success (VStr "Language updated")))
           (setLocaleState (VStr newLocale) (setMessage None (setSavingLang true s)))),
      Return tt)).
Proof.
  intros Ht Hne Hx Hy Hkey. apply truthy_text in Hne.
  unfold saveDashboardLanguage, Endpoints.clientsAPI_get, Endpoints.clientsAPI_update,
    Api.get, Api.patch.
  run_steps. rewrite Ht, Hne. cbn [negb to_string]. run_steps. rewrite Hx. run_steps.
  rewrite Hy. run_steps. rewrite (setLocale_run newLocale _ b _ key Hkey). by run_steps.
Qed.

End Language.

(** X28.  Choosing the dashboard language on the settings page.  Without
    a tenant nothing happens.  Otherwise the tenant's record is read and
    then patched with its settings as they were, only [locale] replaced; no
    other setting is lost.  Only when both requests succeed is the language
    of the session changed and written to local storage; when either fails,
    the language and the stored locale stay as they were and the server's
    [detail], or the common error text, is shown. *)
Theorem language_is_saved_then_applied `{Builtins} (common_error newLocale : string)
  (replies : list reply) (b : browser) (s : ConfigIndex.State) :
  let go := ConfigIndex.saveDashboardLanguage common_error newLocale in
  (truthy (ConfigIndex.tenantId s) = false -> run replies go b s = ([], (b, s, Return tt)))
  /\ (forall tenant,
        ConfigIndex.tenantId s = VStr tenant -> tenant <> "" ->
        let read :=
          Api.add_token b (Api.defaults GET ("/api/clients/" +:+ tenant) [] None) in
        (forall e, Api.settle (hd silence replies) = Throw e ->
           exists b' s',
             run replies go b s = ([read], (b', s', Return tt))
             /\ ConfigIndex.locale s' = ConfigIndex.locale s
             /\ (forall k, k <> "token" -> getItem k b' = getItem k b)
             /\ ConfigIndex.savingLang s' = false
             /\ ConfigIndex.message s'
                = Some (AdminDashboard.Failure
                          (or_else (Api.detail e) (VStr common_error))))
        /\ (forall r, Api.settle (hd silence replies) = Return r ->
              let current := or_else (opt (Api.data r) "settings") (VObj []) in
              let write :=
                Api.add_token b
                  (Api.defaults PATCH ("/api/clients/" +:+ tenant) []
                     (Some (ConfigIndex.language_payload current newLocale))) in
              (forall e, Api.settle (hd silence (drop 1 replies)) = Throw e ->
                 exists b' s',
                   run replies go b s = ([read; write], (b', s', Return tt))
                   /\ ConfigIndex.locale s' = ConfigIndex.locale s
                   /\ (forall k, k <> "token" -> getItem k b' = getItem k b)
                   /\ ConfigIndex.savingLang s' = false
                   /\ ConfigIndex.message s'
                      = Some (AdminDashboard.Failure
                                (or_else (Api.detail e) (VStr common_error))))
              /\ (forall r2 key,
                    Api.settle (hd silence (drop 1 replies)) = Return r2 ->
                    I18n.savedKey (I18n.resolveTenantId b) = Return key ->
                    exists s',
                      run replies go b s
                      = ([read; write],
                         (setItem "locale" newLocale (setItem key newLocale b), s',
                          Return tt))
                      /\ ConfigIndex.locale s' = VStr newLocale
                      /\ ConfigIndex.savingLang s' = false
                      /\ ConfigIndex.message s'
                         = Some (AdminDashboard.Success (VStr "Language updated")))))
  /\ (forall props k,
        own (own (ConfigIndex.language_payload (VObj props) newLocale) "settings") k
        = if String.eqb k "locale" then VStr newLocale else own (VObj props) k).
Proof.
  intros go. subst go. split; [apply saveDashboardLanguage_idle|]. split.
  - intros tenant Ht Hne read. split.
    + intros e Hx. rewrite (saveDashboardLanguage_unread common_error newLocale replies b s
                              tenant e) by done.
      do 2 eexists. split; [reflexivity|]. split; [done|]. split; [|done].
      intros k Hk. destruct (Api.is_unauthorized e); [|done].
      rewrite getItem_navigate. by rewrite getItem_removeItem_ne.
    + intros r Hx current write. split.
      * intros e Hy. rewrite (saveDashboardLanguage_unsaved common_error newLocale replies b s
                                tenant r e) by done.
        do 2 eexists. split; [reflexivity|]. split; [done|]. split; [|done].
        intros k Hk. destruct (Api.is_unauthorized e); [|done].
        rewrite getItem_navigate. by rewrite getItem_removeItem_ne.
      * intros r2 key Hy Hkey.
        rewrite (saveDashboardLanguage_saved common_error newLocale replies b s
                   tenant r r2 key) by done.
        eexists. by split.
  - intros props k. unfold ConfigIndex.language_payload. cbn [own lookup_prop Endpoints.spread].
    rewrite String.eqb_refl. cbn [own]. apply lookup_set_prop.
Qed.

(** Pacific Surf switches to Spanish; its time zone stays in the settings. *)
Lemma language_witness :
  let b := setItem "user" "{client}" Sample.fresh_browser in
  let s := ConfigIndex.setTenantId (VStr "pacific-surf") ConfigIndex.initial in
  let record := VObj [("id", VStr "pacific-surf");
                      ("settings", VObj [("tz", VStr "America/Lima"); ("locale", VStr "pt")])] in
  exists s',
    run [Sample.ok record; Sample.ok record]
        (ConfigIndex.saveDashboardLanguage (H := Sample.builtins) "Erro" "es") b s
    = ([Api.defaults GET "/api/clients/pacific-surf" [] None;
        Api.defaults PATCH "/api/clients/pacific-surf" []
          (Some (VObj [("settings",
                        VObj [("tz", VStr "America/Lima"); ("locale", VStr "es")])]))],
       (setItem "locale" "es" (setItem "locale:pacific-surf" "es" b), s', Return tt))
    /\ ConfigIndex.locale s' = VStr "es".
Proof.
  intros b s record.
  destruct (language_is_saved_then_applied (H := Sample.builtins) "Erro" "es"
              [Sample.ok record; Sample.ok record] b s) as (_ & Htenant & _).
  destruct (Htenant "pacific-surf" eq_refl ltac:(discriminate)) as [_ Hread].
  destruct (Hread _ eq_refl) as [_ Hwrite].
  destruct (Hwrite _ "locale:pacific-surf" eq_refl eq_refl) as (s' & Hrun & Hlocale & _).
  exists s'. split; [exact Hrun|exact Hlocale].
Defined.

(** ** The locale, chosen and read back *)

Section Reload.
Context `{Builtins}.
Import I18n.

Lemma savedKey_prefix tenantId key :
  savedKey tenantId = Return key -> String.prefix "locale" key = true.
Proof.
  unfold savedKey. destruct (truthy tenantId); [|by intros [= <-]].
  destruct (to_string tenantId) as [t|e]; [|done]. by intros [= <-].
Qed.

Lemma resolveTenantId_frame b b' :
  getItem "user" b' = getItem "user" b ->
  getItem "active_tenant_id" b' = getItem "active_tenant_id" b ->
  resolveTenantId b' = resolveTenantId b.
Proof.
  intros Hu Ha. unfold resolveTenantId, Session.stored_user, Session.tenant_of,
    Session.getItem_value. by rewrite Hu, Ha.
Qed.

End Reload.

(** X29.  A language chosen with [setLocale] is the one the provider
    starts with on the next load: the effect finds it under the tenant's
    key and asks the server for nothing, as long as the translation table
    knows the language.  The tenant the provider resolves is not touched by
    the two keys written. *)
Theorem chosen_locale_survives_reload `{Builtins} (translated : string -> bool)
  (newLocale key : string) (replies : list reply) (b : browser) (s : value) :
  I18n.savedKey (I18n.resolveTenantId b) = Return key ->
  newLocale <> "" -> translated newLocale = true ->
  exists b',
    run replies (I18n.setLocale newLocale) b s = ([], (b', VStr newLocale, Return tt))
    /\ I18n.resolveTenantId b' = I18n.resolveTenantId b
    /\ getItem key b' = Some newLocale
    /\ getItem "locale" b' = Some newLocale
    /\ forall cancelled replies' s0,
         run replies' (I18n.run_effect translated cancelled) b' s0
         = ([], (b', VStr newLocale, Return tt)).
Proof.
  intros Hkey Hne Ht. eexists. split; [by apply setLocale_run|].
  pose proof (savedKey_prefix _ _ Hkey) as Hprefix.
  assert (key <> "user" /\ key <> "active_tenant_id") as [Hk1 Hk2].
  { split; intros ->; discriminate Hprefix. }
  assert (I18n.resolveTenantId (setItem "locale" newLocale (setItem key newLocale b))
          = I18n.resolveTenantId b) as Hsame.
  { apply resolveTenantId_frame; by rewrite !getItem_setItem_ne by done. }
  assert (getItem key (setItem "locale" newLocale (setItem key newLocale b))
          = Some newLocale) as Hread.
  { destruct (decide (key = "locale")) as [->|Hk]; [apply getItem_setItem|].
    rewrite getItem_setItem_ne by done. apply getItem_setItem. }
  split; [done|]. split; [done|]. split; [apply getItem_setItem|].
  intros cancelled replies' s0.
  apply (effect_saved translated cancelled replies' _ s0 key newLocale); [|done..].
  by rewrite Hsame.
Qed.

(** Pacific Surf's user picks English and reloads. *)
Lemma chosen_locale_witness :
  let b := setItem "user" "{client}" Sample.fresh_browser in
  exists b',
    run [] (I18n.setLocale (H := Sample.builtins) "en") b I18n.initial
    = ([], (b', VStr "en", Return tt))
    /\ getItem "locale:pacific-surf" b' = Some "en"
    /\ run [] (I18n.run_effect (H := Sample.builtins) Sample.translated false) b' I18n.initial
       = ([], (b', VStr "en", Return tt)).
Proof.
  intros b.
  destruct (chosen_locale_survives_reload (H := Sample.builtins) Sample.translated "en"
              "locale:pacific-surf" [] b I18n.initial eq_refl ltac:(discriminate) eq_refl)
    as (b' & Hrun & _ & Hkey & _ & Hreload).
  exists b'. split; [exact Hrun|]. split; [exact Hkey|apply Hreload].
Defined.

(** ** The sidebar *)

Lemma prefix_both a c p :
  String.prefix a p = true -> String.prefix c p = true ->
  String.prefix a c = true \/ String.prefix c a = true.
Proof.
  revert c p. induction a as [|x a IH]; intros c p; [intros _ _; left; by destruct c|].
  destruct c as [|y c]; [intros _ _; by right|].
  destruct p as [|z p]; [done|]. cbn.
  destruct (Ascii.ascii_dec x z) as [->|]; [|done].
  destruct (Ascii.ascii_dec y z) as [->|]; [|done].
  destruct (Ascii.ascii_dec z z); [|done]. apply IH.
Qed.

Lemma prefix_split h p : String.prefix h p = true -> exists rest, p = h +:+ rest.
Proof.
  revert p. induction h as [|x h IH]; intros p; [by exists p|].
  destruct p as [|z p]; [done|]. cbn.
  destruct (Ascii.ascii_dec x z) as [->|]; [|done].
  intros [rest ->]%IH. by exists rest.
Qed.

Lemma isActive_dash pathname :
  Sidebar.isActive pathname "/dash" = String.eqb pathname "/dash".
Proof. done. Qed.

Lemma isActive_other pathname h :
  String.eqb h "/dash" = false -> Sidebar.isActive pathname h = String.prefix h pathname.
Proof. intros Hh. unfold Sidebar.isActive. by rewrite Hh. Qed.

(** X30.  In the sidebar at most one entry is highlighted for any path.
    "Dashboard" is highlighted on [/dash] alone, every other entry on the
    paths that begin with its link.  An administrator is offered all six
    entries, anyone else the first three, none of them for administrators
    only. *)
Theorem sidebar_highlights_one_entry (pathname : string) (user : value) :
  (forall a c,
     a ∈ Sidebar.navItems -> c ∈ Sidebar.navItems ->
     Sidebar.isActive pathname (Sidebar.href a) = true ->
     Sidebar.isActive pathname (Sidebar.href c) = true -> a = c)
  /\ (Sidebar.isActive pathname "/dash" = true <-> pathname = "/dash")
  /\ (forall h, h <> "/dash" ->
        Sidebar.isActive pathname h = true <-> exists rest, pathname = h +:+ rest)
  /\ (is_str (opt user "role") "admin" = true -> Sidebar.shown user = Sidebar.navItems)
  /\ (is_str (opt user "role") "admin" = false ->
      Sidebar.shown user = take 3 Sidebar.navItems
      /\ Forall (fun item => Sidebar.adminOnly item = false) (Sidebar.shown user)).
Proof.
  split; [|split; [|split; [|split]]].
  - intros a c Ha Hc. unfold Sidebar.navItems in Ha, Hc.
    repeat (apply elem_of_cons in Ha as [->|Ha]);
      try (by apply elem_of_nil in Ha);
      repeat (apply elem_of_cons in Hc as [->|Hc]);
      try (by apply elem_of_nil in Hc);
      cbn [Sidebar.href]; intros H1 H2;
      first [ done
            | rewrite isActive_dash in H1; apply String.eqb_eq in H1; subst pathname;
              by vm_compute in H2
            | rewrite isActive_dash in H2; apply String.eqb_eq in H2; subst pathname;
              by vm_compute in H1
            | rewrite isActive_other in H1 by done;
              rewrite isActive_other in H2 by done;
              destruct (prefix_both _ _ _ H1 H2) as [H|H]; by vm_compute in H ].
  - rewrite isActive_dash. apply String.eqb_eq.
  - intros h Hh. rewrite isActive_other by (by apply String.eqb_neq). split.
    + apply prefix_split.
    + intros [rest ->]. apply prefix_append.
  - intros Hadmin. unfold Sidebar.shown, Sidebar.navItems.
    rewrite !filter_cons, filter_nil. cbn [Sidebar.adminOnly negb orb].
    rewrite Hadmin. by vm_compute.
  - intros Hother. unfold Sidebar.shown, Sidebar.navItems.
    rewrite !filter_cons, filter_nil. cbn [Sidebar.adminOnly negb orb].
    rewrite Hother. split; [by vm_compute|]. vm_compute. by repeat constructor.
Qed.
